(** * Deterministic classifier and workflow orchestrator (autonomous-agent v3)

    A shallow embedding of [classifier.js] (entity extraction, intent
    scoring, classification, planning) and of [orchestrator.js] (the
    [WorkflowOrchestrator.process] pipeline and its metrics), followed by the
    properties of the specification that were checked against them. The
    embedding also covers what [tools.js] does around the shell and the
    network, and the command line and the orchestrator of [v3.js]; further
    properties of the code come after those of the specification.

    Conventions of the embedding.
    - A JavaScript string is a [string] whose characters are the code units
      U+0000..U+00FF; case mapping, white space and word characters are the
      ECMAScript ones restricted to that range.
    - A JavaScript number that carries a score is a binary64 [float]
      ([PrimFloat] implements the IEEE 754 operations JavaScript uses);
      a number that counts is a [Z].
    - A thrown value is an [Error] object, represented by its [message], or
      any other value, [null] and [undefined] among them; a [catch] block
      reads [err.message] of what it caught, which throws on those two.
    - A value is plain data ([jsval]): [undefined], [null], a boolean, a
      number, a string, an array or an object with data properties.
    - A call of an injected collaborator (tool executor, model adapter)
      is a transition on an abstract world [W] that either returns or throws. *)

From Stdlib Require Import Floats ZArith NArith List Ascii String Bool Lia PeanoNat Sorted.
From stdpp Require Import gmap strings.
Import ListNotations.

Set Warnings "-inexact-float,-register-all".
Local Open Scope string_scope.
Local Open Scope list_scope.

(* ===================================================================== *)
(** ** JavaScript strings *)
(* ===================================================================== *)

Module JsString.

Definition code (c : ascii) : N := N_of_ascii c.

Definition between (lo hi n : N) : bool := (N.leb lo n && N.leb n hi)%bool.

(** [\w]: the characters [A-Za-z0-9_]. *)
Definition is_word (c : ascii) : bool :=
  let n := code c in
  (between 97 122 n || between 65 90 n || between 48 57 n || N.eqb n 95)%bool.

(** [\s]: white space and line terminators (TAB, LF, VT, FF, CR, SP, NBSP). *)
Definition is_space (c : ascii) : bool :=
  let n := code c in
  (between 9 13 n || N.eqb n 32 || N.eqb n 160)%bool.

(** Line terminators, which [.] does not match. *)
Definition is_line_terminator (c : ascii) : bool :=
  let n := code c in (N.eqb n 10 || N.eqb n 13)%bool.

(** [String.prototype.toLowerCase] on one code unit. *)
Definition lower_char (c : ascii) : ascii :=
  let n := code c in
  if (between 65 90 n || (between 192 222 n && negb (N.eqb n 215)))%bool
  then ascii_of_N (n + 32) else c.

(** [String.prototype.toUpperCase] on one code unit whose upper case is
    again a single code unit of the range. *)
Definition upper_char (c : ascii) : ascii :=
  let n := code c in
  if (between 97 122 n || (between 224 254 n && negb (N.eqb n 247)))%bool
  then ascii_of_N (n - 32) else c.

(** [Canonicalize] of the regular-expression semantics under the [i] flag
    (non-unicode mode): the upper case of the code unit, as a code point
    (U+00FF and U+00B5 leave the range; U+00DF has no one-unit upper case). *)
Definition canonicalize (c : ascii) : N :=
  let n := code c in
  if (between 97 122 n || (between 224 254 n && negb (N.eqb n 247)))%bool then n - 32
  else if N.eqb n 255 then 376
  else if N.eqb n 181 then 924
  else n.

Fixpoint map_chars (f : ascii -> ascii) (s : string) : string :=
  match s with
  | EmptyString => EmptyString
  | String c t => String (f c) (map_chars f t)
  end.

Definition toLowerCase : string -> string := map_chars lower_char.
Definition toUpperCase : string -> string := map_chars upper_char.

Fixpoint starts_with (p s : string) : bool :=
  match p, s with
  | EmptyString, _ => true
  | String a p', String b s' => (Ascii.eqb a b && starts_with p' s')%bool
  | String _ _, EmptyString => false
  end.

(** [s.includes(p)] *)
Fixpoint includes (s p : string) : bool :=
  (starts_with p s ||
   match s with
   | EmptyString => false
   | String _ t => includes t p
   end)%bool.

Fixpoint take (n : nat) (s : string) : string :=
  match n, s with
  | S n', String c t => String c (take n' t)
  | _, _ => EmptyString
  end.

Fixpoint drop_spaces (s : string) : string :=
  match s with
  | String c t => if is_space c then drop_spaces t else s
  | EmptyString => EmptyString
  end.

Fixpoint rev_onto (s acc : string) : string :=
  match s with
  | EmptyString => acc
  | String c t => rev_onto t (String c acc)
  end.

Definition rev (s : string) : string := rev_onto s EmptyString.

(** [s.trim()] *)
Definition trim (s : string) : string :=
  rev (drop_spaces (rev (drop_spaces s))).

(** [a.join(sep)] on an array of strings. *)
Fixpoint join (sep : string) (l : list string) : string :=
  match l with
  | [] => EmptyString
  | [x] => x
  | x :: t => x ++ sep ++ join sep t
  end.

(** [s.split(/\s+/)]: the pieces between maximal runs of white space;
    a leading or trailing run yields an empty first or last piece. *)
Fixpoint split_spaces_from (cur : string) (in_run : bool) (s : string) : list string :=
  match s with
  | EmptyString => [rev cur]
  | String c t =>
      if is_space c then
        if in_run then split_spaces_from cur true t
        else rev cur :: split_spaces_from EmptyString true t
      else split_spaces_from (String c cur) false t
  end.

Definition split_spaces (s : string) : list string :=
  split_spaces_from EmptyString false s.

(** Truthiness of a string: non-empty. *)
Definition truthy (s : string) : bool :=
  match s with EmptyString => false | _ => true end.

End JsString.

(* ===================================================================== *)
(** ** Regular expressions

    The fragment of ECMAScript regular expressions that the classifier
    uses, with the backtracking semantics of the language definition
    (leftmost match, ordered alternatives, greedy and lazy quantifiers,
    numbered captures). Patterns are kept as their source text and parsed. *)
(* ===================================================================== *)

Module Regex.
Import JsString.

Inductive class_item : Type :=
| CChar (c : ascii)     (* a literal character *)
| CWord                 (* \w *)
| CSpace                (* \s *)
| CNotSpace.            (* \S *)

Inductive regex : Type :=
| Empty
| Chr (c : ascii)
| Any                                       (* .     *)
| Class (negated : bool) (items : list class_item)
| WordBoundary                              (* \b    *)
| Bol                                       (* ^     *)
| Eol                                       (* $     *)
| Seq (r1 r2 : regex)
| Alt (r1 r2 : regex)
| Rep (lo : nat) (hi : option nat) (greedy : bool) (r : regex)
| Group (n : nat) (r : regex).              (* n-th capturing group *)

(** *** Parser *)

Definition digit_value (c : ascii) : option nat :=
  let n := code c in
  if between 48 57 n then Some (N.to_nat (n - 48)) else None.

Definition hex_value (c : ascii) : option N :=
  let n := code c in
  if between 48 57 n then Some (n - 48)%N
  else if between 97 102 n then Some (n - 87)%N
  else if between 65 70 n then Some (n - 55)%N
  else None.

Fixpoint parse_nat (acc : nat) (seen : bool) (s : string) : option (nat * string) :=
  match s with
  | String c t =>
      match digit_value c with
      | Some d => parse_nat (10 * acc + d) true t
      | None => if seen then Some (acc, s) else None
      end
  | EmptyString => if seen then Some (acc, s) else None
  end.

(** The escape after a backslash, as a class item. *)
Definition parse_escape (s : string) : option (class_item * string) :=
  match s with
  | String "w" t => Some (CWord, t)
  | String "s" t => Some (CSpace, t)
  | String "S" t => Some (CNotSpace, t)
  | String "x" (String h (String l t)) =>
      match hex_value h, hex_value l with
      | Some a, Some b => Some (CChar (ascii_of_N (16 * a + b)), t)
      | _, _ => None
      end
  | String c t =>
      if (is_word c) then None      (* other letter escapes are not used *)
      else Some (CChar c, t)
  | EmptyString => None
  end.

(** The items of a character class, up to the closing bracket. A [-]
    is literal just before the bracket; ranges are not used. *)
Fixpoint parse_class (fuel : nat) (s : string) : option (list class_item * string) :=
  match fuel with
  | O => None
  | S fuel' =>
      match s with
      | EmptyString => None
      | String "]" t => Some ([], t)
      | String "\" t =>
          match parse_escape t with
          | Some (i, t') =>
              match parse_class fuel' t' with
              | Some (items, t'') => Some (i :: items, t'')
              | None => None
              end
          | None => None
          end
      | String "-" (String "]" t) => Some ([CChar "-"], t)
      | String "-" _ => None
      | String c t =>
          match parse_class fuel' t with
          | Some (items, t') => Some (CChar c :: items, t')
          | None => None
          end
      end
  end.

(** A quantifier after an atom, if any: bounds and greediness. *)
Definition parse_quantifier (s : string)
  : option (option (nat * option nat * bool) * string) :=
  let lazy (q : nat * option nat) (t : string) :=
    match t with
    | String "?" t' => Some (Some (q, false), t')
    | _ => Some (Some (q, true), t)
    end in
  match s with
  | String "*" t => lazy (0, None) t
  | String "+" t => lazy (1, None) t
  | String "?" t => lazy (0, Some 1) t
  | String "{" t =>
      match parse_nat 0 false t with
      | Some (lo, String "}" t') => lazy (lo, Some lo) t'
      | Some (lo, String "," (String "}" t')) => lazy (lo, None) t'
      | Some (lo, String "," t') =>
          match parse_nat 0 false t' with
          | Some (hi, String "}" t'') => lazy (lo, Some hi) t''
          | _ => None
          end
      | _ => None
      end
  | _ => Some (None, s)
  end.

Definition quantify (r : regex) (q : option (nat * option nat * bool)) : regex :=
  match q with
  | Some (lo, hi, greedy) => Rep lo hi greedy r
  | None => r
  end.

(** Disjunction, alternative and term of the grammar. [g] is the number of
    capturing groups opened so far; groups are numbered by their opening
    parenthesis. *)
Fixpoint parse_disjunction (fuel g : nat) (s : string) : option (regex * nat * string) :=
  match fuel with
  | O => None
  | S fuel' =>
      match parse_alternative fuel' g s with
      | Some (r1, g1, String "|" t) =>
          match parse_disjunction fuel' g1 t with
          | Some (r2, g2, t') => Some (Alt r1 r2, g2, t')
          | None => None
          end
      | other => other
      end
  end
with parse_alternative (fuel g : nat) (s : string) : option (regex * nat * string) :=
  match fuel with
  | O => None
  | S fuel' =>
      match s with
      | EmptyString => Some (Empty, g, s)
      | String "|" _ => Some (Empty, g, s)
      | String ")" _ => Some (Empty, g, s)
      | _ =>
          match parse_term fuel' g s with
          | Some (r1, g1, t) =>
              match parse_alternative fuel' g1 t with
              | Some (Empty, g2, t') => Some (r1, g2, t')
              | Some (r2, g2, t') => Some (Seq r1 r2, g2, t')
              | None => None
              end
          | None => None
          end
      end
  end
with parse_term (fuel g : nat) (s : string) : option (regex * nat * string) :=
  let quantified (r : regex) (g' : nat) (t : string) :=
    match parse_quantifier t with
    | Some (q, t') => Some (quantify r q, g', t')
    | None => None
    end in
  match fuel with
  | O => None
  | S fuel' =>
      match s with
      | String "^" t => Some (Bol, g, t)
      | String "$" t => Some (Eol, g, t)
      | String "\" (String "b" t) => Some (WordBoundary, g, t)
      | String "\" t =>
          match parse_escape t with
          | Some (CChar c, t') => quantified (Chr c) g t'
          | Some (i, t') => quantified (Class false [i]) g t'
          | None => None
          end
      | String "." t => quantified Any g t
      | String "[" (String "^" t) =>
          match parse_class fuel' t with
          | Some (items, t') => quantified (Class true items) g t'
          | None => None
          end
      | String "[" t =>
          match parse_class fuel' t with
          | Some (items, t') => quantified (Class false items) g t'
          | None => None
          end
      | String "(" (String "?" (String ":" t)) =>
          match parse_disjunction fuel' g t with
          | Some (r, g', String ")" t') => quantified r g' t'
          | _ => None
          end
      | String "(" (String "?" _) => None
      | String "(" t =>
          match parse_disjunction fuel' (S g) t with
          | Some (r, g', String ")" t') => quantified (Group (S g) r) g' t'
          | _ => None
          end
      | String "*" _ | String "+" _ | String "?" _ | String "{" _
      | String "}" _ | String "]" _ | String ")" _ | String "|" _ => None
      | String c t => quantified (Chr c) g t
      | EmptyString => None
      end
  end.

Definition parse (src : string) : option regex :=
  match parse_disjunction (3 * String.length src + 3) 0 src with
  | Some (r, _, EmptyString) => Some r
  | _ => None
  end.

(** A pattern that matches nothing stands for a source text outside the
    fragment; [ClassifierFacts.patterns_parse] shows that none is. *)
Definition compile (src : string) : regex :=
  match parse src with
  | Some r => r
  | None => Class false []
  end.

(** *** Matcher *)

(** A position in the subject: index, previous character, remaining text,
    and the captures made so far. *)
Record mstate : Type := MState {
  pos : nat;
  prev : option ascii;
  rest : string;
  caps : list (nat * string)
}.

Definition advance (c : ascii) (t : string) (s : mstate) : mstate :=
  {| pos := S (pos s); prev := Some c; rest := t; caps := caps s |}.

Definition char_eq (ci : bool) (x c : ascii) : bool :=
  if ci then N.eqb (canonicalize x) (canonicalize c) else Ascii.eqb x c.

Definition item_matches (ci : bool) (x : ascii) (i : class_item) : bool :=
  match i with
  | CChar c => char_eq ci x c
  | CWord => is_word x
  | CSpace => is_space x
  | CNotSpace => negb (is_space x)
  end.

Definition is_word_opt (o : option ascii) : bool :=
  match o with Some c => is_word c | None => false end.

Definition next_char (s : string) : option ascii :=
  match s with String c _ => Some c | EmptyString => None end.

(** The capturing groups inside a pattern: a quantifier resets them at
    the start of every iteration. *)
Fixpoint groups_of (r : regex) : list nat :=
  match r with
  | Seq a b | Alt a b => groups_of a ++ groups_of b
  | Rep _ _ _ a => groups_of a
  | Group n a => n :: groups_of a
  | _ => []
  end.

Definition clear_caps (gs : list nat) (s : mstate) : mstate :=
  {| pos := pos s; prev := prev s; rest := rest s;
     caps := List.filter (fun p => negb (existsb (Nat.eqb (fst p)) gs)) (caps s) |}.

Definition set_cap (n : nat) (text : string) (s : mstate) : mstate :=
  {| pos := pos s; prev := prev s; rest := rest s;
     caps := (n, text) :: List.filter (fun p => negb (Nat.eqb (fst p) n)) (caps s) |}.

Definition get_cap (n : nat) (cs : list (nat * string)) : option string :=
  match List.find (fun p => Nat.eqb (fst p) n) cs with
  | Some (_, t) => Some t
  | None => None
  end.

Definition or_else {A : Type} (a : option A) (b : unit -> option A) : option A :=
  match a with Some x => Some x | None => b tt end.

Definition cont : Type := mstate -> option mstate.

(** RepeatMatcher: an iteration that consumes nothing once the lower
    bound is met is rejected, so [lo + String.length (rest s)] bounds the
    number of iterations and the fuel below never runs out
    ([RegexFacts.quantifier_fuel_suffices]). *)
Fixpoint repeat_matcher (body : cont -> cont) (gs : list nat) (fuel lo : nat)
    (hi : option nat) (greedy : bool) (k : cont) (s : mstate) : option mstate :=
  match fuel with
  | O => k s
  | S fuel' =>
      match hi with
      | Some O => k s
      | _ =>
          let d (s' : mstate) :=
            if (Nat.eqb lo 0 && Nat.eqb (pos s') (pos s))%bool then None
            else repeat_matcher body gs fuel' (Nat.pred lo)
                   (option_map Nat.pred hi) greedy k s' in
          let iterate (_ : unit) := body d (clear_caps gs s) in
          if negb (Nat.eqb lo 0) then iterate tt
          else if greedy then or_else (iterate tt) (fun _ => k s)
          else or_else (k s) iterate
      end
  end.

Fixpoint matcher (ci : bool) (r : regex) (k : cont) (s : mstate) : option mstate :=
  match r with
  | Empty => k s
  | Chr c =>
      match rest s with
      | String x t => if char_eq ci x c then k (advance x t s) else None
      | EmptyString => None
      end
  | Any =>
      match rest s with
      | String x t => if is_line_terminator x then None else k (advance x t s)
      | EmptyString => None
      end
  | Class negated items =>
      match rest s with
      | String x t =>
          if xorb negated (existsb (item_matches ci x) items)
          then k (advance x t s) else None
      | EmptyString => None
      end
  | WordBoundary =>
      if xorb (is_word_opt (prev s)) (is_word_opt (next_char (rest s)))
      then k s else None
  | Bol => match prev s with None => k s | Some _ => None end
  | Eol => match rest s with EmptyString => k s | String _ _ => None end
  | Seq a b => matcher ci a (matcher ci b k) s
  | Alt a b => or_else (matcher ci a k s) (fun _ => matcher ci b k s)
  | Rep lo hi greedy a =>
      repeat_matcher (matcher ci a) (groups_of a)
        (S (lo + String.length (rest s))) lo hi greedy k s
  | Group n a =>
      matcher ci a (fun s' => k (set_cap n (take (pos s' - pos s) (rest s)) s')) s
  end.

(** *** RegExp objects and the string methods that take them *)

Record RegExp : Type := {
  source : string;
  ignoreCase : bool;
  global : bool
}.

(** [/src/] , [/src/i] and [new RegExp(r, 'g')] (which replaces the flags). *)
Definition re (src : string) : RegExp :=
  {| source := src; ignoreCase := false; global := false |}.
Definition re_i (src : string) : RegExp :=
  {| source := src; ignoreCase := true; global := false |}.
Definition with_flag_g (r : RegExp) : RegExp :=
  {| source := source r; ignoreCase := false; global := true |}.

Record match_result : Type := {
  m_index : nat;
  m_text : string;                  (* [m[0]] *)
  m_caps : list (nat * string);     (* [m[n]], absent when undefined *)
  m_end : mstate
}.

(** The leftmost match at or after a position. *)
Fixpoint search_from (ci : bool) (r : regex) (i : nat) (p : option ascii)
    (s : string) : option match_result :=
  match matcher ci r Some {| pos := i; prev := p; rest := s; caps := [] |} with
  | Some e =>
      Some {| m_index := i; m_text := take (pos e - i) s;
              m_caps := caps e; m_end := e |}
  | None =>
      match s with
      | String c t => search_from ci r (S i) (Some c) t
      | EmptyString => None
      end
  end.

(** [r.exec(s)] for a pattern without the [g] flag, also [s.match(r)]. *)
Definition exec (r : RegExp) (s : string) : option match_result :=
  search_from (ignoreCase r) (compile (source r)) 0 None s.

(** [r.test(s)] for a pattern without the [g] flag. *)
Definition test (r : RegExp) (s : string) : bool :=
  match exec r s with Some _ => true | None => false end.

(** [s.match(r)] for a pattern with the [g] flag: the texts of the
    successive matches, each search resuming where the last match ended
    (one further after an empty match); [[]] stands for [null]. *)
Fixpoint match_all_from (fuel : nat) (ci : bool) (r : regex) (i : nat)
    (p : option ascii) (s : string) : list string :=
  match fuel with
  | O => []
  | S fuel' =>
      match search_from ci r i p s with
      | None => []
      | Some m =>
          let e := m_end m in
          m_text m ::
          (if Nat.eqb (pos e) (m_index m) then
             match rest e with
             | String c t => match_all_from fuel' ci r (S (pos e)) (Some c) t
             | EmptyString => []
             end
           else match_all_from fuel' ci r (pos e) (prev e) (rest e))
      end
  end.

Definition match_all (r : RegExp) (s : string) : list string :=
  match_all_from (S (String.length s)) (ignoreCase r) (compile (source r)) 0 None s.

End Regex.

(* ===================================================================== *)
(** ** JavaScript values that cross the tool and model interfaces *)
(* ===================================================================== *)

Inductive jsval : Type :=
| JUndefined
| JNull
| JBool (b : bool)
| JNum (x : float)
| JStr (s : string)
| JArr (items : list jsval)
| JObj (fields : list (string * jsval)).

(** [Math.min(x, y)] *)
Definition Math_min (x y : float) : float :=
  if (PrimFloat.is_nan x || PrimFloat.is_nan y)%bool then PrimFloat.nan
  else if PrimFloat.ltb x y then x
  else if PrimFloat.ltb y x then y
  else if PrimFloat.get_sign x then x else y.

(** [a.sort(cmp)]: the sort is stable, and an element moves behind another
    exactly when the comparator is positive on the pair. *)
Section ArraySort.
Context {A : Type} (cmp : A -> A -> float).

Fixpoint sort_insert (x : A) (l : list A) : list A :=
  match l with
  | [] => [x]
  | y :: l' =>
      if PrimFloat.ltb 0 (cmp x y) then y :: sort_insert x l'
      else x :: y :: l'
  end.

Fixpoint Array_sort (l : list A) : list A :=
  match l with
  | [] => []
  | x :: l' => sort_insert x (Array_sort l')
  end.
End ArraySort.

(* ===================================================================== *)
(** ** classifier.js *)
(* ===================================================================== *)

Module TaskType.
Record t : Type := {
  id : string;
  patterns : list Regex.RegExp;
  keywords : list string;
  tools : list string;
  confidence_boost : float
}.
End TaskType.

Module GitOp.
Record t : Type := { operation : string; args : string }.
End GitOp.

Module Entities.
Record t : Type := {
  filePaths : list string;
  urls : list string;
  commands : list string;
  packages : list string;
  gitOps : list GitOp.t
}.
End Entities.

Module Candidate.
Record t : Type := {
  taskType : string;
  confidence : float;
  matchedPatterns : nat;
  matchedKeywords : nat;
  tools : list string;
  entities : Entities.t
}.
End Candidate.

Module Classification.
Record t : Type := {
  intent : string;
  confidence : float;
  needsModel : bool;
  reason : string;
  tools : list string;
  entities : Entities.t;
  allScores : list Candidate.t
}.
End Classification.

Module Step.
Record t : Type := { tool : jsval; args : jsval }.
End Step.

Module Plan.
Record t : Type := {
  intent : string;
  steps : list Step.t;
  requiresModelForPlanning : bool
}.
End Plan.

Module Classifier.
Import JsString Regex.
Local Open Scope float_scope.

(** Task type definitions, in the order of the object literal. *)

Definition FILE_READ : TaskType.t := {|
  TaskType.id := "file_read";
  TaskType.patterns := [
    re_i "\bread\b.*\bfile\b";
    re_i "\bshow\b.*\b(contents?|file|code)\b";
    re_i "\bcat\b\s+\S+";
    re_i "\bview\b.*\b(file|source|code)\b";
    re_i "\bopen\b.*\b(file|document)\b";
    re_i "\bdisplay\b.*\b(file|contents?)\b";
    re_i "\bwhat('?s| is) in\b.*\b(file|folder|directory)\b";
    re_i "\blist\b.*\b(files?|directory|folder|dir)\b";
    re_i "\bls\b\s"
  ];
  TaskType.keywords := ["read"; "show"; "view"; "cat"; "display"; "contents"; "open"; "list"; "ls"; "dir"];
  TaskType.tools := ["read_file"; "list_directory"];
  TaskType.confidence_boost := 0.1
|}.

Definition FILE_WRITE : TaskType.t := {|
  TaskType.id := "file_write";
  TaskType.patterns := [
    re_i "\b(create|write|save|make)\b.*\bfile\b";
    re_i "\bwrite\b.*\bto\b";
    re_i "\bsave\b.*\b(as|to)\b";
    re_i "\bcreate\b.*\b(file|script|module|component)\b";
    re_i "\bgenerate\b.*\b(file|code|script)\b";
    re_i "\badd\b.*\bfile\b";
    re_i "\bnew\b.*\b(file|script)\b"
  ];
  TaskType.keywords := ["create"; "write"; "save"; "generate"; "new file"; "make file"];
  TaskType.tools := ["create_file"];
  TaskType.confidence_boost := 0.1
|}.

Definition FILE_EDIT : TaskType.t := {|
  TaskType.id := "file_edit";
  TaskType.patterns := [
    re_i "\b(edit|modify|update|change|fix|patch|refactor)\b.*\b(file|code|function|class|line)\b";
    re_i "\b(edit|fix|modify|update|patch)\b\s+\S+\.\w+";
    re_i "\b(fix|debug)\b.*\b(bug|issue|error|problem)\b.*\b(in)\b";
    re_i "\breplace\b.*\b(in|with)\b";
    re_i "\binsert\b.*\b(into|at|before|after)\b";
    re_i "\bremove\b.*\b(from|line|function)\b";
    re_i "\bdelete\b.*\b(line|function|block)\b";
    re_i "\bappend\b.*\bto\b"
  ];
  TaskType.keywords := ["edit"; "modify"; "update"; "change"; "fix"; "refactor"; "replace"; "insert"; "append"];
  TaskType.tools := ["edit_file"; "read_file"];
  TaskType.confidence_boost := 0.2
|}.

Definition SHELL_COMMAND : TaskType.t := {|
  TaskType.id := "shell_command";
  TaskType.patterns := [
    re_i "\brun\b.*\b(command|script|npm|node|python|bash|shell)\b";
    re_i "\bexecute\b";
    re_i "\binstall\b.*\b(package|dependency|module|npm|pip)\b";
    re_i "\bnpm\b\s+(install|run|start|test|build|init|publish|audit)";
    re_i "\bpip\b\s+install";
    re_i "\bgit\b\s+(clone|pull|push|commit|status|log|diff|branch|checkout)";
    re_i "\bdocker\b\s+(build|run|compose|pull|push)";
    re_i "\bcurl\b\s";
    re_i "\bwget\b\s";
    re_i "\bchmod\b";
    re_i "\bmkdir\b";
    re_i "\bnpx\b\s"
  ];
  TaskType.keywords := ["run"; "execute"; "install"; "npm"; "pip"; "git"; "docker"; "curl"; "bash"; "shell"; "command"];
  TaskType.tools := ["run_command"];
  TaskType.confidence_boost := 0.2
|}.

Definition HTTP_REQUEST : TaskType.t := {|
  TaskType.id := "http_request";
  TaskType.patterns := [
    re_i "\b(fetch|get|post|put|delete|patch)\b.*\b(api|endpoint|url|http)";
    re_i "\bcall\b.*\b(api|endpoint|service)\b";
    re_i "\brequest\b.*\b(to|from)\b.*\b(api|url|http)";
    re_i "\bhttp[s]?:\/\/";
    re_i "\bapi\b.*\b(call|request|fetch)\b";
    re_i "\bwebhook\b"
  ];
  TaskType.keywords := ["fetch"; "api"; "endpoint"; "request"; "http"; "url"; "webhook"; "REST"];
  TaskType.tools := ["http_request"];
  TaskType.confidence_boost := 0.15
|}.

Definition CODE_ANALYSIS : TaskType.t := {|
  TaskType.id := "code_analysis";
  TaskType.patterns := [
    re_i "\b(analyse|analyze|review|inspect|audit|lint|check)\b.*\b(code|file|function|module|project)\b";
    re_i "\bfind\b.*\b(bugs?|issues?|errors?|problems?)\b";
    re_i "\bcode\b.*\b(review|quality|smell)\b";
    re_i "\bwhat\b.*\b(does|is)\b.*\b(this|the)\b.*\b(code|function|class)\b";
    re_i "\bexplain\b.*\b(code|function|class|module)\b";
    re_i "\bdebug\b"
  ];
  TaskType.keywords := ["analyse"; "review"; "inspect"; "audit"; "lint"; "debug"; "explain code"; "code review"];
  TaskType.tools := ["read_file"; "search_files"; "run_command"];
  TaskType.confidence_boost := 0.05
|}.

Definition PROJECT_SCAFFOLD : TaskType.t := {|
  TaskType.id := "project_scaffold";
  TaskType.patterns := [
    re_i "\b(scaffold|bootstrap|initialise|initialize|setup|set up|start)\b.*\b(project|app|application|repo|repository)\b";
    re_i "\bnew\b.*\b(project|app|application)\b";
    re_i "\bcreate\b.*\b(project|app|application|repo)\b";
    re_i "\binit\b"
  ];
  TaskType.keywords := ["scaffold"; "bootstrap"; "initialise"; "setup"; "new project"; "create app"; "init"];
  TaskType.tools := ["run_command"; "create_file"; "run_command"];
  TaskType.confidence_boost := 0.1
|}.

Definition SEARCH : TaskType.t := {|
  TaskType.id := "search";
  TaskType.patterns := [
    re_i "\b(search|find|grep|look for|locate)\b.*\b(in|for|across)\b";
    re_i "\bwhere\b.*\b(is|are|does)\b";
    re_i "\bgrep\b";
    re_i "\bfind\b.*\b(file|function|class|variable|string|text|pattern)\b"
  ];
  TaskType.keywords := ["search"; "find"; "grep"; "locate"; "where is"];
  TaskType.tools := ["search_files"; "run_command"];
  TaskType.confidence_boost := 0.1
|}.

Definition TESTING : TaskType.t := {|
  TaskType.id := "testing";
  TaskType.patterns := [
    re_i "\b(test|spec|assert|verify|validate)\b";
    re_i "\brun\b.*\btests?\b";
    re_i "\bwrite\b.*\b(test|spec)\b";
    re_i "\bunit\s*test";
    re_i "\bintegration\s*test";
    re_i "\bcoverage\b"
  ];
  TaskType.keywords := ["test"; "spec"; "assert"; "verify"; "coverage"; "unit test"; "integration test"];
  TaskType.tools := ["run_command"; "create_file"; "read_file"];
  TaskType.confidence_boost := 0.1
|}.

Definition DEPLOYMENT : TaskType.t := {|
  TaskType.id := "deployment";
  TaskType.patterns := [
    re_i "\b(deploy|release|publish|ship|push to)\b.*\b(production|staging|server|cloud|npm|docker)\b";
    re_i "\bbuild\b.*\b(for|and)\b.*\b(production|deploy)";
    re_i "\bci\/?cd\b";
    re_i "\bpipeline\b"
  ];
  TaskType.keywords := ["deploy"; "release"; "publish"; "ship"; "production"; "staging"; "CI/CD"; "pipeline"];
  TaskType.tools := ["run_command"; "create_file"];
  TaskType.confidence_boost := 0.1
|}.

Definition TASK_TYPES : list (string * TaskType.t) := [
  ("FILE_READ", FILE_READ);
  ("FILE_WRITE", FILE_WRITE);
  ("FILE_EDIT", FILE_EDIT);
  ("SHELL_COMMAND", SHELL_COMMAND);
  ("HTTP_REQUEST", HTTP_REQUEST);
  ("CODE_ANALYSIS", CODE_ANALYSIS);
  ("PROJECT_SCAFFOLD", PROJECT_SCAFFOLD);
  ("SEARCH", SEARCH);
  ("TESTING", TESTING);
  ("DEPLOYMENT", DEPLOYMENT)
].

(** File path and URL detection. *)
Definition FILE_PATH_PATTERN : RegExp :=
  re "(?:^|\s)((?:\.{0,2}\/)?(?:[\w.-]+\/)*[\w.-]+\.[\w]+)(?:\s|$)".
Definition ABSOLUTE_PATH_PATTERN : RegExp :=
  re "(?:^|\s)(\/(?:[\w.-]+\/)*[\w.-]+)(?:\s|$)".
Definition URL_PATTERN : RegExp := re_i "https?:\/\/[^\s]+".

Definition NPM_INSTALL : RegExp :=
  re_i "npm\s+install\s+([\w@/.-]+(?:\s+[\w@/.-]+)*)".
Definition PIP_INSTALL : RegExp :=
  re_i "pip\s+install\s+([\w.-]+(?:\s+[\w.-]+)*)".
Definition GIT_OPERATION : RegExp :=
  re_i "git\s+(clone|pull|push|commit|status|log|diff|branch|checkout|merge|rebase|stash|tag)(?:\s+(.+?))?(?:\s*$)".

(** [m[n]] of a successful match, where group [n] takes part in every
    match of the pattern. *)
Definition group (n : nat) (m : match_result) : string :=
  match get_cap n (m_caps m) with Some t => t | None => EmptyString end.

(** Extract structured entities from user input. *)
Definition extractEntities (input : string) : Entities.t :=
  let relMatches := match_all (with_flag_g FILE_PATH_PATTERN) input in
  let absMatches := match_all (with_flag_g ABSOLUTE_PATH_PATTERN) input in
  let urlMatches := match_all (with_flag_g URL_PATTERN) input in
  let npmMatch := exec NPM_INSTALL input in
  let pipMatch := exec PIP_INSTALL input in
  let gitMatch := exec GIT_OPERATION input in
  {| Entities.filePaths := map trim relMatches ++ map trim absMatches;
     Entities.urls := urlMatches;
     Entities.commands := [];
     Entities.packages :=
       match npmMatch with Some m => split_spaces (group 1 m) | None => [] end ++
       match pipMatch with Some m => split_spaces (group 1 m) | None => [] end;
     Entities.gitOps :=
       match gitMatch with
       | Some m =>
           [ {| GitOp.operation := toLowerCase (group 1 m);
                GitOp.args :=
                  match get_cap 2 (m_caps m) with
                  | Some a => if truthy a then trim a else EmptyString
                  | None => EmptyString
                  end |} ]
       | None => []
       end |}.

Definition nonempty {A : Type} (l : list A) : bool :=
  match l with [] => false | _ :: _ => true end.

(** The running totals of the scoring loop of one task type. *)
Record tally : Type := {
  score : float;
  nPatterns : nat;
  nKeywords : nat
}.

Definition count_pattern (input : string) (a : tally) (pattern : RegExp) : tally :=
  if test pattern input
  then {| score := score a + 0.3; nPatterns := S (nPatterns a); nKeywords := nKeywords a |}
  else a.

Definition count_keyword (inputLower : string) (a : tally) (keyword : string) : tally :=
  if includes inputLower (toLowerCase keyword)
  then {| score := score a + 0.1; nPatterns := nPatterns a; nKeywords := S (nKeywords a) |}
  else a.

Definition boost_if (b : bool) (taskType : TaskType.t) (a : tally) : tally :=
  if b
  then {| score := score a + TaskType.confidence_boost taskType;
          nPatterns := nPatterns a; nKeywords := nKeywords a |}
  else a.

Definition is_id (taskType : TaskType.t) (name : string) : bool :=
  String.eqb (TaskType.id taskType) name.

Definition FILE_BOOSTED : list string :=
  ["file_read"; "file_write"; "file_edit"; "code_analysis"].

(** The body of the loop over the task types: the totals after the
    pattern loop, the keyword loop and the four entity boosts. *)
Definition score_one (input inputLower : string) (entities : Entities.t)
    (taskType : TaskType.t) : tally :=
  let a := {| score := 0; nPatterns := 0; nKeywords := 0 |} in
  let a := fold_left (count_pattern input) (TaskType.patterns taskType) a in
  let a := fold_left (count_keyword inputLower) (TaskType.keywords taskType) a in
  let a := boost_if (nonempty (Entities.filePaths entities) &&
                     existsb (String.eqb (TaskType.id taskType)) FILE_BOOSTED) taskType a in
  let a := boost_if (nonempty (Entities.urls entities) &&
                     is_id taskType "http_request") taskType a in
  let a := boost_if (nonempty (Entities.gitOps entities) &&
                     is_id taskType "shell_command") taskType a in
  let a := boost_if (nonempty (Entities.packages entities) &&
                     is_id taskType "shell_command") taskType a in
  a.

Definition candidate_of (entities : Entities.t) (taskType : TaskType.t) (a : tally)
  : list Candidate.t :=
  let confidence := Math_min (score a) 1.0 in
  if 0 <? confidence then
    [ {| Candidate.taskType := TaskType.id taskType;
         Candidate.confidence := confidence;
         Candidate.matchedPatterns := nPatterns a;
         Candidate.matchedKeywords := nKeywords a;
         Candidate.tools := TaskType.tools taskType;
         Candidate.entities := entities |} ]
  else [].

(** The [scores] array before it is sorted. *)
Definition unsorted_scores (input : string) : list Candidate.t :=
  let inputLower := toLowerCase input in
  let entities := extractEntities input in
  flat_map (fun '(typeName, taskType) =>
              candidate_of entities taskType
                (score_one input inputLower entities taskType))
           TASK_TYPES.

Definition by_confidence_desc (a b : Candidate.t) : float :=
  Candidate.confidence b - Candidate.confidence a.

(** Score each task type against the input. *)
Definition scoreTaskTypes (input : string) : list Candidate.t :=
  Array_sort by_confidence_desc (unsorted_scores input).

(** Classify user intent, with a confidence threshold. *)
Definition classify (input : string) (threshold : float) : Classification.t :=
  let scores := scoreTaskTypes input in
  match scores with
  | [] =>
      {| Classification.intent := "unknown";
         Classification.confidence := 0;
         Classification.needsModel := true;
         Classification.reason := "no_pattern_match";
         Classification.tools := [];
         Classification.entities := extractEntities input;
         Classification.allScores := [] |}
  | top :: others =>
      if threshold <=? Candidate.confidence top then
        let isAmbiguous :=
          match others with
          | second :: _ =>
              Candidate.confidence top - Candidate.confidence second <? 0.1
          | [] => false
          end in
        {| Classification.intent := Candidate.taskType top;
           Classification.confidence := Candidate.confidence top;
           Classification.needsModel := isAmbiguous;
           Classification.reason :=
             if isAmbiguous then "ambiguous_top_scores" else "deterministic_match";
           Classification.tools := Candidate.tools top;
           Classification.entities := Candidate.entities top;
           Classification.allScores := firstn 3 scores |}
      else
        {| Classification.intent := Candidate.taskType top;
           Classification.confidence := Candidate.confidence top;
           Classification.needsModel := true;
           Classification.reason := "low_confidence";
           Classification.tools := Candidate.tools top;
           Classification.entities := Candidate.entities top;
           Classification.allScores := firstn 3 scores |}
  end.

Definition DEFAULT_THRESHOLD : float := 0.4.

Definition HTTP_VERB : RegExp := re_i "\b(post|put|patch|delete)\b".
Definition SEARCH_TERM : RegExp :=
  re_i "(?:search|find|grep|look for|locate)\s+(?:for\s+)?[\x22']?(.+?)[\x22']?\s+(?:in|across|within)".
Definition RUN_TESTS : RegExp := re_i "\brun\b.*\btests?\b".
Definition NPM : RegExp := re_i "npm".

Definition step (tool : string) (args : list (string * jsval)) : Step.t :=
  {| Step.tool := JStr tool; Step.args := JObj args |}.

(** [a[0] || null]: the first element when it is a non-empty string. *)
Definition first_truthy (l : list string) : option string :=
  match l with
  | x :: _ => if truthy x then Some x else None
  | [] => None
  end.

Definition plan_of (intent : string) (steps : list Step.t) (requiresModel : bool) : Plan.t :=
  {| Plan.intent := intent; Plan.steps := steps;
     Plan.requiresModelForPlanning := requiresModel |}.

(** Generate a deterministic task plan from a classified intent. *)
Definition planFromIntent (classification : Classification.t) (input : string) : Plan.t :=
  let intent := Classification.intent classification in
  let entities := Classification.entities classification in
  let plan := plan_of intent in
  if String.eqb intent "file_read" then
    match first_truthy (Entities.filePaths entities) with
    | Some target => plan [step "read_file" [("path", JStr target)]] false
    | None => plan [step "list_directory" [("path", JStr ".")]] true
    end
  else if String.eqb intent "file_write" then
    match first_truthy (Entities.filePaths entities) with
    | Some target =>
        plan [step "create_file" [("path", JStr target); ("content", JNull)]] true
    | None => plan [] true
    end
  else if String.eqb intent "file_edit" then
    match first_truthy (Entities.filePaths entities) with
    | Some target =>
        plan [step "read_file" [("path", JStr target)];
              step "edit_file" [("path", JStr target); ("edits", JNull)]] true
    | None => plan [] true
    end
  else if String.eqb intent "shell_command" then
    match Entities.gitOps entities with
    | op :: _ =>
        let command :=
          ("git " ++ GitOp.operation op ++
           (if truthy (GitOp.args op) then " " ++ GitOp.args op else ""))%string in
        plan [step "run_command" [("command", JStr command)]] false
    | [] =>
        if nonempty (Entities.packages entities) then
          let isNpm := test NPM input in
          let cmd :=
            if isNpm then ("npm install " ++ join " " (Entities.packages entities))%string
            else ("pip install " ++ join " " (Entities.packages entities))%string in
          plan [step "run_command" [("command", JStr cmd)]] false
        else plan [] true
    end
  else if String.eqb intent "http_request" then
    match first_truthy (Entities.urls entities) with
    | Some url =>
        let method :=
          match exec HTTP_VERB input with
          | Some m => toUpperCase (group 1 m)
          | None => "GET"
          end in
        plan [step "http_request"
                [("url", JStr url); ("method", JStr method);
                 ("body", JNull); ("headers", JObj [])]] false
    | None => plan [] true
    end
  else if String.eqb intent "search" then
    let target :=
      match first_truthy (Entities.filePaths entities) with
      | Some p => p
      | None => "."
      end in
    match exec SEARCH_TERM input with
    | Some searchMatch =>
        plan [step "search_files"
                [("path", JStr target); ("pattern", JStr (trim (group 1 searchMatch)))]]
             false
    | None => plan [] true
    end
  else if String.eqb intent "testing" then
    if test RUN_TESTS input
    then plan [step "run_command" [("command", JStr "npm test")]] false
    else plan [] true
  else plan [] true.

End Classifier.

(* ===================================================================== *)
(** ** Values, exceptions and effects of the orchestrator *)
(* ===================================================================== *)

(** What a [throw] statement or a rejected promise carries: an [Error]
    object (a [TypeError] of the engine is one), of which the code reads
    the [message] only, or any other value. A text where a thrown value is
    expected stands for the [Error] with that message. *)
Inductive exn : Type :=
| Error (message : string)
| Value (v : jsval).
Coercion Error : string >-> exn.

(** The result of evaluating an expression that may throw. *)
Inductive outcome (A : Type) : Type :=
| Returned (a : A)
| Thrown (err : exn).
Arguments Returned {A} a.
Arguments Thrown {A} err.

Module Js.
Local Open Scope string_scope.

Definition quotation : string := String (ascii_of_nat 34) EmptyString.
Definition newline : string := String (ascii_of_nat 10) EmptyString.
Definition backslash : string := String (ascii_of_nat 92) EmptyString.

(** ToBoolean *)
Definition truthy (v : jsval) : bool :=
  match v with
  | JUndefined | JNull => false
  | JBool b => b
  | JNum x => negb (PrimFloat.eqb x 0 || PrimFloat.is_nan x)
  | JStr s => JsString.truthy s
  | JArr _ | JObj _ => true
  end.

(** [a || b] *)
Definition or (a b : jsval) : jsval := if truthy a then a else b.

Definition nullish (v : jsval) : bool :=
  match v with JUndefined | JNull => true | _ => false end.

Definition number_of_nat (n : nat) : float :=
  PrimFloat.of_uint63 (Uint63.of_Z (Z.of_nat n)).

(** An own property of an object literal; [undefined] when absent. *)
Definition field (k : string) (fields : list (string * jsval)) : jsval :=
  match List.find (fun p => String.eqb (fst p) k) fields with
  | Some (_, v) => v
  | None => JUndefined
  end.

(** [v?.k]: the data properties that the orchestrator reads. *)
Definition opt_prop (v : jsval) (k : string) : jsval :=
  match v with
  | JObj fields => field k fields
  | JArr items => if String.eqb k "length" then JNum (number_of_nat (length items)) else JUndefined
  | JStr s => if String.eqb k "length" then JNum (number_of_nat (String.length s)) else JUndefined
  | _ => JUndefined
  end.

(** [v.k], a [TypeError] on [undefined] and [null]. *)
Definition prop (v : jsval) (k : string) : outcome jsval :=
  match v with
  | JUndefined => Thrown ("Cannot read properties of undefined (reading '" ++ k ++ "')")
  | JNull => Thrown ("Cannot read properties of null (reading '" ++ k ++ "')")
  | _ => Returned (opt_prop v k)
  end.

(** [err.message] in a [catch] block: the message of an [Error], the
    property of another value, a [TypeError] on [undefined] and [null]. *)
Definition message_of (err : exn) : outcome jsval :=
  match err with
  | Error message => Returned (JStr message)
  | Value v => prop v "message"
  end.

(** The thrown values on which [err.message] throws. *)
Definition unreadable (err : exn) : bool :=
  match err with
  | Error _ => false
  | Value v => nullish v
  end.

(** The names that an object literal inherits from [Object.prototype]: a
    lookup [table[name]] finds a value under them where the table has no
    such key of its own. *)
Definition OBJECT_PROTOTYPE : list string :=
  ["constructor"; "hasOwnProperty"; "isPrototypeOf"; "propertyIsEnumerable";
   "toLocaleString"; "toString"; "valueOf"; "__proto__";
   "__defineGetter__"; "__defineSetter__"; "__lookupGetter__"; "__lookupSetter__"].

Definition inherits (name : string) : bool :=
  existsb (String.eqb name) OBJECT_PROTOTYPE.

Section WithNumbers.
(** [Number::toString] belongs to the run-time library. *)
Variable Number_toString : float -> string.

(** ToString, as a template literal applies it to a substitution. *)
Fixpoint ToString (v : jsval) : string :=
  match v with
  | JUndefined => "undefined"
  | JNull => "null"
  | JBool true => "true"
  | JBool false => "false"
  | JNum x => Number_toString x
  | JStr s => s
  | JArr items =>
      JsString.join ","
        (map (fun item => if nullish item then "" else ToString item) items)
  | JObj _ => "[object Object]"
  end.

(** How the message of a [TypeError] names a value that it could not
    use: by its type, and by what it holds when that is a primitive. *)
Definition described (v : jsval) : string :=
  match v with
  | JUndefined => "undefined"
  | JNull => "object null"
  | JBool true => "boolean true"
  | JBool false => "boolean false"
  | JNum x => "number " ++ Number_toString x
  | JStr s => "string " ++ quotation ++ s ++ quotation
  | JArr _ | JObj _ => "object"
  end.

(** The values that [for (const x of v)] visits; a [TypeError] when [v]
    is not iterable. *)
Definition iterate (v : jsval) : outcome (list jsval) :=
  match v with
  | JArr items => Returned items
  | JStr s => Returned (map (fun c => JStr (String c EmptyString)) (list_ascii_of_string s))
  | _ =>
      Thrown (described v ++
              " is not iterable (cannot read property Symbol(Symbol.iterator))")
  end.

(** A character inside a JSON string. *)
Definition hex_digit (n : N) : ascii :=
  ascii_of_N (if (n <? 10)%N then 48 + n else 87 + n).

Definition json_char (c : ascii) : string :=
  let n := N_of_ascii c in
  if (n =? 8)%N then backslash ++ "b"
  else if (n =? 9)%N then backslash ++ "t"
  else if (n =? 10)%N then backslash ++ "n"
  else if (n =? 12)%N then backslash ++ "f"
  else if (n =? 13)%N then backslash ++ "r"
  else if (n =? 34)%N then backslash ++ quotation
  else if (n =? 92)%N then backslash ++ backslash
  else if (n <? 32)%N
  then backslash ++ "u00" ++ String (hex_digit (n / 16)) (String (hex_digit (n mod 16)) EmptyString)
  else String c EmptyString.

Definition json_quote (s : string) : string :=
  quotation ++ String.concat EmptyString (map json_char (list_ascii_of_string s)) ++ quotation.

(** The members of an array or an object between their brackets, on
    lines of their own when there is a [gap]. *)
Definition json_block (gap indent opening closing : string) (members : list string)
  : string :=
  match members with
  | [] => opening ++ closing
  | _ =>
      if JsString.truthy gap
      then opening ++ newline ++ indent ++ gap ++
           JsString.join ("," ++ newline ++ indent ++ gap) members ++
           newline ++ indent ++ closing
      else opening ++ JsString.join "," members ++ closing
  end.

(** [JSON.stringify(v, null, gap)] on a value that is printed at the
    indentation [indent]: [None] where the answer is [undefined]. The
    fields of an object are its own properties in their order. *)
Fixpoint json_text (gap indent : string) (v : jsval) : option string :=
  match v with
  | JUndefined => None
  | JNull => Some "null"
  | JBool true => Some "true"
  | JBool false => Some "false"
  | JNum x =>
      Some (if PrimFloat.is_finite x then Number_toString x else "null")
  | JStr s => Some (json_quote s)
  | JArr items =>
      Some (json_block gap indent "[" "]"
              (map (fun item =>
                      match json_text gap (indent ++ gap) item with
                      | Some text => text
                      | None => "null"
                      end) items))
  | JObj fields =>
      Some (json_block gap indent "{" "}"
              (flat_map (fun p =>
                           match json_text gap (indent ++ gap) (snd p) with
                           | Some text =>
                               [json_quote (fst p) ++ ":" ++
                                (if JsString.truthy gap then " " else "") ++ text]
                           | None => []
                           end) fields))
  end.

(** [JSON.stringify(v)] inside a template literal, and
    [JSON.stringify(v, null, 2)] as a value: the values of the embedding
    are all printed, none makes it throw. *)
Definition JSON_stringify (v : jsval) : string :=
  match json_text "" "" v with
  | Some text => text
  | None => "undefined"
  end.

Definition JSON_stringify_pretty (v : jsval) : jsval :=
  match json_text "  " "" v with
  | Some text => JStr text
  | None => JUndefined
  end.

End WithNumbers.

(** [{...a, ...b}] on the properties of two object literals. *)
Fixpoint assign (a : list (string * jsval)) (k : string) (v : jsval)
  : list (string * jsval) :=
  match a with
  | [] => [(k, v)]
  | (k', v') :: a' => if String.eqb k' k then (k, v) :: a' else (k', v') :: assign a' k v
  end.

Definition spread (a b : list (string * jsval)) : list (string * jsval) :=
  fold_left (fun acc p => assign acc (fst p) (snd p)) b a.

(** Decimal digits of a natural number. *)
Fixpoint digits_from (fuel : nat) (n : N) (acc : string) : string :=
  match fuel with
  | O => acc
  | S fuel' =>
      let acc' := String (ascii_of_N (48 + n mod 10)) acc in
      if (n <? 10)%N then acc' else digits_from fuel' (n / 10) acc'
  end.

Definition digits (n : N) : string :=
  digits_from (S (N.to_nat (N.log2 n))) n EmptyString.

Fixpoint zeros (n : nat) : string :=
  match n with O => EmptyString | S n' => String "0" (zeros n') end.

(** The integer nearest to [m * 2^e * 10^f], the larger one on a tie. *)
Definition scaled_round (m : positive) (e : Z) (f : nat) : N :=
  let num := (Z.pos m * 10 ^ Z.of_nat f)%Z in
  if (0 <=? e)%Z then Z.to_N (num * 2 ^ e)
  else
    let den := (2 ^ (- e))%Z in
    Z.to_N ((2 * num + den) / (2 * den)).

(** [x.toFixed(f)], for [x] below [10^21] in magnitude: the digits of the
    integer [n] that makes [n / 10^f] nearest to [x], with a decimal point
    before the last [f] of them. *)
Definition toFixed (x : float) (f : nat) : string :=
  match Prim2SF x with
  | S754_nan => "NaN"
  | S754_infinity false => "Infinity"
  | S754_infinity true => "-Infinity"
  | S754_zero _ => if Nat.eqb f 0 then "0" else "0." ++ zeros f
  | S754_finite sign m e =>
      let n := digits (scaled_round m e f) in
      let n := zeros (S f - String.length n) ++ n in
      let k := String.length n - f in
      (if sign then "-" else "") ++
      (if Nat.eqb f 0 then n
       else substring 0 k n ++ "." ++ substring k f n)
  end.

End Js.

Module StepResult.
(** [{tool, args, result, success: true}] or
    [{tool, args, error, success: false}] *)
Record t : Type := {
  tool : jsval;
  args : jsval;
  result : option jsval;
  error : option jsval;
  success : bool
}.

Definition ok (tool args result : jsval) : t :=
  {| tool := tool; args := args; result := Some result; error := None; success := true |}.

Definition failed (tool args message : jsval) : t :=
  {| tool := tool; args := args; result := None; error := Some message; success := false |}.

Definition fields (r : t) : list (string * jsval) :=
  [("tool", tool r); ("args", args r)] ++
  match result r with Some v => [("result", v)] | None => [] end ++
  match error r with Some m => [("error", m)] | None => [] end ++
  [("success", JBool (success r))].
End StepResult.

Module Metrics.
Record t : Type := {
  totalTasks : Z;
  deterministicTasks : Z;
  modelFallbacks : Z;
  modelCallsForPlanning : Z;
  modelCallsForResponse : Z;
  errors : Z;
  byIntent : gmap string Z
}.

Definition zero : t :=
  {| totalTasks := 0; deterministicTasks := 0; modelFallbacks := 0;
     modelCallsForPlanning := 0; modelCallsForResponse := 0; errors := 0;
     byIntent := ∅ |}.

(** [n++] on a number that holds an integer: exact below [2^53], where
    the successor is no longer representable and the value stays. *)
Definition incr (n : Z) : Z := if (n <? 2 ^ 53)%Z then (n + 1)%Z else n.

Definition count (intent : string) (m : t) : Z := default 0%Z (byIntent m !! intent).

(** All counters are below the bound up to which [++] is exact. *)
Definition in_range (m : t) : Prop :=
  (totalTasks m < 2 ^ 53 ∧ deterministicTasks m < 2 ^ 53 ∧ modelFallbacks m < 2 ^ 53 ∧
   modelCallsForPlanning m < 2 ^ 53 ∧ modelCallsForResponse m < 2 ^ 53 ∧
   errors m < 2 ^ 53 ∧ ∀ k, count k m < 2 ^ 53)%Z.
End Metrics.

Module Snapshot.
Record t : Type := {
  counters : Metrics.t;              (* [...this.metrics] *)
  deterministicRate : string;
  modelFallbackRate : string
}.
End Snapshot.

(** The stage records that [process] pushes on its trace. *)
Inductive trace_entry : Type :=
| TraceClassifying (intent : string) (confidence : float) (needsModel : bool) (reason : string)
| TracePlanning (steps : nat) (requiresModel : bool)
| TraceModelPlanAssist (modelSteps : jsval)
| TraceExecuting (stepsExecuted successes : nat)
| TraceValidating (valid reason : jsval)
| TraceModelFallback (reason : string)
| TraceExecutingModelAssisted (steps : nat).

Module Result.
(** The object that [process] returns; a field that a return statement
    does not set is [None] (or [false] for the two flags). *)
Record t : Type := {
  response : jsval;
  metrics : Snapshot.t;
  trace : list trace_entry;
  deterministic : bool;
  classification : option Classification.t;
  results : option (list StepResult.t);
  error : option jsval;
  modelUsed : bool;
  modelUsedForPlanning : bool
}.
End Result.

(* ===================================================================== *)
(** ** orchestrator.js *)
(* ===================================================================== *)

Module Orchestrator.
Local Open Scope string_scope.

(** Workflow states *)
Definition INIT := "init".
Definition CLASSIFYING := "classifying".
Definition PLANNING := "planning".
Definition EXECUTING := "executing".
Definition VALIDATING := "validating".
Definition MODEL_FALLBACK := "model_fallback".
Definition RESPONDING := "responding".
Definition COMPLETE := "complete".
Definition ERROR := "error".

Definition dq : string := String (ascii_of_nat 34) EmptyString.
Definition nl : string := String (ascii_of_nat 10) EmptyString.

Definition step_fields (s : Step.t) : jsval :=
  JObj [("tool", Step.tool s); ("args", Step.args s)].

Definition plan_fields (p : Plan.t) : jsval :=
  JObj [("intent", JStr (Plan.intent p));
        ("steps", JArr (map step_fields (Plan.steps p)));
        ("requiresModelForPlanning", JBool (Plan.requiresModelForPlanning p))].

(** A success and an error template of [RESPONSE_TEMPLATES]: functions of
    a result and a plan that build the response text. *)
Record templates : Type := {
  success : jsval -> jsval -> outcome string;
  error : jsval -> jsval -> outcome string
}.

Section WithCollaborators.
(** The state of everything outside the orchestrator that the tool
    executor, the model adapter and the logger act on. *)
Context {W : Type}.

Record ModelProvider : Type := {
  complete : string -> string -> W -> outcome jsval * W;
  processAgentLoop : string -> W -> outcome jsval * W
}.

(** The fields that the constructor sets, but for [metrics]. *)
Record config : Type := {
  executeTool : jsval -> jsval -> W -> outcome jsval * W;
  model : option ModelProvider;
  confidenceThreshold : float;
  maxRetries : float;
  logger_warn : string -> W -> outcome unit * W
}.

(** [x || d] on an option that holds a number. *)
Definition number_or (x : option float) (d : float) : float :=
  match x with
  | Some v => if Js.truthy (JNum v) then v else d
  | None => d
  end.

Definition constructor
    (executeToolFn : jsval -> jsval -> W -> outcome jsval * W)
    (modelProvider : option ModelProvider)
    (opt_confidenceThreshold opt_maxRetries : option float)
    (warn : string -> W -> outcome unit * W) : config * Metrics.t :=
  ({| executeTool := executeToolFn;
      model := modelProvider;
      confidenceThreshold := number_or opt_confidenceThreshold 0.4;
      maxRetries := number_or opt_maxRetries 2;
      logger_warn := warn |},
   Metrics.zero).

(** [Number::toString] of the run-time library, the dispatch tables
    [VALIDATORS] and [RESPONSE_TEMPLATES], each applied to an intent with
    its [default] entry as fallback, and the JSON functions of the
    run-time library. *)
Variable Number_toString : float -> string.
Variable VALIDATORS : string -> jsval -> outcome (list (string * jsval)).
Variable RESPONSE_TEMPLATES : string -> templates.
Variable JSON_parse : string -> outcome jsval.
Variable JSON_stringify : jsval -> string.

Variable this : config.

(** What one call of [process] reads and writes: the metrics of the
    instance, the world of the collaborators, and the locals [trace]
    and [state]. [invocations] records the calls of the tool executor,
    in order. *)
Record frame : Type := {
  metrics : Metrics.t;
  world : W;
  invocations : list (jsval * jsval);
  trace : list trace_entry;
  state : string
}.

Definition M (A : Type) : Type := frame -> outcome A * frame.

Definition ret {A : Type} (a : A) : M A := fun f => (Returned a, f).

Definition throw {A : Type} (err : exn) : M A := fun f => (Thrown err, f).

Definition bind {A B : Type} (c : M A) (k : A -> M B) : M B :=
  fun f =>
    match c f with
    | (Returned a, f') => k a f'
    | (Thrown err, f') => (Thrown err, f')
    end.

(** [try { body } catch (err) { handler(err) }]; what the handler throws
    leaves the statement. *)
Definition try_catch {A : Type} (body : M A) (handler : exn -> M A) : M A :=
  fun f =>
    match body f with
    | (Returned a, f') => (Returned a, f')
    | (Thrown err, f') => handler err f'
    end.

Definition lift {A : Type} (o : outcome A) : M A := fun f => (o, f).

Local Notation "'let*' x ':=' c 'in' k" := (bind c (fun x => k))
  (at level 10, x name, c at level 100, k at level 200).
Local Notation "c ;; k" := (bind c (fun _ => k))
  (at level 100, k at level 200, right associativity).

Definition with_metrics (g : Metrics.t -> Metrics.t) : M unit :=
  fun f => (Returned tt,
            {| metrics := g (metrics f); world := world f;
               invocations := invocations f; trace := trace f; state := state f |}).

Definition set_state (s : string) : M unit :=
  fun f => (Returned tt,
            {| metrics := metrics f; world := world f;
               invocations := invocations f; trace := trace f; state := s |}).

Definition trace_push (e : trace_entry) : M unit :=
  fun f => (Returned tt,
            {| metrics := metrics f; world := world f;
               invocations := invocations f; trace := trace f ++ [e];
               state := state f |}).

Definition get_trace : M (list trace_entry) := fun f => (Returned (trace f), f).
Definition get_state : M string := fun f => (Returned (state f), f).

(** A call of a collaborator on the world. *)
Definition on_world {A : Type} (c : W -> outcome A * W) : M A :=
  fun f =>
    let (o, w) := c (world f) in
    (o, {| metrics := metrics f; world := w;
           invocations := invocations f; trace := trace f; state := state f |}).

(** [await this.executeTool(tool, args)] *)
Definition call_executeTool (tool args : jsval) : M jsval :=
  fun f =>
    let (o, w) := executeTool this tool args (world f) in
    (o, {| metrics := metrics f; world := w;
           invocations := invocations f ++ [(tool, args)];
           trace := trace f; state := state f |}).

(** Track intent distribution for metrics *)
Definition track_intent (intent : string) (m : Metrics.t) : Metrics.t :=
  {| Metrics.totalTasks := Metrics.totalTasks m;
     Metrics.deterministicTasks := Metrics.deterministicTasks m;
     Metrics.modelFallbacks := Metrics.modelFallbacks m;
     Metrics.modelCallsForPlanning := Metrics.modelCallsForPlanning m;
     Metrics.modelCallsForResponse := Metrics.modelCallsForResponse m;
     Metrics.errors := Metrics.errors m;
     Metrics.byIntent :=
       <[intent := Metrics.incr (default 0%Z (Metrics.byIntent m !! intent))]>
         (Metrics.byIntent m) |}.

Definition _trackIntent (intent : string) : M unit :=
  with_metrics (track_intent intent).

Definition incr_totalTasks (m : Metrics.t) : Metrics.t :=
  {| Metrics.totalTasks := Metrics.incr (Metrics.totalTasks m);
     Metrics.deterministicTasks := Metrics.deterministicTasks m;
     Metrics.modelFallbacks := Metrics.modelFallbacks m;
     Metrics.modelCallsForPlanning := Metrics.modelCallsForPlanning m;
     Metrics.modelCallsForResponse := Metrics.modelCallsForResponse m;
     Metrics.errors := Metrics.errors m;
     Metrics.byIntent := Metrics.byIntent m |}.

Definition incr_deterministicTasks (m : Metrics.t) : Metrics.t :=
  {| Metrics.totalTasks := Metrics.totalTasks m;
     Metrics.deterministicTasks := Metrics.incr (Metrics.deterministicTasks m);
     Metrics.modelFallbacks := Metrics.modelFallbacks m;
     Metrics.modelCallsForPlanning := Metrics.modelCallsForPlanning m;
     Metrics.modelCallsForResponse := Metrics.modelCallsForResponse m;
     Metrics.errors := Metrics.errors m;
     Metrics.byIntent := Metrics.byIntent m |}.

Definition incr_modelFallbacks (m : Metrics.t) : Metrics.t :=
  {| Metrics.totalTasks := Metrics.totalTasks m;
     Metrics.deterministicTasks := Metrics.deterministicTasks m;
     Metrics.modelFallbacks := Metrics.incr (Metrics.modelFallbacks m);
     Metrics.modelCallsForPlanning := Metrics.modelCallsForPlanning m;
     Metrics.modelCallsForResponse := Metrics.modelCallsForResponse m;
     Metrics.errors := Metrics.errors m;
     Metrics.byIntent := Metrics.byIntent m |}.

Definition incr_modelCallsForPlanning (m : Metrics.t) : Metrics.t :=
  {| Metrics.totalTasks := Metrics.totalTasks m;
     Metrics.deterministicTasks := Metrics.deterministicTasks m;
     Metrics.modelFallbacks := Metrics.modelFallbacks m;
     Metrics.modelCallsForPlanning := Metrics.incr (Metrics.modelCallsForPlanning m);
     Metrics.modelCallsForResponse := Metrics.modelCallsForResponse m;
     Metrics.errors := Metrics.errors m;
     Metrics.byIntent := Metrics.byIntent m |}.

Definition incr_modelCallsForResponse (m : Metrics.t) : Metrics.t :=
  {| Metrics.totalTasks := Metrics.totalTasks m;
     Metrics.deterministicTasks := Metrics.deterministicTasks m;
     Metrics.modelFallbacks := Metrics.modelFallbacks m;
     Metrics.modelCallsForPlanning := Metrics.modelCallsForPlanning m;
     Metrics.modelCallsForResponse := Metrics.incr (Metrics.modelCallsForResponse m);
     Metrics.errors := Metrics.errors m;
     Metrics.byIntent := Metrics.byIntent m |}.

Definition incr_errors (m : Metrics.t) : Metrics.t :=
  {| Metrics.totalTasks := Metrics.totalTasks m;
     Metrics.deterministicTasks := Metrics.deterministicTasks m;
     Metrics.modelFallbacks := Metrics.modelFallbacks m;
     Metrics.modelCallsForPlanning := Metrics.modelCallsForPlanning m;
     Metrics.modelCallsForResponse := Metrics.modelCallsForResponse m;
     Metrics.errors := Metrics.incr (Metrics.errors m);
     Metrics.byIntent := Metrics.byIntent m |}.

Definition number_of_Z (n : Z) : float := PrimFloat.of_uint63 (Uint63.of_Z n).

(** [((count / total) * 100).toFixed(1) + '%'] *)
Definition rate (count total : Z) : string :=
  Js.toFixed (number_of_Z count / number_of_Z total * 100)%float 1 ++ "%".

(** Return current metrics snapshot *)
Definition snapshot_of (m : Metrics.t) : Snapshot.t :=
  let total := if (Metrics.totalTasks m =? 0)%Z then 1%Z else Metrics.totalTasks m in
  {| Snapshot.counters := m;
     Snapshot.deterministicRate := rate (Metrics.deterministicTasks m) total;
     Snapshot.modelFallbackRate := rate (Metrics.modelFallbacks m) total |}.

Definition _snapshot : M Snapshot.t :=
  fun f => (Returned (snapshot_of (metrics f)), f).

Definition result_of
    (response : jsval) (snapshot : Snapshot.t) (tr : list trace_entry)
    (deterministic : bool) : Result.t :=
  {| Result.response := response; Result.metrics := snapshot; Result.trace := tr;
     Result.deterministic := deterministic;
     Result.classification := None; Result.results := None; Result.error := None;
     Result.modelUsed := false; Result.modelUsedForPlanning := false |}.

(** One turn of the execution loop on a step of a deterministic plan:
    the call of the executor, and the record pushed on [results]. The
    [catch] block reads [err.message]: on a thrown [null] or [undefined]
    it throws itself, and nothing is pushed. *)
Definition run_step (step : Step.t) : M StepResult.t :=
  try_catch
    (let* result := call_executeTool (Step.tool step) (Step.args step) in
     ret (StepResult.ok (Step.tool step) (Step.args step) result))
    (fun err =>
       let* message := lift (Js.message_of err) in
       ret (StepResult.failed (Step.tool step) (Step.args step) message)).

(** [for (const step of plan.steps) { ... }] *)
Fixpoint run_steps (steps : list Step.t) (results : list StepResult.t)
  : M (list StepResult.t) :=
  match steps with
  | [] => ret results
  | step :: steps' =>
      let* r := run_step step in
      run_steps steps' (results ++ [r])
  end.

(** [results[results.length - 1]] *)
Definition last_result (results : list StepResult.t) : option StepResult.t :=
  last results.

(** [lastResult?.result] and [lastResult] as values. *)
Definition result_field (lastResult : option StepResult.t) : jsval :=
  match lastResult with
  | Some r => match StepResult.result r with Some v => v | None => JUndefined end
  | None => JUndefined
  end.

Definition value_of (lastResult : option StepResult.t) : jsval :=
  match lastResult with
  | Some r => JObj (StepResult.fields r)
  | None => JUndefined
  end.

(** Full model fallback, used when the deterministic pipeline can't
    handle the task *)
Definition _modelFallback (input : string) (classification : Classification.t)
  : M Result.t :=
  with_metrics incr_modelFallbacks ;;
  match model this with
  | None =>
      let* snapshot := _snapshot in
      let* tr := get_trace in
      ret (result_of
             (JStr ("I couldn't classify this task deterministically (confidence: " ++
                    Js.toFixed (Classification.confidence classification) 2 ++ "). " ++
                    "Enable a model provider (--provider ollama or --provider claude) for general-purpose tasks."))
             snapshot tr false)
  | Some model =>
      trace_push (TraceModelFallback "classifier_no_match") ;;
      let* result := on_world (processAgentLoop model input) in
      with_metrics incr_modelCallsForResponse ;;
      let* response := lift (Js.prop result "response") in
      let* snapshot := _snapshot in
      let* tr := get_trace in
      ret {| Result.response := Js.or response result;
             Result.metrics := snapshot; Result.trace := tr;
             Result.deterministic := false;
             Result.classification := None; Result.results := None;
             Result.error := None;
             Result.modelUsed := true; Result.modelUsedForPlanning := false |}
  end.

Definition JSON_OBJECT : Regex.RegExp := Regex.re "\{[\s\S]*\}".

Definition plan_prompt (classification : Classification.t) (partialPlan : Plan.t)
  : string :=
  "You are a task planner. Given the user's request and a partial plan, fill in the missing details." ++ nl ++
  "The task type is: " ++ Classification.intent classification ++ nl ++
  "Available tools: " ++ JsString.join ", " (Classification.tools classification) ++ nl ++
  "Partial plan steps: " ++
    JSON_stringify (JArr (map step_fields (Plan.steps partialPlan))) ++ nl ++
  nl ++
  "Respond with ONLY a JSON object containing the complete plan:" ++ nl ++
  "{" ++ nl ++
  "  " ++ dq ++ "steps" ++ dq ++ ": [" ++ nl ++
  "    { " ++ dq ++ "tool" ++ dq ++ ": " ++ dq ++ "tool_name" ++ dq ++ ", " ++
              dq ++ "args" ++ dq ++ ": { ... } }" ++ nl ++
  "  ]" ++ nl ++
  "}".

(** [response.match(/\{[\s\S]*\}/)?.[0]] *)
Definition json_in (response : jsval) : outcome (option string) :=
  match response with
  | JStr text =>
      Returned (option_map Regex.m_text (Regex.exec JSON_OBJECT text))
  | JUndefined => Thrown "Cannot read properties of undefined (reading 'match')"
  | JNull => Thrown "Cannot read properties of null (reading 'match')"
  | _ => Thrown "response.match is not a function"
  end.

(** Model-assisted planning: the model fills in the gaps the
    deterministic planner can't *)
Definition _modelAssistPlan (model : ModelProvider) (input : string)
    (classification : Classification.t) (partialPlan : Plan.t) : M jsval :=
  let systemPrompt := plan_prompt classification partialPlan in
  let* parsed :=
    try_catch
      (let* response := on_world (complete model systemPrompt input) in
       let* json := lift (json_in response) in
       match json with
       | Some text =>
           if JsString.truthy text
           then let* plan := lift (JSON_parse text) in ret (Some plan)
           else ret None
       | None => ret None
       end)
      (fun err =>
         let* message := lift (Js.message_of err) in
         on_world (logger_warn this ("Model plan assist failed: " ++
                                     Js.ToString Number_toString message)) ;;
         ret None) in
  match parsed with
  | Some plan => ret plan
  | None => ret (plan_fields partialPlan)
  end.

(** One turn of the loop of [_executeModelPlan] on an element of the
    model's [steps]. *)
Definition run_model_step (step : jsval) : M StepResult.t :=
  try_catch
    (let* tool := lift (Js.prop step "tool") in
     let* args := lift (Js.prop step "args") in
     let* result := call_executeTool tool args in
     ret (StepResult.ok tool args result))
    (fun err =>
       let* tool := lift (Js.prop step "tool") in
       let* args := lift (Js.prop step "args") in
       let* message := lift (Js.message_of err) in
       ret (StepResult.failed tool args message)).

Fixpoint run_model_steps (steps : list jsval) (results : list StepResult.t)
  : M (list StepResult.t) :=
  match steps with
  | [] => ret results
  | step :: steps' =>
      let* r := run_model_step step in
      run_model_steps steps' (results ++ [r])
  end.

(** Execute a model-generated plan through tool executors *)
Definition _executeModelPlan (input : string) (plan : jsval)
    (classification : Classification.t) : M Result.t :=
  let* plan_steps := lift (Js.prop plan "steps") in
  let* steps := lift (Js.iterate Number_toString (Js.or plan_steps (JArr []))) in
  let* results := run_model_steps steps [] in
  trace_push (TraceExecutingModelAssisted (length results)) ;;
  let templates := RESPONSE_TEMPLATES (Classification.intent classification) in
  let lastResult := last_result results in
  let* response :=
    lift (if Js.truthy (Js.opt_prop (value_of lastResult) "success")
          then success templates
                 (Js.or (result_field lastResult) (value_of lastResult)) plan
          else error templates
                 (Js.or (value_of lastResult) (JObj [("error", JStr "no results")]))
                 plan) in
  let* snapshot := _snapshot in
  let* tr := get_trace in
  ret {| Result.response := JStr response;
         Result.metrics := snapshot; Result.trace := tr;
         Result.deterministic := false;
         Result.classification := None; Result.results := Some results;
         Result.error := None;
         Result.modelUsed := false; Result.modelUsedForPlanning := true |}.

(** The [try] block of [process]. *)
Definition process_try (input : string) : M Result.t :=
  (* CLASSIFY *)
  set_state CLASSIFYING ;;
  let classification := Classifier.classify input (confidenceThreshold this) in
  trace_push (TraceClassifying (Classification.intent classification)
                (Classification.confidence classification)
                (Classification.needsModel classification)
                (Classification.reason classification)) ;;
  _trackIntent (Classification.intent classification) ;;
  if (Classification.needsModel classification &&
      String.eqb (Classification.reason classification) "no_pattern_match")%bool
  then _modelFallback input classification
  else
    (* PLAN *)
    set_state PLANNING ;;
    let plan := Classifier.planFromIntent classification input in
    trace_push (TracePlanning (length (Plan.steps plan))
                  (Plan.requiresModelForPlanning plan)) ;;
    if Plan.requiresModelForPlanning plan then
      match model this with
      | None =>
          let* snapshot := _snapshot in
          let* tr := get_trace in
          ret (result_of
                 (JStr ("I identified this as a " ++ dq ++
                        Classification.intent classification ++ dq ++
                        " task, but I need a model to complete the planning. " ++
                        "Run with --provider ollama or --provider claude to enable model-assisted planning."))
                 snapshot tr false)
      | Some model =>
          with_metrics incr_modelCallsForPlanning ;;
          let* modelPlan := _modelAssistPlan model input classification plan in
          let* modelPlan_steps := lift (Js.prop modelPlan "steps") in
          trace_push (TraceModelPlanAssist
                        (Js.or (Js.opt_prop modelPlan_steps "length") (JNum 0))) ;;
          _executeModelPlan input modelPlan classification
      end
    else
      (* EXECUTE *)
      set_state EXECUTING ;;
      let* results := run_steps (Plan.steps plan) [] in
      trace_push (TraceExecuting (length results)
                    (length (List.filter StepResult.success results))) ;;
      (* VALIDATE *)
      set_state VALIDATING ;;
      let validator := VALIDATORS (Classification.intent classification) in
      let lastResult := last_result results in
      let* validation :=
        lift (validator (Js.or (result_field lastResult) (value_of lastResult))) in
      trace_push (TraceValidating (Js.field "valid" validation)
                    (Js.field "reason" validation)) ;;
      (* RESPOND *)
      set_state RESPONDING ;;
      let templates := RESPONSE_TEMPLATES (Classification.intent classification) in
      let* response :=
        lift (if Js.truthy (Js.field "valid" validation)
              then success templates
                     (Js.or (result_field lastResult) (value_of lastResult))
                     (plan_fields plan)
              else error templates
                     (JObj (Js.spread
                              (match lastResult with
                               | Some r => StepResult.fields r
                               | None => []
                               end)
                              validation))
                     (plan_fields plan)) in
      with_metrics incr_deterministicTasks ;;
      let* snapshot := _snapshot in
      let* tr := get_trace in
      ret {| Result.response := JStr response;
             Result.metrics := snapshot; Result.trace := tr;
             Result.deterministic := true;
             Result.classification := Some classification;
             Result.results := Some results;
             Result.error := None;
             Result.modelUsed := false; Result.modelUsedForPlanning := false |}.

(** The [catch] block of [process]: it counts the error, and then reads
    [err.message], which throws on a thrown [null] or [undefined]. *)
Definition process_catch (err : exn) : M Result.t :=
  with_metrics incr_errors ;;
  let* st := get_state in
  let* message := lift (Js.message_of err) in
  let* snapshot := _snapshot in
  let* tr := get_trace in
  ret {| Result.response :=
           JStr ("Error in " ++ st ++ ": " ++ Js.ToString Number_toString message);
         Result.metrics := snapshot; Result.trace := tr;
         Result.deterministic := false;
         Result.classification := None; Result.results := None;
         Result.error := Some message;
         Result.modelUsed := false; Result.modelUsedForPlanning := false |}.

(** What persists from one call of [process] to the next. *)
Record instance : Type := {
  i_metrics : Metrics.t;
  i_world : W;
  i_invocations : list (jsval * jsval)
}.

Definition enter (i : instance) : frame :=
  {| metrics := i_metrics i; world := i_world i;
     invocations := i_invocations i; trace := []; state := INIT |}.

Definition leave (f : frame) : instance :=
  {| i_metrics := metrics f; i_world := world f; i_invocations := invocations f |}.

(** Process a user input through the full deterministic pipeline: the
    value the call returns or the exception it throws, and the instance
    afterwards. *)
Definition process (input : string) (i : instance) : outcome Result.t * instance :=
  let run :=
    with_metrics incr_totalTasks ;;
    try_catch (process_try input) process_catch in
  let (o, f) := run (enter i) in
  (o, leave f).

End WithCollaborators.
End Orchestrator.

(* ===================================================================== *)
(** ** The validators and the response templates of orchestrator.js

    [process] takes the two dispatch tables as parameters; these are the
    tables of the source. The conversions between numbers and strings
    and the JSON printer belong to the run-time library and are parameters
    here, and so is what the functions of [Object.prototype] do when a
    lookup in the table of validators finds one of them. The three characters of the templates that lie outside the range
    of the strings (a check mark, a ballot cross, a dash) appear as their
    UTF-8 bytes. *)
(* ===================================================================== *)

Module Tables.
Import Orchestrator.
Local Open Scope string_scope.

Section WithRuntime.
(** [Number::toString], [StringToNumber] and [JSON.stringify(v, null, 2)]:
    a string or [undefined], or the [TypeError] of a value that cannot be
    printed. *)
Variable Number_toString : float -> string.
Variable String_toNumber : string -> float.
Variable JSON_stringify_pretty : jsval -> outcome jsval.

(** What a call [validator(result)] gives when [VALIDATORS[intent]] is no
    validator of the table but what the name finds on [Object.prototype]:
    the own properties of the value returned, or what the call, or the
    read of [valid] on its value, throws. *)
Variable inherited_validator : string -> jsval -> outcome (list (string * jsval)).

Local Abbreviation ToString := (Js.ToString Number_toString).

(** ToNumber *)
Definition ToNumber (v : jsval) : float :=
  match v with
  | JUndefined => PrimFloat.nan
  | JNull => 0%float
  | JBool true => 1%float
  | JBool false => 0%float
  | JNum x => x
  | JStr s => String_toNumber s
  | JArr _ | JObj _ => String_toNumber (ToString v)
  end.

(** [v !== 0] and [v !== undefined] *)
Definition not_zero (v : jsval) : bool :=
  match v with JNum x => negb (PrimFloat.eqb x 0) | _ => true end.

Definition not_undefined (v : jsval) : bool :=
  match v with JUndefined => false | _ => true end.

(** [v[0]], a [TypeError] on [undefined] and [null]. *)
Definition first (v : jsval) : outcome jsval :=
  match v with
  | JUndefined => Thrown "Cannot read properties of undefined (reading '0')"
  | JNull => Thrown "Cannot read properties of null (reading '0')"
  | JArr (item :: _) => Returned item
  | JStr (String c _) => Returned (JStr (String c EmptyString))
  | JObj fields => Returned (Js.field "0" fields)
  | _ => Returned JUndefined
  end.

Definition valid : list (string * jsval) := [("valid", JBool true)].

Definition invalid (reason : jsval) : list (string * jsval) :=
  [("valid", JBool false); ("reason", reason)].

(** [if (!result || result.error) return { valid: false, reason:
    result?.error || fallback }; return { valid: true };] *)
Definition unless_error (fallback : string) (result : jsval) : list (string * jsval) :=
  if negb (Js.truthy result) || Js.truthy (Js.opt_prop result "error")
  then invalid (Js.or (Js.opt_prop result "error") (JStr fallback))
  else valid.

Definition validate_shell_command (result : jsval) : list (string * jsval) :=
  if negb (Js.truthy result) then invalid (JStr "no_result")
  else
    let exitCode := Js.opt_prop result "exitCode" in
    if not_zero exitCode && not_undefined exitCode
    then [("valid", JBool false);
          ("reason", JStr ("exit_code_" ++ ToString exitCode));
          ("stderr", Js.opt_prop result "stderr")]
    else valid.

Definition validate_http_request (result : jsval) : list (string * jsval) :=
  if negb (Js.truthy result) then invalid (JStr "no_result")
  else if PrimFloat.leb 400 (ToNumber (Js.opt_prop result "status"))
  then invalid (JStr ("http_" ++ ToString (Js.opt_prop result "status")))
  else valid.

Definition validate_search (result : jsval) : list (string * jsval) :=
  if negb (Js.truthy result) then invalid (JStr "no_result") else valid.

(** [VALIDATORS[intent] || VALIDATORS.default], called on a result: a key
    of the table, a name inherited from [Object.prototype], or the
    default. *)
Definition VALIDATORS (intent : string) (result : jsval)
  : outcome (list (string * jsval)) :=
  if String.eqb intent "file_read" then Returned (unless_error "no_result" result)
  else if String.eqb intent "file_write" then Returned (unless_error "write_failed" result)
  else if String.eqb intent "file_edit" then Returned (unless_error "edit_failed" result)
  else if String.eqb intent "shell_command" then Returned (validate_shell_command result)
  else if String.eqb intent "http_request" then Returned (validate_http_request result)
  else if String.eqb intent "search" then Returned (validate_search result)
  else if Js.inherits intent then inherited_validator intent result
  else Returned (unless_error "unknown_error" result).

(** [plan.steps[0]?.args?.[key] || fallback], as text. *)
Definition first_arg (plan : jsval) (key fallback : string) : outcome string :=
  match Js.prop plan "steps" with
  | Thrown message => Thrown message
  | Returned steps =>
      match first steps with
      | Thrown message => Thrown message
      | Returned step =>
          Returned (ToString (Js.or (Js.opt_prop (Js.opt_prop step "args") key)
                                    (JStr fallback)))
      end
  end.

(** [result.k1 || result.k2 || ... || fallback], a [TypeError] when
    [result] is [undefined] or [null]. *)
Fixpoint first_of (result : jsval) (keys : list string) (fallback : jsval)
  : outcome jsval :=
  match keys with
  | [] => Returned fallback
  | key :: keys' =>
      match Js.prop result key with
      | Thrown message => Thrown message
      | Returned v => if Js.truthy v then Returned v else first_of result keys' fallback
      end
  end.

Definition then_text {A : Type} (o : outcome A) (k : A -> outcome string)
  : outcome string :=
  match o with
  | Returned a => k a
  | Thrown message => Thrown message
  end.

Definition file_read : templates :=
  {| success := fun result plan =>
       then_text (first_arg plan "path" "file") (fun path =>
       then_text (first_of result ["content"] result) (fun content =>
       Returned ("Contents of `" ++ path ++ "`:" ++ nl ++ nl ++ ToString content)));
     error := fun result plan =>
       then_text (first_arg plan "path" "file") (fun path =>
       then_text (first_of result ["error"; "reason"] (JStr "unknown error")) (fun why =>
       Returned ("Failed to read `" ++ path ++ "`: " ++ ToString why))) |}.

Definition file_write : templates :=
  {| success := fun result plan =>
       then_text (first_arg plan "path" "file") (fun path =>
       Returned ("✓ File written: `" ++ path ++ "`"));
     error := fun result plan =>
       then_text (first_arg plan "path" "file") (fun path =>
       then_text (first_of result ["error"] (JStr "unknown error")) (fun why =>
       Returned ("✗ Failed to write `" ++ path ++ "`: " ++ ToString why))) |}.

Definition shell_command : templates :=
  {| success := fun result plan =>
       then_text (first_arg plan "command" "command") (fun cmd =>
       then_text (first_of result ["stdout"; "output"] (JStr "")) (fun output =>
       Returned ("`" ++ cmd ++ "` completed successfully" ++
                 (if Js.truthy output then ":" ++ nl ++ nl ++ ToString output else "."))));
     error := fun result plan =>
       then_text (first_arg plan "command" "command") (fun cmd =>
       then_text (Js.prop result "exitCode") (fun exitCode =>
       then_text (first_of result ["stderr"; "error"] (JStr "unknown error")) (fun why =>
       Returned ("`" ++ cmd ++ "` failed (exit " ++ ToString exitCode ++ "):" ++ nl ++
                 ToString why)))) |}.

Definition http_request : templates :=
  {| success := fun result plan =>
       then_text (first_of result ["status"] (JNum 200)) (fun status =>
       then_text (Js.prop result "data") (fun data =>
       then_text (match data with
                  | JStr text => Returned data
                  | _ => JSON_stringify_pretty data
                  end) (fun body =>
       Returned ("HTTP " ++ ToString status ++ " OK:" ++ nl ++ nl ++ ToString body))));
     error := fun result plan =>
       then_text (first_of result ["status"] (JStr "error")) (fun status =>
       then_text (first_of result ["error"; "statusText"] (JStr "unknown")) (fun why =>
       Returned ("HTTP request failed: " ++ ToString status ++ " — " ++ ToString why))) |}.

(** ["  ${m.file}:${m.line}: ${m.text}"] for every match, in order. *)
Fixpoint match_lines (matches : list jsval) : outcome (list string) :=
  match matches with
  | [] => Returned []
  | m :: matches' =>
      match Js.prop m "file", Js.prop m "line", Js.prop m "text" with
      | Returned file, Returned line, Returned text =>
          match match_lines matches' with
          | Returned lines =>
              Returned (("  " ++ ToString file ++ ":" ++ ToString line ++ ": " ++
                         ToString text) :: lines)
          | Thrown message => Thrown message
          end
      | Thrown message, _, _ => Thrown message
      | _, Thrown message, _ => Thrown message
      | _, _, Thrown message => Thrown message
      end
  end.

Definition search : templates :=
  {| success := fun result plan =>
       then_text (Js.prop result "matches") (fun matches =>
       match matches with
       | JArr (m :: ms) =>
           then_text (match_lines (m :: ms)) (fun lines =>
           Returned ("Found " ++ ToString (JNum (Js.number_of_nat (length (m :: ms)))) ++
                     " match(es):" ++ nl ++ nl ++ JsString.join nl lines))
       | _ =>
           then_text (first_of result ["count"] (JNum 0)) (fun count =>
           Returned ("Search complete: " ++ ToString count ++ " results found."))
       end);
     error := fun result plan =>
       then_text (first_of result ["error"] (JStr "unknown error")) (fun why =>
       Returned ("Search failed: " ++ ToString why)) |}.

Definition default : templates :=
  {| success := fun result plan =>
       if Js.truthy result
       then then_text (JSON_stringify_pretty result) (fun printed =>
            Returned ("Task completed successfully." ++ nl ++ nl ++ ToString printed))
       else Returned "Task completed successfully.";
     error := fun result plan =>
       Returned ("Task failed: " ++
                 ToString (Js.or (Js.opt_prop result "error")
                                 (Js.or (Js.opt_prop result "reason")
                                        (JStr "unknown error")))) |}.

(** What [RESPONSE_TEMPLATES[intent]] is under a name inherited from
    [Object.prototype]: a value that has neither [success] nor [error],
    so that calling either is a [TypeError]. *)
Definition inherited : templates :=
  {| success := fun result plan => Thrown "templates.success is not a function";
     error := fun result plan => Thrown "templates.error is not a function" |}.

(** [RESPONSE_TEMPLATES[intent] || RESPONSE_TEMPLATES.default] *)
Definition RESPONSE_TEMPLATES (intent : string) : templates :=
  if String.eqb intent "file_read" then file_read
  else if String.eqb intent "file_write" then file_write
  else if String.eqb intent "shell_command" then shell_command
  else if String.eqb intent "http_request" then http_request
  else if String.eqb intent "search" then search
  else if Js.inherits intent then inherited
  else default.

End WithRuntime.
End Tables.

(* ===================================================================== *)
(** ** tools.js: the safety check, three executors and the dispatcher

    The file system, the shell and the network are outside the embedding:
    [execSync], [path.resolve] and the HTTP exchange are parameters, and
    so are the seven executors that only wrap file-system calls. What is
    embedded is what the code does around them. *)
(* ===================================================================== *)

Module Tools.
Import JsString.
Local Open Scope string_scope.
Local Open Scope list_scope.

(** The fields of the configuration that the embedded executors read. *)
Record config : Type := {
  workingDirectory : string;
  sandboxMode : bool;
  blockedCommands : option (list string)
}.

Definition DESTRUCTIVE : list string :=
  ["rm -rf"; "rm -r"; "rmdir"; "mkfs"; "dd "; "format"; "fdisk"].

Definition dq : string := String (ascii_of_nat 34) EmptyString.
Definition backslash : string := String (ascii_of_nat 92) EmptyString.

(** [command.toLowerCase()], a [TypeError] on what is not a string. *)
Definition lower_of (command : jsval) : outcome string :=
  match command with
  | JStr s => Returned (toLowerCase s)
  | JUndefined => Thrown "Cannot read properties of undefined (reading 'toLowerCase')"
  | JNull => Thrown "Cannot read properties of null (reading 'toLowerCase')"
  | _ => Thrown "command.toLowerCase is not a function"
  end.

(** [command.includes(blocked)]: a substring test on a string, a
    membership test on an array, a [TypeError] on anything else. *)
Definition includes_of (command : jsval) (blocked : string) : outcome bool :=
  match command with
  | JStr s => Returned (includes s blocked)
  | JArr items =>
      Returned (existsb (fun v => match v with
                                  | JStr s => String.eqb s blocked
                                  | _ => false
                                  end) items)
  | JUndefined => Thrown "Cannot read properties of undefined (reading 'includes')"
  | JNull => Thrown "Cannot read properties of null (reading 'includes')"
  | _ => Thrown "command.includes is not a function"
  end.

(** The loop over the destructive fragments, in sandbox mode. *)
Fixpoint check_destructive (command : jsval) (l : list string) : outcome unit :=
  match l with
  | [] => Returned tt
  | d :: l' =>
      match lower_of command with
      | Thrown message => Thrown message
      | Returned lower =>
          if includes lower d
          then Thrown ("SANDBOX: Blocked destructive command containing " ++ dq ++ d ++ dq)%string
          else check_destructive command l'
      end
  end.

(** The loop over [config.blockedCommands || []]. *)
Fixpoint check_blocked (command : jsval) (l : list string) : outcome unit :=
  match l with
  | [] => Returned tt
  | blocked :: l' =>
      match includes_of command blocked with
      | Thrown message => Thrown message
      | Returned true =>
          Thrown ("SAFETY: Command blocked by policy: " ++ dq ++ blocked ++ dq)%string
      | Returned false => check_blocked command l'
      end
  end.

Definition checkSafety (command : jsval) (config : config) : outcome unit :=
  match (if sandboxMode config then check_destructive command DESTRUCTIVE
         else Returned tt) with
  | Thrown message => Thrown message
  | Returned _ =>
      check_blocked command
        (match blockedCommands config with Some l => l | None => [] end)
  end.

(** What [execSync] throws: the fields of the error that are read. *)
Record exec_error : Type := {
  e_stdout : option string;
  e_stderr : option string;
  e_status : option float;
  e_message : option string
}.

(** What ends an HTTP exchange. *)
Inductive http_event : Type :=
| Ended (statusCode headers : jsval) (body : string)
| Errored (message : string)
| TimedOut.

Section WithSystem.
Context {W : Type}.

(** ToString on numbers, as elsewhere. *)
Variable Number_toString : float -> string.

(** [path.resolve(base, p)] *)
Variable path_resolve : string -> jsval -> outcome string.

(** [execSync(command, {cwd, timeout, ...})]: the output, or the error
    thrown. *)
Variable execSync : jsval -> option string -> jsval -> W -> (string + exec_error) * W.

(** The exchange that [http_request] starts for an input: the event that
    resolves the promise first, or the exception that rejects it. *)
Variable exchange : jsval -> W -> outcome http_event * W.

Definition executor : Type := jsval -> config -> W -> outcome jsval * W.

(** The executors that only wrap calls of the file system or of git. *)
Variable create_file read_file edit_file list_directory delete_file move_file git
  : executor.

(** What a name that is no own property of [executors] finds on
    [Object.prototype], if anything. *)
Variable inherited : string -> option executor.

Definition resolvePath (p : jsval) (config : config) : outcome string :=
  if negb (Js.truthy p) then Returned (workingDirectory config)
  else path_resolve (workingDirectory config) p.

(** [s.slice(0, n)] *)
Definition head (n : N) (s : string) : string := take (N.to_nat n) s.

(** [s?.slice(0, n) || ''] on an optional string. *)
Definition head_or_empty (n : N) (s : option string) : string :=
  match s with Some t => head n t | None => EmptyString end.

Definition run_command : executor := fun input config w =>
  match Js.prop input "command" with
  | Thrown message => (Thrown message, w)
  | Returned command =>
      match checkSafety command config with
      | Thrown message => (Thrown message, w)
      | Returned _ =>
          match (if Js.truthy (Js.opt_prop input "cwd")
                 then resolvePath (Js.opt_prop input "cwd") config
                 else Returned (workingDirectory config)) with
          | Thrown message => (Thrown message, w)
          | Returned cwd =>
              let timeout := Js.or (Js.opt_prop input "timeout_ms") (JNum 60000) in
              match execSync command (Some cwd) timeout w with
              | (inl stdout, w') =>
                  (Returned (JObj [("success", JBool true);
                                   ("stdout", JStr (head 50000 stdout));
                                   ("exitCode", JNum 0)]), w')
              | (inr err, w') =>
                  (Returned (JObj [("success", JBool false);
                                   ("stdout", JStr (head_or_empty 20000 (e_stdout err)));
                                   ("stderr", JStr (head_or_empty 20000 (e_stderr err)));
                                   ("exitCode",
                                    JNum (match e_status err with
                                          | Some n => n
                                          | None => 1%float
                                          end));
                                   ("error",
                                    match e_message err with
                                    | Some m => JStr (head 500 m)
                                    | None => JUndefined
                                    end)]), w')
              end
          end
      end
  end.

Definition http_request : executor := fun input config w =>
  match exchange input w with
  | (Thrown message, w') => (Thrown message, w')
  | (Returned (Ended statusCode headers body), w') =>
      (Returned (JObj [("success", JBool true); ("statusCode", statusCode);
                       ("headers", headers); ("body", JStr (head 50000 body))]), w')
  | (Returned (Errored message), w') =>
      (Returned (JObj [("success", JBool false); ("error", JStr message)]), w')
  | (Returned TimedOut, w') =>
      (Returned (JObj [("success", JBool false); ("error", JStr "Request timed out")]), w')
  end.

(** [s.replace(/"/g, '\\"')] *)
Fixpoint escape_quotes (s : string) : string :=
  match s with
  | EmptyString => EmptyString
  | String c t =>
      if Ascii.eqb c (ascii_of_nat 34)
      then (backslash ++ dq ++ escape_quotes t)%string
      else String c (escape_quotes t)
  end.

(** [input.pattern.replace(...)], a [TypeError] on what is not a string. *)
Definition escaped_pattern (pattern : jsval) : outcome string :=
  match pattern with
  | JStr s => Returned (escape_quotes s)
  | JUndefined => Thrown "Cannot read properties of undefined (reading 'replace')"
  | JNull => Thrown "Cannot read properties of null (reading 'replace')"
  | _ => Thrown "input.pattern.replace is not a function"
  end.

Definition search_files : executor := fun input config w =>
  match Js.prop input "path" with
  | Thrown message => (Thrown message, w)
  | Returned p =>
      match resolvePath p config with
      | Thrown message => (Thrown message, w)
      | Returned fullPath =>
          match escaped_pattern (Js.opt_prop input "pattern") with
          | Thrown message => (Thrown message, w)
          | Returned pattern =>
              let cmd := ("grep -rn " ++ dq ++ pattern ++ dq ++ " " ++ dq ++ fullPath ++ dq)%string in
              let cmd :=
                if Js.truthy (Js.opt_prop input "file_glob")
                then (cmd ++ " --include=" ++ dq
                      ++ Js.ToString Number_toString (Js.opt_prop input "file_glob")
                      ++ dq)%string
                else cmd in
              let cmd := (cmd ++ " 2>/dev/null | head -100")%string in
              match execSync (JStr cmd) None (JNum 15000) w with
              | (inl stdout, w') =>
                  (Returned (JObj [("success", JBool true);
                                   ("matches", JStr (head 30000 (trim stdout)))]), w')
              | (inr _, w') =>
                  (Returned (JObj [("success", JBool true); ("matches", JStr "")]), w')
              end
          end
      end
  end.

(** The terminal signals. *)
Definition task_complete : executor := fun input config w =>
  match Js.prop input "summary" with
  | Thrown message => (Thrown message, w)
  | Returned summary =>
      (Returned (JObj [("success", JBool true); ("signal", JStr "COMPLETE");
                       ("summary", summary)]), w)
  end.

Definition task_failed : executor := fun input config w =>
  match Js.prop input "reason" with
  | Thrown message => (Thrown message, w)
  | Returned reason =>
      (Returned (JObj [("success", JBool true); ("signal", JStr "FAILED");
                       ("reason", reason);
                       ("attempted", Js.opt_prop input "attempted")]), w)
  end.

(** [executors[name]] *)
Definition executors (name : string) : option executor :=
  if String.eqb name "create_file" then Some create_file
  else if String.eqb name "read_file" then Some read_file
  else if String.eqb name "edit_file" then Some edit_file
  else if String.eqb name "run_command" then Some run_command
  else if String.eqb name "http_request" then Some http_request
  else if String.eqb name "list_directory" then Some list_directory
  else if String.eqb name "delete_file" then Some delete_file
  else if String.eqb name "move_file" then Some move_file
  else if String.eqb name "git" then Some git
  else if String.eqb name "search_files" then Some search_files
  else if String.eqb name "task_complete" then Some task_complete
  else if String.eqb name "task_failed" then Some task_failed
  else inherited name.

(** [{ success: false, error }] *)
Definition failure (error : jsval) : jsval :=
  JObj [("success", JBool false); ("error", error)].

Definition failed (message : string) : jsval := failure (JStr message).

(** Execute a tool by name. The [catch] block reads [err.message], which
    throws on a thrown [null] or [undefined]. *)
Definition executeTool (name input : jsval) (config : config) (w : W)
  : outcome jsval * W :=
  let key := Js.ToString Number_toString name in
  match executors key with
  | None => (Returned (failed ("Unknown tool: " ++ key)), w)
  | Some executor =>
      match executor input config w with
      | (Returned result, w') => (Returned result, w')
      | (Thrown err, w') =>
          match Js.message_of err with
          | Returned message => (Returned (failure message), w')
          | Thrown err' => (Thrown err', w')
          end
      end
  end.

End WithSystem.
End Tools.

(* ===================================================================== *)
(** ** v3.js: the command line and the orchestrator it builds *)
(* ===================================================================== *)

Module V3.
Import Orchestrator.
Local Open Scope string_scope.
Local Open Scope list_scope.

(** The flags of the command line. *)
Record flags : Type := {
  provider : option string;
  analyse : option string;
  benchmark : bool;
  verbose : bool
}.

Definition no_flags : flags :=
  {| provider := None; analyse := None; benchmark := false; verbose := false |}.

Definition is_arg (args : list string) (i : nat) (names : list string) : bool :=
  match nth_error args i with
  | Some a => existsb (String.eqb a) names
  | None => false
  end.

(** [args[i + 1]] when it is a non-empty string. *)
Definition value_after (args : list string) (i : nat) : option string :=
  match nth_error args (S i) with
  | Some v => if JsString.truthy v then Some v else None
  | None => None
  end.

(** The two tests of a turn that set a switch, on the argument at index
    [i]. *)
Definition switches_at (args : list string) (i : nat) (f : flags) : flags :=
  let f :=
    if is_arg args i ["--benchmark"]
    then {| provider := provider f; analyse := analyse f;
            benchmark := true; verbose := verbose f |}
    else f in
  if is_arg args i ["--verbose"; "-v"]
  then {| provider := provider f; analyse := analyse f;
          benchmark := benchmark f; verbose := true |}
  else f.

(** The body of the loop over the arguments at index [i]: the flags and
    the index after it, before the loop's own [i++]. The two options that
    take a value move the index to it, and the tests that follow in the
    same turn read the argument there. *)
Definition parse_at (args : list string) (i : nat) (f : flags) : flags * nat :=
  let '(f, i) :=
    if is_arg args i ["--provider"] then
      match value_after args i with
      | Some v =>
          ({| provider := Some v; analyse := analyse f;
              benchmark := benchmark f; verbose := verbose f |}, S i)
      | None => (f, i)
      end
    else (f, i) in
  let '(f, i) :=
    if is_arg args i ["--analyse"; "--analyze"] then
      match value_after args i with
      | Some v =>
          ({| provider := provider f; analyse := Some v;
              benchmark := benchmark f; verbose := verbose f |}, S i)
      | None => (f, i)
      end
    else (f, i) in
  (switches_at args i f, i).

(** [for (let i = 0; i < args.length; i++) { ... }] *)
Fixpoint parse_from (fuel : nat) (args : list string) (i : nat) (f : flags) : flags :=
  match fuel with
  | O => f
  | S fuel' =>
      if Nat.ltb i (length args) then
        let '(f', i') := parse_at args i f in
        parse_from fuel' args (S i') f'
      else f
  end.

Definition parse_args (args : list string) : flags :=
  parse_from (length args) args 0 no_flags.

Section WithSystem.
Context {W : Type}.
Variable Number_toString : float -> string.
Variable path_resolve : string -> jsval -> outcome string.
Variable execSync : jsval -> option string -> jsval -> W
                    -> (string + Tools.exec_error) * W.
Variable exchange : jsval -> W -> outcome Tools.http_event * W.
Variable create_file read_file edit_file list_directory delete_file move_file git
  : @Tools.executor W.
Variable inherited : string -> option (@Tools.executor W).

(** [executeTool] with the configuration baked in. *)
Definition execute (config : Tools.config) (toolName toolArgs : jsval) (w : W)
  : outcome jsval * W :=
  Tools.executeTool Number_toString path_resolve execSync exchange
    create_file read_file edit_file list_directory delete_file move_file git inherited
    toolName toolArgs config w.

(** [new WorkflowOrchestrator(execute, modelProvider,
    { confidenceThreshold: 0.4, logger })] *)
Definition orchestrator (config : Tools.config) (modelProvider : option ModelProvider)
    (warn : string -> W -> outcome unit * W) : Orchestrator.config * Metrics.t :=
  constructor (execute config) modelProvider (Some 0.4%float) None warn.

End WithSystem.
End V3.

(* ===================================================================== *)
(** * Properties *)
(* ===================================================================== *)

Module RegexFacts.
Import JsString Regex.
Local Open Scope nat_scope.

(** A state [s'] that matching reaches from [s]: some of the remaining
    text has been consumed, and the index has moved by as much. *)
Definition reached (s s' : mstate) : Prop :=
  String.length (rest s') <= String.length (rest s)
  /\ pos s' + String.length (rest s') = pos s + String.length (rest s).

Lemma reached_refl (s : mstate) : reached s s.
Proof. unfold reached. lia. Qed.

Lemma reached_trans (s1 s2 s3 : mstate) :
  reached s1 s2 -> reached s2 s3 -> reached s1 s3.
Proof. unfold reached. lia. Qed.

(** A matcher looks at its continuation only on states that it reaches. *)
Definition local (m : cont -> cont) : Prop :=
  forall (k1 k2 : cont) (s : mstate),
    (forall s', reached s s' -> k1 s' = k2 s') -> m k1 s = m k2 s.

Lemma repeat_matcher_local (body : cont -> cont) (gs : list nat) :
  local body ->
  forall fuel lo hi greedy, local (fun k => repeat_matcher body gs fuel lo hi greedy k).
Proof.
  intros Hbody. induction fuel as [|fuel IH]; intros lo hi greedy k1 k2 s Hk; cbn.
  - apply Hk, reached_refl.
  - assert (Hks : k1 s = k2 s) by apply Hk, reached_refl.
    assert (Hiter :
      body (fun s' => if (lo =? 0) && (pos s' =? pos s) then None
                      else repeat_matcher body gs fuel (Nat.pred lo)
                             (option_map Nat.pred hi) greedy k1 s') (clear_caps gs s)
      = body (fun s' => if (lo =? 0) && (pos s' =? pos s) then None
                        else repeat_matcher body gs fuel (Nat.pred lo)
                               (option_map Nat.pred hi) greedy k2 s') (clear_caps gs s)).
    { apply Hbody. intros s' Hs'. destruct ((lo =? 0) && (pos s' =? pos s)); [reflexivity|].
      apply IH. intros s'' Hs''. apply Hk.
      eapply reached_trans; [|exact Hs'']. exact Hs'. }
    destruct hi as [[|hi]|]; [exact Hks| |]; cbn [option_map] in *;
      rewrite Hiter, Hks; reflexivity.
Qed.

Lemma matcher_local (ci : bool) (r : regex) : local (matcher ci r).
Proof.
  induction r as [| c | | negated items | | | | a IHa b IHb | a IHa b IHb
                  | lo hi greedy a IHa | n a IHa];
    intros k1 k2 s Hk; cbn [matcher].
  - apply Hk, reached_refl.
  - destruct (rest s) as [|x t] eqn:Hrest; [reflexivity|].
    destruct (char_eq ci x c); [|reflexivity].
    apply Hk. unfold reached, advance. cbn. rewrite Hrest. cbn. lia.
  - destruct (rest s) as [|x t] eqn:Hrest; [reflexivity|].
    destruct (is_line_terminator x); [reflexivity|].
    apply Hk. unfold reached, advance. cbn. rewrite Hrest. cbn. lia.
  - destruct (rest s) as [|x t] eqn:Hrest; [reflexivity|].
    destruct (xorb negated _); [|reflexivity].
    apply Hk. unfold reached, advance. cbn. rewrite Hrest. cbn. lia.
  - destruct (xorb _ _); [apply Hk, reached_refl | reflexivity].
  - destruct (prev s); [reflexivity | apply Hk, reached_refl].
  - destruct (rest s); [apply Hk, reached_refl | reflexivity].
  - apply IHa. intros s' Hs'. apply IHb. intros s'' Hs''.
    apply Hk. eapply reached_trans; eauto.
  - rewrite (IHa k1 k2 s Hk), (IHb k1 k2 s Hk). reflexivity.
  - apply (repeat_matcher_local _ _ IHa). exact Hk.
  - apply IHa. intros s' Hs'. apply Hk. exact Hs'.
Qed.

(** The fuel that [matcher] gives to a quantifier is never used up: any
    larger amount leads to the same result. *)
Lemma repeat_matcher_fuel (body : cont -> cont) (gs : list nat) :
  local body ->
  forall fuel1 fuel2 lo hi greedy k s,
    lo + String.length (rest s) < fuel1 ->
    lo + String.length (rest s) < fuel2 ->
    repeat_matcher body gs fuel1 lo hi greedy k s
    = repeat_matcher body gs fuel2 lo hi greedy k s.
Proof.
  intros Hbody. induction fuel1 as [|fuel1 IH]; intros fuel2 lo hi greedy k s H1 H2;
    [lia|].
  destruct fuel2 as [|fuel2]; [lia|]. cbn.
  assert (Hiter :
    body (fun s' => if (lo =? 0) && (pos s' =? pos s) then None
                    else repeat_matcher body gs fuel1 (Nat.pred lo)
                           (option_map Nat.pred hi) greedy k s') (clear_caps gs s)
    = body (fun s' => if (lo =? 0) && (pos s' =? pos s) then None
                      else repeat_matcher body gs fuel2 (Nat.pred lo)
                             (option_map Nat.pred hi) greedy k s') (clear_caps gs s)).
  { apply Hbody. intros s' (Hlen & Hpos). cbn [clear_caps rest pos] in Hlen, Hpos.
    destruct (Nat.eqb_spec lo 0) as [->|Hlo]; cbn [andb].
    - destruct (Nat.eqb_spec (pos s') (pos s)) as [Heq|Hne]; [reflexivity|].
      apply IH; cbn; lia.
    - apply IH; lia. }
  destruct hi as [[|hi]|]; [reflexivity| |]; cbn [option_map] in *;
    rewrite Hiter; reflexivity.
Qed.

Theorem quantifier_fuel_suffices
    (ci : bool) (lo : nat) (hi : option nat) (greedy : bool) (a : regex)
    (k : cont) (s : mstate) (more : nat) :
  matcher ci (Rep lo hi greedy a) k s
  = repeat_matcher (matcher ci a) (groups_of a)
      (S (lo + String.length (rest s)) + more) lo hi greedy k s.
Proof.
  cbn [matcher]. apply repeat_matcher_fuel; [apply matcher_local | lia | lia].
Qed.

End RegexFacts.

Module ClassifierFacts.
Import JsString Regex Classifier.
Local Open Scope float_scope.

(** Every pattern of the tables is inside the parsed fragment. *)
Definition parses (r : RegExp) : bool :=
  match parse (source r) with Some _ => true | None => false end.

Lemma patterns_parse :
  forallb (fun nt => forallb parses (TaskType.patterns (snd nt))) TASK_TYPES = true
  /\ forallb parses
       [FILE_PATH_PATTERN; ABSOLUTE_PATH_PATTERN; URL_PATTERN; NPM_INSTALL;
        PIP_INSTALL; GIT_OPERATION; HTTP_VERB; SEARCH_TERM; RUN_TESTS; NPM;
        Orchestrator.JSON_OBJECT] = true.
Proof. split; vm_compute; reflexivity. Qed.

(** The benchmark of [v3.js]: each input with the expected determinism
    and, where one is given, the expected intent. *)
Definition quoted (s : string) : string :=
  (String (ascii_of_nat 34) EmptyString ++ s ++ String (ascii_of_nat 34) EmptyString)%string.

Definition benchmark : list (string * bool * option string) :=
  [ ("read file src/agent.js", true, Some "file_read");
    ("cat package.json", true, Some "file_read");
    ("show contents of README.md", true, Some "file_read");
    ("list files in src/", true, Some "file_read");
    ("create file config.yaml", true, Some "file_write");
    ("write a new file called utils.js", true, Some "file_write");
    ("edit src/index.js", true, Some "file_edit");
    ("fix the bug in src/tools.js", true, Some "file_edit");
    ("run npm install express", true, Some "shell_command");
    ("git status", true, Some "shell_command");
    ("git commit -m " ++ quoted "initial commit", true, Some "shell_command");
    ("npm test", false, Some "shell_command");
    ("curl https://api.example.com/data", true, Some "http_request");
    ("fetch data from https://api.example.com/users", true, Some "http_request");
    ("search for " ++ quoted "TODO" ++ " in src/", true, Some "search");
    ("find all files containing " ++ quoted "export" ++ " in src", true, Some "search");
    ("run the tests", true, Some "testing");
    ("analyse the code in src/agent.js", true, Some "code_analysis");
    ("review the code quality of src/", true, Some "code_analysis");
    ("help me build a REST API", false, None);
    ("what do you think about this architecture?", false, None);
    ("explain how async/await works", false, None);
    ("refactor the entire codebase for better performance", false, None) ]%string.

Definition benchmark_passes (tc : string * bool * option string) : bool :=
  let '(input, det, intent) := tc in
  let result := classify input DEFAULT_THRESHOLD in
  let isDet := negb (Classification.needsModel result) in
  let intentOk :=
    match intent with
    | Some expected => String.eqb (Classification.intent result) expected
    | None => true
    end in
  intentOk && Bool.eqb isDet det.

(** The classifier passes its benchmark, 23 cases of 23. *)
Lemma benchmark_all_pass : forallb benchmark_passes benchmark = true.
Proof. vm_compute. reflexivity. Qed.

(** The two benchmark inputs that the specification quotes. *)
Lemma scores_read_file :
  map (fun c => (Candidate.taskType c, Candidate.confidence c,
                 Candidate.matchedPatterns c, Candidate.matchedKeywords c))
      (scoreTaskTypes "read file src/agent.js")
  = [("file_read", 0.5, 1%nat, 1%nat); ("file_edit", 0.2, 0%nat, 0%nat);
     ("file_write", 0.1, 0%nat, 0%nat); ("code_analysis", 0.05, 0%nat, 0%nat)].
Proof. vm_compute. reflexivity. Qed.

Lemma scores_npm_test :
  map (fun c => (Candidate.taskType c, Candidate.confidence c,
                 Candidate.matchedPatterns c, Candidate.matchedKeywords c))
      (scoreTaskTypes "npm test")
  = [("shell_command", 0.4, 1%nat, 1%nat); ("testing", 0.4, 1%nat, 1%nat)].
Proof. vm_compute. reflexivity. Qed.

(** C2. Whenever [classify] answers [needsModel = false], its reason is
    [deterministic_match] and its confidence is at least the threshold. *)
Theorem classify_deterministic_invariant (input : string) (threshold : float) :
  Classification.needsModel (classify input threshold) = false ->
  Classification.reason (classify input threshold) = "deterministic_match"%string
  /\ (threshold <=? Classification.confidence (classify input threshold)) = true.
Proof.
  unfold classify.
  destruct (scoreTaskTypes input) as [|top others]; cbn; [discriminate|].
  destruct (threshold <=? Candidate.confidence top) eqn:Hthr; cbn; [|discriminate].
  intros Hamb. rewrite Hamb. split; [reflexivity | exact Hthr].
Qed.

Lemma classify_deterministic_invariant_witness :
  Classification.reason (classify "read file src/agent.js" 0.4) = "deterministic_match"%string
  /\ (0.4 <=? Classification.confidence (classify "read file src/agent.js" 0.4)) = true.
Proof.
  apply (classify_deterministic_invariant "read file src/agent.js" 0.4).
  vm_compute. reflexivity.
Defined.

(** C7. When the top candidate reaches the threshold: a second candidate
    less than 0.1 below it makes the answer [needsModel = true] with
    reason [ambiguous_top_scores]; otherwise the answer is
    [needsModel = false] with reason [deterministic_match]. *)
Theorem classify_ambiguity_rule
    (input : string) (threshold : float) (top : Candidate.t) (others : list Candidate.t) :
  scoreTaskTypes input = top :: others ->
  (threshold <=? Candidate.confidence top) = true ->
  let c := classify input threshold in
  let close_second :=
    match others with
    | second :: _ => Candidate.confidence top - Candidate.confidence second <? 0.1
    | [] => false
    end in
  if close_second
  then Classification.needsModel c = true
       /\ Classification.reason c = "ambiguous_top_scores"%string
  else Classification.needsModel c = false
       /\ Classification.reason c = "deterministic_match"%string.
Proof.
  intros Hscores Hthr. unfold classify. rewrite Hscores. cbn zeta.
  rewrite Hthr. cbn.
  destruct others as [|second rest]; cbn; [split; reflexivity|].
  destruct (Candidate.confidence top - Candidate.confidence second <? 0.1);
    split; reflexivity.
Qed.

Lemma classify_ambiguity_rule_witness :
  Classification.needsModel (classify "npm test" 0.4) = true
  /\ Classification.reason (classify "npm test" 0.4) = "ambiguous_top_scores"%string.
Proof.
  destruct (scoreTaskTypes "npm test") as [|top others] eqn:E.
  - vm_compute in E. discriminate E.
  - generalize (classify_ambiguity_rule "npm test" 0.4 top others E).
    vm_compute in E. injection E as <- <-.
    intros H. specialize (H eq_refl). vm_compute in H. vm_compute. exact H.
Defined.

End ClassifierFacts.

Module ScorerFacts.
Import JsString Regex Classifier.
Local Open Scope string_scope.
Local Open Scope list_scope.
Local Open Scope float_scope.

(** [n] additions of [x], one after the other, starting from [s]. *)
Definition add_times (x : float) (n : nat) (s : float) : float :=
  Nat.iter n (fun a => a + x) s.

(** The patterns and the keywords of a task type that an input matches. *)
Definition matching_patterns (input : string) (t : TaskType.t) : list RegExp :=
  List.filter (fun pattern => test pattern input) (TaskType.patterns t).

Definition matching_keywords (input : string) (t : TaskType.t) : list string :=
  List.filter (fun keyword => includes (toLowerCase input) (toLowerCase keyword))
         (TaskType.keywords t).

(** The entity categories that boost a task type: file paths, URLs, git
    operations, packages, in the order of the code. *)
Definition boosts (entities : Entities.t) (t : TaskType.t) : bool * bool * bool * bool :=
  (nonempty (Entities.filePaths entities)
     && existsb (String.eqb (TaskType.id t)) FILE_BOOSTED,
   nonempty (Entities.urls entities) && is_id t "http_request",
   nonempty (Entities.gitOps entities) && is_id t "shell_command",
   nonempty (Entities.packages entities) && is_id t "shell_command").

Definition boost_list (b : bool * bool * bool * bool) (t : TaskType.t) : list float :=
  let '(b1, b2, b3, b4) := b in
  let once (x : bool) := if x then [TaskType.confidence_boost t] else [] in
  once b1 ++ once b2 ++ once b3 ++ once b4.

(** The contributions to the raw score of a task type, in the order in
    which the code adds them. *)
Definition contributions (input : string) (t : TaskType.t) : list float :=
  map (fun _ => 0.3) (matching_patterns input t)
  ++ map (fun _ => 0.1) (matching_keywords input t)
  ++ boost_list (boosts (extractEntities input) t) t.

(** The same with the boost as C5 words it: once, when some populated
    category is relevant to the task type. *)
Definition contributions_boost_once (input : string) (t : TaskType.t) : list float :=
  let '(b1, b2, b3, b4) := boosts (extractEntities input) t in
  map (fun _ => 0.3) (matching_patterns input t)
  ++ map (fun _ => 0.1) (matching_keywords input t)
  ++ (if b1 || b2 || b3 || b4 then [TaskType.confidence_boost t] else []).

Definition sum_from (s : float) (l : list float) : float := fold_left PrimFloat.add l s.

Definition raw_score (input : string) (t : TaskType.t) : float :=
  sum_from 0 (contributions input t).

Definition code_tally (input : string) (t : TaskType.t) : tally :=
  score_one input (toLowerCase input) (extractEntities input) t.

Lemma sum_from_app s l1 l2 : sum_from s (l1 ++ l2) = sum_from (sum_from s l1) l2.
Proof. unfold sum_from. apply fold_left_app. Qed.

Lemma count_pattern_fold (input : string) (ps : list RegExp) :
  forall a : tally,
  let hits := List.filter (fun pattern => test pattern input) ps in
  fold_left (count_pattern input) ps a
  = {| score := sum_from (score a) (map (fun _ => 0.3) hits);
       nPatterns := nPatterns a + length hits;
       nKeywords := nKeywords a |}.
Proof.
  induction ps as [|p ps IH]; intros a; cbn.
  - rewrite Nat.add_0_r. destruct a; reflexivity.
  - rewrite IH. unfold count_pattern. destruct (test p input); cbn.
    + f_equal; try reflexivity; lia.
    + reflexivity.
Qed.

Lemma count_keyword_fold (inputLower : string) (ks : list string) :
  forall a : tally,
  let hits := List.filter (fun keyword => includes inputLower (toLowerCase keyword)) ks in
  fold_left (count_keyword inputLower) ks a
  = {| score := sum_from (score a) (map (fun _ => 0.1) hits);
       nPatterns := nPatterns a;
       nKeywords := nKeywords a + length hits |}.
Proof.
  induction ks as [|k ks IH]; intros a; cbn.
  - rewrite Nat.add_0_r. destruct a; reflexivity.
  - rewrite IH. unfold count_keyword. destruct (includes inputLower (toLowerCase k)); cbn.
    + f_equal; try reflexivity; lia.
    + reflexivity.
Qed.

(** The totals of the scoring loop of one task type. *)
Lemma score_one_eq (input : string) (t : TaskType.t) :
  code_tally input t
  = {| score := raw_score input t;
       nPatterns := length (matching_patterns input t);
       nKeywords := length (matching_keywords input t) |}.
Proof.
  unfold code_tally, score_one, raw_score, contributions.
  rewrite count_pattern_fold, count_keyword_fold. cbn [score nPatterns nKeywords].
  rewrite !sum_from_app.
  fold (matching_patterns input t). fold (matching_keywords input t).
  unfold boosts, boost_list, boost_if.
  destruct (nonempty (Entities.filePaths _) && _);
    destruct (nonempty (Entities.urls _) && _);
    destruct (nonempty (Entities.gitOps _) && _);
    destruct (nonempty (Entities.packages _) && _); reflexivity.
Qed.

(** Sorting neither adds nor drops a candidate. *)
Lemma In_sort_insert {A : Type} (cmp : A -> A -> float) (x a : A) (l : list A) :
  In x (sort_insert cmp a l) <-> x = a \/ In x l.
Proof.
  induction l as [|y l IH]; cbn.
  - intuition.
  - destruct (0 <? cmp a y); cbn; rewrite ?IH; intuition.
Qed.

Lemma In_Array_sort {A : Type} (cmp : A -> A -> float) (x : A) (l : list A) :
  In x (Array_sort cmp l) <-> In x l.
Proof.
  induction l as [|a l IH]; cbn; [reflexivity|].
  rewrite In_sort_insert, IH. intuition.
Qed.

(** The candidate that the loop pushes for a task type. *)
Definition candidate (input : string) (t : TaskType.t) : Candidate.t :=
  {| Candidate.taskType := TaskType.id t;
     Candidate.confidence := Math_min (raw_score input t) 1;
     Candidate.matchedPatterns := length (matching_patterns input t);
     Candidate.matchedKeywords := length (matching_keywords input t);
     Candidate.tools := TaskType.tools t;
     Candidate.entities := extractEntities input |}.

Lemma candidate_of_eq (input : string) (t : TaskType.t) :
  candidate_of (extractEntities input) t (code_tally input t)
  = if 0 <? Math_min (raw_score input t) 1 then [candidate input t] else [].
Proof. rewrite score_one_eq. reflexivity. Qed.

Lemma In_scores (input : string) (c : Candidate.t) :
  In c (scoreTaskTypes input) <->
  exists name t, In (name, t) TASK_TYPES
                 /\ (0 <? Math_min (raw_score input t) 1) = true
                 /\ c = candidate input t.
Proof.
  unfold scoreTaskTypes. rewrite In_Array_sort. unfold unsorted_scores.
  rewrite in_flat_map. split.
  - intros ([name t] & Hin & Hc). fold (code_tally input t) in Hc.
    rewrite candidate_of_eq in Hc.
    destruct (0 <? Math_min (raw_score input t) 1) eqn:Hpos; [|contradiction].
    destruct Hc as [<-|[]]. exists name, t. auto.
  - intros (name & t & Hin & Hpos & ->). exists (name, t). split; [exact Hin|].
    fold (code_tally input t). rewrite candidate_of_eq, Hpos. left. reflexivity.
Qed.

(** The identifiers of the table are pairwise distinct. *)
Definition index_of (id : string) : nat :=
  (fix go (l : list (string * TaskType.t)) (n : nat) : nat :=
     match l with
     | [] => n
     | (_, t) :: l' => if String.eqb (TaskType.id t) id then n else go l' (S n)
     end) TASK_TYPES 0%nat.

Lemma index_of_table :
  map (fun nt => index_of (TaskType.id (snd nt))) TASK_TYPES = seq 0 (length TASK_TYPES).
Proof. vm_compute. reflexivity. Qed.

Lemma In_table_nth (name : string) (t : TaskType.t) :
  In (name, t) TASK_TYPES ->
  nth_error TASK_TYPES (index_of (TaskType.id t)) = Some (name, t).
Proof.
  intros Hin. destruct (In_nth_error _ _ Hin) as (n & Hn).
  assert (Hlt : (n < length TASK_TYPES)%nat) by (apply nth_error_Some; congruence).
  assert (Hidx : nth_error (map (fun nt => index_of (TaskType.id (snd nt))) TASK_TYPES) n
                 = Some (index_of (TaskType.id t))).
  { rewrite nth_error_map, Hn. reflexivity. }
  rewrite index_of_table, nth_error_seq in Hidx.
  destruct (Nat.ltb_spec n (length TASK_TYPES)); [|lia].
  injection Hidx as <-. exact Hn.
Qed.

Lemma id_determines_type name t name' t' :
  In (name, t) TASK_TYPES -> In (name', t') TASK_TYPES ->
  TaskType.id t = TaskType.id t' -> t = t'.
Proof.
  intros H1 H2 Hid. apply In_table_nth in H1. apply In_table_nth in H2.
  rewrite Hid in H1. congruence.
Qed.

(** C5, as the code has it. The raw score of a task type is the sum,
    accumulated in this order, of 0.3 for each pattern that matches, of
    0.1 for each keyword whose lower case occurs in the lower-cased input,
    and of the type's boost once for every populated entity category that
    is relevant to it (file paths for the four file types, URLs for
    [http_request], git operations and packages, each, for
    [shell_command]); the confidence is [min(sum, 1.0)], and the type has a
    candidate exactly when that confidence is positive. *)
Theorem score_is_sum_of_contributions (input name : string) (t : TaskType.t) :
  In (name, t) TASK_TYPES ->
  let raw := sum_from 0 (contributions input t) in
  let confidence := Math_min raw 1 in
  score (code_tally input t) = raw
  /\ ((exists c, In c (scoreTaskTypes input) /\ Candidate.taskType c = TaskType.id t)
      <-> (0 <? confidence) = true)
  /\ (forall c, In c (scoreTaskTypes input) -> Candidate.taskType c = TaskType.id t ->
        Candidate.confidence c = confidence
        /\ Candidate.matchedPatterns c = length (matching_patterns input t)
        /\ Candidate.matchedKeywords c = length (matching_keywords input t)).
Proof.
  intros Hin. cbv zeta. fold (raw_score input t).
  assert (Hsame : forall c, In c (scoreTaskTypes input) ->
            Candidate.taskType c = TaskType.id t ->
            (0 <? Math_min (raw_score input t) 1) = true /\ c = candidate input t).
  { intros c Hc Hid. apply In_scores in Hc. destruct Hc as (name' & t' & Hin' & Hpos & ->).
    cbn in Hid. rewrite (id_determines_type _ _ _ _ Hin Hin' (eq_sym Hid)). auto. }
  split; [rewrite score_one_eq; reflexivity|]. split.
  - split.
    + intros (c & Hc & Hid). apply (Hsame c Hc Hid).
    + intros Hpos. exists (candidate input t). split; [|reflexivity].
      apply In_scores. exists name, t. auto.
  - intros c Hc Hid. destruct (Hsame c Hc Hid) as (_ & ->). repeat split.
Qed.

Lemma score_is_sum_of_contributions_witness :
  In ("SHELL_COMMAND", SHELL_COMMAND) TASK_TYPES
  /\ score (code_tally "npm test" SHELL_COMMAND) = 0.4
  /\ exists c, In c (scoreTaskTypes "npm test") /\ Candidate.taskType c = "shell_command".
Proof.
  assert (Hin : In ("SHELL_COMMAND", SHELL_COMMAND) TASK_TYPES)
    by (cbn; tauto).
  destruct (score_is_sum_of_contributions "npm test" "SHELL_COMMAND" SHELL_COMMAND Hin)
    as (Hscore & Hex & _).
  split; [exact Hin|]. split.
  - rewrite Hscore. vm_compute. reflexivity.
  - apply Hex. vm_compute. reflexivity.
Defined.

(** C5 as worded, with a single boost, against the code: a git operation
    and a package together boost [shell_command] twice. *)
Lemma boost_is_per_category :
  let input := "pip install requests && git stash"%string in
  boosts (extractEntities input) SHELL_COMMAND = (false, false, true, true)
  /\ (score (code_tally input SHELL_COMMAND)
      =? sum_from 0 (contributions_boost_once input SHELL_COMMAND)) = false
  /\ map (fun c => (Candidate.taskType c, Candidate.confidence c)) (scoreTaskTypes input)
     = [("shell_command"%string, 1); ("http_request"%string, 0.1)]
  /\ Math_min (sum_from 0 (contributions_boost_once input SHELL_COMMAND)) 1 = 0.8.
Proof. vm_compute. repeat split. Qed.

(** *** The confidences that can occur

    A confidence is determined by the task type, the number of patterns
    and of keywords that match, and the boosts that apply, so the
    confidences of all inputs form a finite list. *)

Definition restrict (t : TaskType.t) (populated : bool * bool * bool * bool)
  : bool * bool * bool * bool :=
  let '(x, y, z, u) := populated in
  (x && existsb (String.eqb (TaskType.id t)) FILE_BOOSTED,
   y && is_id t "http_request",
   z && is_id t "shell_command",
   u && is_id t "shell_command").

Definition populated (entities : Entities.t) : bool * bool * bool * bool :=
  (nonempty (Entities.filePaths entities), nonempty (Entities.urls entities),
   nonempty (Entities.gitOps entities), nonempty (Entities.packages entities)).

Definition all_populated : list (bool * bool * bool * bool) :=
  flat_map (fun x => flat_map (fun y => flat_map (fun z =>
    map (fun u => (x, y, z, u)) [false; true]) [false; true]) [false; true]) [false; true].

Definition flags_dec (a b : bool * bool * bool * bool) : {a = b} + {a <> b}.
Proof. repeat decide equality. Defined.

Definition flags_of (t : TaskType.t) : list (bool * bool * bool * bool) :=
  nodup flags_dec (map (restrict t) all_populated).

Definition confidence_at (t : TaskType.t) (p k : nat) (b : bool * bool * bool * bool)
  : float :=
  Math_min (sum_from 0 (repeat 0.3 p ++ repeat 0.1 k ++ boost_list b t)) 1.

Definition confidences_of (t : TaskType.t) : list float :=
  flat_map (fun p =>
    flat_map (fun k => map (confidence_at t p k) (flags_of t))
             (seq 0 (S (length (TaskType.keywords t)))))
    (seq 0 (S (length (TaskType.patterns t)))).

Definition all_confidences : list float :=
  flat_map (fun nt => confidences_of (snd nt)) TASK_TYPES.

Lemma map_const_repeat {A B : Type} (x : B) (l : list A) :
  map (fun _ => x) l = repeat x (length l).
Proof. induction l; cbn; congruence. Qed.

Lemma confidence_shape (input : string) (t : TaskType.t) :
  Math_min (raw_score input t) 1
  = confidence_at t (length (matching_patterns input t))
      (length (matching_keywords input t))
      (restrict t (populated (extractEntities input))).
Proof.
  unfold raw_score, contributions, confidence_at. rewrite !map_const_repeat. reflexivity.
Qed.

Lemma In_all_populated (b : bool * bool * bool * bool) : In b all_populated.
Proof. destruct b as [[[[] []] []] []]; cbn; tauto. Qed.

Lemma confidence_in_type (input : string) (t : TaskType.t) :
  In (Math_min (raw_score input t) 1) (confidences_of t).
Proof.
  rewrite confidence_shape. unfold confidences_of.
  apply in_flat_map. exists (length (matching_patterns input t)). split.
  { apply in_seq. pose proof (filter_length_le (fun pattern => test pattern input)
                                (TaskType.patterns t)).
    unfold matching_patterns. lia. }
  apply in_flat_map. exists (length (matching_keywords input t)). split.
  { apply in_seq.
    pose proof (filter_length_le
                  (fun keyword => includes (toLowerCase input) (toLowerCase keyword))
                  (TaskType.keywords t)).
    unfold matching_keywords. lia. }
  apply in_map. unfold flags_of. apply nodup_In. apply in_map. apply In_all_populated.
Qed.

Lemma confidence_in_all (input name : string) (t : TaskType.t) :
  In (name, t) TASK_TYPES -> In (Math_min (raw_score input t) 1) all_confidences.
Proof.
  intros Hin. unfold all_confidences. apply in_flat_map.
  exists (name, t). split; [exact Hin | apply confidence_in_type].
Qed.

(** The place of a confidence among all of them. *)
Definition rank (x : float) : N :=
  N.of_nat (length (List.filter (fun v => v <? x) all_confidences)).

Definition ranked : list (float * N) := map (fun x => (x, rank x)) all_confidences.

(** On two confidences with their ranks: the comparator of the sort and
    the comparisons of numbers agree with the order of the ranks. *)
Definition pair_ok (a b : float * N) : bool :=
  Bool.eqb (0 <? fst b - fst a) (snd a <? snd b)%N
  && Bool.eqb (fst b <=? fst a) (snd b <=? snd a)%N
  && Bool.eqb (fst a =? fst b) (snd a =? snd b)%N.

Definition all_pairs_ok (l : list (float * N)) : bool :=
  forallb (fun a => forallb (pair_ok a) l) l.

Lemma ranked_ok : all_pairs_ok ranked = true.
Proof. vm_compute. reflexivity. Qed.

Lemma all_pairs_ok_spec (l : list (float * N)) (a b : float * N) :
  all_pairs_ok l = true -> In a l -> In b l -> pair_ok a b = true.
Proof.
  unfold all_pairs_ok. intros Hall Ha Hb.
  rewrite List.forallb_forall in Hall. specialize (Hall a Ha).
  rewrite List.forallb_forall in Hall. exact (Hall b Hb).
Qed.

Lemma In_ranked (x : float) : In x all_confidences -> In (x, rank x) ranked.
Proof. intros Hx. unfold ranked. exact (in_map (fun v => (v, rank v)) _ _ Hx). Qed.

Lemma pair_ok_spec (x y : float) (rx ry : N) :
  pair_ok (x, rx) (y, ry) = true ->
  (0 <? y - x) = (rx <? ry)%N /\ (y <=? x) = (ry <=? rx)%N /\ (x =? y) = (rx =? ry)%N.
Proof.
  unfold pair_ok. cbn [fst snd]. intros Hall.
  apply andb_prop in Hall. destruct Hall as (Hall & H3).
  apply andb_prop in Hall. destruct Hall as (H1 & H2).
  apply Bool.eqb_prop in H1. apply Bool.eqb_prop in H2. apply Bool.eqb_prop in H3.
  repeat split; assumption.
Qed.

Lemma confidences_compare (x y : float) :
  In x all_confidences -> In y all_confidences ->
  (0 <? y - x) = (rank x <? rank y)%N
  /\ (y <=? x) = (rank y <=? rank x)%N
  /\ (x =? y) = (rank x =? rank y)%N.
Proof.
  intros Hx Hy.
  exact (pair_ok_spec x y (rank x) (rank y)
           (all_pairs_ok_spec ranked (x, rank x) (y, rank y) ranked_ok
              (In_ranked x Hx) (In_ranked y Hy))).
Qed.

(** *** The sort *)

Section SortFacts.
Context {A : Type} (cmp : A -> A -> float) (key : A -> N) (idx : A -> nat)
        (ok : A -> Prop).

(** The comparator is positive exactly when the first element has the
    smaller key, on the elements that occur. *)
Hypothesis cmp_key :
  forall a b, ok a -> ok b -> (0 <? cmp a b) = (key a <? key b)%N.

(** [a] is to come before [b]: a larger key, or the same key and an
    earlier place in the array that is sorted. *)
Definition before (a b : A) : Prop :=
  (key b < key a)%N \/ (key a = key b /\ (idx a < idx b)%nat).

Lemma before_key (a b : A) : before a b -> (key b <= key a)%N.
Proof. unfold before. lia. Qed.

Lemma Forall_sort_insert (P : A -> Prop) (x : A) (l : list A) :
  P x -> Forall P l -> Forall P (sort_insert cmp x l).
Proof using Type.
  intros Hx Hl. apply List.Forall_forall. intros y Hy.
  apply In_sort_insert in Hy. destruct Hy as [->|Hy]; [exact Hx|].
  rewrite List.Forall_forall in Hl. auto.
Qed.

Lemma Forall_Array_sort (P : A -> Prop) (l : list A) :
  Forall P l -> Forall P (Array_sort cmp l).
Proof using Type.
  intros Hl. apply List.Forall_forall. intros y Hy. apply In_Array_sort in Hy.
  rewrite List.Forall_forall in Hl. auto.
Qed.

Lemma sort_insert_sorted (x : A) (l : list A) :
  ok x -> Forall ok l -> Forall (fun y => (idx x < idx y)%nat) l ->
  StronglySorted before l -> StronglySorted before (sort_insert cmp x l).
Proof using cmp_key.
  intros Hx. induction l as [|y l IH]; intros Hok Hidx Hs; cbn.
  - repeat constructor.
  - inversion Hok as [|? ? Hy Hok']; subst. inversion Hidx as [|? ? Hxy Hidx']; subst.
    inversion Hs as [|? ? Hs' Hyl]; subst.
    rewrite (cmp_key x y Hx Hy). destruct (N.ltb_spec (key x) (key y)) as [Hlt|Hge].
    + constructor; [apply IH; assumption|].
      apply Forall_sort_insert; [left; exact Hlt | exact Hyl].
    + constructor; [exact Hs|]. constructor.
      * unfold before. destruct (N.eq_dec (key x) (key y)); [right; split; assumption|left; lia].
      * rewrite List.Forall_forall in Hyl, Hidx' |- *. intros z Hz.
        pose proof (before_key _ _ (Hyl z Hz)). specialize (Hidx' z Hz).
        unfold before. destruct (N.eq_dec (key x) (key z)); [right; split; assumption|left; lia].
Qed.

Lemma Array_sort_sorted (l : list A) :
  Forall ok l -> StronglySorted (fun a b => (idx a < idx b)%nat) l ->
  StronglySorted before (Array_sort cmp l).
Proof using cmp_key.
  induction l as [|x l IH]; intros Hok Hs; cbn; [constructor|].
  inversion Hok; subst. inversion Hs; subst.
  apply sort_insert_sorted; auto using Forall_Array_sort.
Qed.

End SortFacts.

Lemma StronglySorted_nth {A : Type} (R : A -> A -> Prop) (l : list A) :
  StronglySorted R l ->
  forall i j a b, (i < j)%nat -> nth_error l i = Some a -> nth_error l j = Some b -> R a b.
Proof.
  induction 1 as [|x l Hs IH Hall]; intros i j a b Hij Ha Hb.
  - destruct i; discriminate.
  - destruct j as [|j]; [lia|]. cbn in Hb. destruct i as [|i]; cbn in Ha.
    + injection Ha as <-. rewrite List.Forall_forall in Hall. apply Hall.
      eapply nth_error_In; eauto.
    + apply (IH i j a b); [lia | exact Ha | exact Hb].
Qed.

(** The candidates are pushed in the order of the table. *)
Definition table_index (c : Candidate.t) : nat := index_of (Candidate.taskType c).

Lemma unsorted_in_table_order (input : string) :
  StronglySorted (fun a b => (table_index a < table_index b)%nat) (unsorted_scores input).
Proof.
  assert (Hgen : forall (l : list (string * TaskType.t)) (n : nat),
            map (fun nt => index_of (TaskType.id (snd nt))) l = seq n (length l) ->
            StronglySorted (fun a b => (table_index a < table_index b)%nat)
              (flat_map (fun nt => candidate_of (extractEntities input) (snd nt)
                                     (code_tally input (snd nt))) l)
            /\ Forall (fun c => (n <= table_index c)%nat)
                 (flat_map (fun nt => candidate_of (extractEntities input) (snd nt)
                                        (code_tally input (snd nt))) l)).
  { induction l as [|[name t] l IH]; intros n Hmap; cbn [flat_map].
    - split; constructor.
    - cbn [map length seq snd] in Hmap. injection Hmap as Hhead Htail.
      destruct (IH (S n) Htail) as (Hs & Hall). cbn [snd].
      rewrite candidate_of_eq. destruct (0 <? _); cbn [app].
      + assert (Hidx : table_index (candidate input t) = n) by exact Hhead.
        split.
        * constructor; [exact Hs|]. eapply List.Forall_impl; [|exact Hall].
          intros c Hc. cbv beta in Hc. lia.
        * constructor; [lia|].
          eapply List.Forall_impl; [|exact Hall]. intros c Hc. cbv beta in Hc. lia.
      + split; [exact Hs|]. eapply List.Forall_impl; [|exact Hall].
        intros c Hc. cbv beta in Hc. lia. }
  destruct (Hgen TASK_TYPES 0%nat index_of_table) as (Hs & _).
  unfold unsorted_scores.
  erewrite flat_map_ext; [exact Hs|]. intros [name t]. reflexivity.
Qed.

Definition possible (c : Candidate.t) : Prop := In (Candidate.confidence c) all_confidences.

Lemma unsorted_possible (input : string) : Forall possible (unsorted_scores input).
Proof.
  apply List.Forall_forall. intros c Hc.
  assert (Hin : In c (scoreTaskTypes input))
    by (unfold scoreTaskTypes; apply In_Array_sort; exact Hc).
  apply In_scores in Hin. destruct Hin as (name & t & Hin & _ & ->).
  exact (confidence_in_all input name t Hin).
Qed.

Lemma scores_ordered (input : string) :
  StronglySorted (before (fun c => rank (Candidate.confidence c)) table_index)
                 (scoreTaskTypes input).
Proof.
  unfold scoreTaskTypes.
  apply (Array_sort_sorted by_confidence_desc _ _ possible).
  - intros a b Ha Hb. unfold by_confidence_desc.
    apply (confidences_compare _ _ Ha Hb).
  - apply unsorted_possible.
  - apply unsorted_in_table_order.
Qed.

(** C6. The candidates are in descending order of confidence, and two
    candidates of equal confidence are in the order of their task types
    in the table of definitions. *)
Theorem scores_descending_and_stable
    (input : string) (i j : nat) (a b : Candidate.t) :
  (i < j)%nat ->
  nth_error (scoreTaskTypes input) i = Some a ->
  nth_error (scoreTaskTypes input) j = Some b ->
  (Candidate.confidence b <=? Candidate.confidence a) = true
  /\ ((Candidate.confidence a =? Candidate.confidence b) = true ->
      (index_of (Candidate.taskType a) < index_of (Candidate.taskType b))%nat).
Proof.
  intros Hij Ha Hb.
  pose proof (StronglySorted_nth _ _ (scores_ordered input) i j a b Hij Ha Hb) as Hab.
  assert (Hpa : possible a /\ possible b).
  { pose proof (Forall_Array_sort by_confidence_desc possible _ (unsorted_possible input))
      as Hall.
    fold (scoreTaskTypes input) in Hall. rewrite List.Forall_forall in Hall.
    split; apply Hall; eapply nth_error_In; eauto. }
  destruct Hpa as (Hpa & Hpb).
  destruct (confidences_compare _ _ Hpa Hpb) as (_ & Hle & Heq).
  rewrite Hle, Heq. unfold before in Hab. split.
  - apply N.leb_le. lia.
  - intros He. apply N.eqb_eq in He. unfold table_index in Hab. lia.
Qed.

Lemma scores_descending_and_stable_witness :
  (0 < 1)%nat
  /\ map Candidate.taskType (scoreTaskTypes "npm test") = ["shell_command"; "testing"]%string
  /\ (index_of "shell_command" < index_of "testing")%nat.
Proof.
  split; [lia|]. split; [vm_compute; reflexivity|].
  destruct (nth_error (scoreTaskTypes "npm test") 0) as [a|] eqn:Ha;
    [|vm_compute in Ha; discriminate].
  destruct (nth_error (scoreTaskTypes "npm test") 1) as [b|] eqn:Hb;
    [|vm_compute in Hb; discriminate].
  destruct (scores_descending_and_stable "npm test" 0 1 a b (Nat.lt_0_succ 0) Ha Hb)
    as (_ & Hstable).
  vm_compute in Ha. injection Ha as <-. vm_compute in Hb. injection Hb as <-.
  apply Hstable. vm_compute. reflexivity.
Defined.

(** *** The boost of a file path *)

Definition file_boost_only : bool * bool * bool * bool := (true, false, false, false).

(** Whatever matches, a task type that only file paths boost stays at or
    above [floor] once it is boosted. *)
Definition boosted_above (t : TaskType.t) (floor : float) : bool :=
  forallb (fun p =>
    forallb (fun k =>
               let c := confidence_at t p k file_boost_only in
               (0 <? c) && (floor <=? c))
            (seq 0 (S (length (TaskType.keywords t)))))
    (seq 0 (S (length (TaskType.patterns t)))).

(** File paths boost the task type, and no other category does. *)
Definition only_files_boost (t : TaskType.t) : bool :=
  existsb (String.eqb (TaskType.id t)) FILE_BOOSTED
  && negb (is_id t "http_request") && negb (is_id t "shell_command").

Lemma only_files_boost_flags (t : TaskType.t) (e : Entities.t) :
  only_files_boost t = true -> Entities.filePaths e <> [] ->
  restrict t (populated e) = file_boost_only /\ boosts e t = file_boost_only.
Proof.
  unfold only_files_boost. intros Honly Hpaths.
  apply andb_prop in Honly. destruct Honly as (Honly & H3).
  apply andb_prop in Honly. destruct Honly as (H1 & H2).
  apply negb_true_iff in H2, H3.
  unfold restrict, populated, boosts, file_boost_only.
  destruct (Entities.filePaths e); [contradiction|]. cbn [nonempty andb].
  rewrite H1, H2, H3, !andb_false_r. split; reflexivity.
Qed.

Lemma file_boosted_candidate (input name : string) (t : TaskType.t) (floor : float) :
  In (name, t) TASK_TYPES ->
  only_files_boost t = true ->
  boosted_above t floor = true ->
  Entities.filePaths (extractEntities input) <> [] ->
  In (candidate input t) (scoreTaskTypes input)
  /\ (floor <=? Candidate.confidence (candidate input t)) = true.
Proof.
  intros Hin Honly Habove Hpaths.
  destruct (only_files_boost_flags t _ Honly Hpaths) as (Hflags & _).
  assert (Hc : (0 <? Math_min (raw_score input t) 1) = true
               /\ (floor <=? Math_min (raw_score input t) 1) = true).
  { rewrite confidence_shape, Hflags. unfold boosted_above in Habove.
    rewrite List.forallb_forall in Habove.
    specialize (Habove (length (matching_patterns input t))).
    rewrite List.forallb_forall in Habove.
    apply andb_prop. apply (Habove).
    - apply in_seq. pose proof (filter_length_le (fun pattern => test pattern input)
                                  (TaskType.patterns t)).
      unfold matching_patterns. lia.
    - apply in_seq.
      pose proof (filter_length_le
                    (fun keyword => includes (toLowerCase input) (toLowerCase keyword))
                    (TaskType.keywords t)).
      unfold matching_keywords. lia. }
  destruct Hc as (Hpos & Hfloor). split; [|exact Hfloor].
  apply In_scores. exists name, t. auto.
Qed.

Lemma unmatched_confidence (input : string) (t : TaskType.t) :
  Entities.filePaths (extractEntities input) <> [] ->
  only_files_boost t = true ->
  matching_patterns input t = [] -> matching_keywords input t = [] ->
  Candidate.matchedPatterns (candidate input t) = 0%nat
  /\ Candidate.matchedKeywords (candidate input t) = 0%nat
  /\ Candidate.confidence (candidate input t)
     = Math_min (0 + TaskType.confidence_boost t) 1.
Proof.
  intros Hpaths Honly Hp Hk. unfold candidate.
  cbn [Candidate.matchedPatterns Candidate.matchedKeywords Candidate.confidence].
  unfold raw_score, contributions. rewrite Hp, Hk. cbn [map length app].
  destruct (only_files_boost_flags t _ Honly Hpaths) as (_ & ->).
  repeat split.
Qed.

(** C10. When at least one file path is extracted, [file_write] has a
    candidate of confidence at least 0.1 and [file_edit] one of confidence
    at least 0.2; with no pattern and no keyword of the type matching, the
    candidate counts zero of each and its confidence is the boost alone. *)
Theorem file_path_boost_creates_candidates (input : string) :
  Entities.filePaths (extractEntities input) <> [] ->
  (exists c, In c (scoreTaskTypes input)
             /\ Candidate.taskType c = "file_write"%string
             /\ (0.1 <=? Candidate.confidence c) = true
             /\ (matching_patterns input FILE_WRITE = [] ->
                 matching_keywords input FILE_WRITE = [] ->
                 Candidate.matchedPatterns c = 0%nat
                 /\ Candidate.matchedKeywords c = 0%nat
                 /\ Candidate.confidence c = 0.1))
  /\ (exists c, In c (scoreTaskTypes input)
                /\ Candidate.taskType c = "file_edit"%string
                /\ (0.2 <=? Candidate.confidence c) = true
                /\ (matching_patterns input FILE_EDIT = [] ->
                    matching_keywords input FILE_EDIT = [] ->
                    Candidate.matchedPatterns c = 0%nat
                    /\ Candidate.matchedKeywords c = 0%nat
                    /\ Candidate.confidence c = 0.2)).
Proof.
  intros Hpaths. split.
  - assert (Hin : In ("FILE_WRITE"%string, FILE_WRITE) TASK_TYPES) by (cbn; tauto).
    assert (Hr : only_files_boost FILE_WRITE = true) by (vm_compute; reflexivity).
    assert (Ha : boosted_above FILE_WRITE 0.1 = true) by (vm_compute; reflexivity).
    destruct (file_boosted_candidate input _ _ _ Hin Hr Ha Hpaths) as (Hc & Hfloor).
    exists (candidate input FILE_WRITE). repeat split; try assumption;
      destruct (unmatched_confidence input FILE_WRITE Hpaths Hr H H0) as (H1 & H2 & H3);
      assumption.
  - assert (Hin : In ("FILE_EDIT"%string, FILE_EDIT) TASK_TYPES) by (cbn; tauto).
    assert (Hr : only_files_boost FILE_EDIT = true) by (vm_compute; reflexivity).
    assert (Ha : boosted_above FILE_EDIT 0.2 = true) by (vm_compute; reflexivity).
    destruct (file_boosted_candidate input _ _ _ Hin Hr Ha Hpaths) as (Hc & Hfloor).
    exists (candidate input FILE_EDIT). repeat split; try assumption;
      destruct (unmatched_confidence input FILE_EDIT Hpaths Hr H H0) as (H1 & H2 & H3);
      assumption.
Qed.

Lemma file_path_boost_creates_candidates_witness :
  Entities.filePaths (extractEntities "src/agent.js") = ["src/agent.js"%string]
  /\ map (fun c => (Candidate.taskType c, Candidate.confidence c,
                    Candidate.matchedPatterns c, Candidate.matchedKeywords c))
         (scoreTaskTypes "src/agent.js")
     = [("file_edit"%string, 0.2, 0%nat, 0%nat); ("file_read"%string, 0.1, 0%nat, 0%nat);
        ("file_write"%string, 0.1, 0%nat, 0%nat);
        ("code_analysis"%string, 0.05, 0%nat, 0%nat)]
  /\ exists c, In c (scoreTaskTypes "src/agent.js")
               /\ Candidate.taskType c = "file_write"%string
               /\ Candidate.confidence c = 0.1.
Proof.
  assert (Hpaths : Entities.filePaths (extractEntities "src/agent.js")
                   = ["src/agent.js"%string]) by (vm_compute; reflexivity).
  split; [exact Hpaths|]. split; [vm_compute; reflexivity|].
  assert (Hne : Entities.filePaths (extractEntities "src/agent.js") <> [])
    by (rewrite Hpaths; discriminate).
  destruct (file_path_boost_creates_candidates "src/agent.js" Hne)
    as ((c & Hc & Hid & _ & Hzero) & _).
  exists c. split; [exact Hc|]. split; [exact Hid|].
  apply Hzero; vm_compute; reflexivity.
Defined.

End ScorerFacts.

Module PlannerFacts.
Import JsString Regex Classifier.
Local Open Scope float_scope.

(** C8. The input "read file src/agent.js" is classified as [file_read]
    without need of a model under the default threshold, and its plan is
    the single step [read_file] on the path [src/agent.js], with no model
    required for planning. *)
Theorem read_file_example :
  let input := "read file src/agent.js"%string in
  let c := classify input DEFAULT_THRESHOLD in
  Classification.intent c = "file_read"%string
  /\ Classification.needsModel c = false
  /\ planFromIntent c input =
       {| Plan.intent := "file_read";
          Plan.steps := [ {| Step.tool := JStr "read_file";
                             Step.args := JObj [("path"%string, JStr "src/agent.js")] |} ];
          Plan.requiresModelForPlanning := false |}.
Proof. vm_compute. repeat split. Qed.

(** The scores of "npm test": two candidates, equal in confidence. *)
Definition npm_test_scores : list Candidate.t :=
  Eval vm_compute in scoreTaskTypes "npm test".

Lemma scoreTaskTypes_npm_test : scoreTaskTypes "npm test" = npm_test_scores.
Proof. vm_compute. reflexivity. Qed.

(** Whatever the threshold, "npm test" is classified as [shell_command],
    never with reason [no_pattern_match], and without entities. *)
Lemma classify_npm_test (threshold : float) :
  let c := classify "npm test" threshold in
  Classification.intent c = "shell_command"%string
  /\ String.eqb (Classification.reason c) "no_pattern_match" = false
  /\ Entities.gitOps (Classification.entities c) = []
  /\ Entities.packages (Classification.entities c) = [].
Proof.
  unfold classify. rewrite scoreTaskTypes_npm_test. unfold npm_test_scores.
  cbv zeta. destruct (threshold <=? _); cbn [Classification.intent Classification.reason
    Classification.entities Candidate.taskType Candidate.entities Entities.gitOps
    Entities.packages]; repeat split; vm_compute; reflexivity.
Qed.

Lemma plan_npm_test (threshold : float) :
  planFromIntent (classify "npm test" threshold) "npm test"
  = {| Plan.intent := "shell_command"; Plan.steps := [];
       Plan.requiresModelForPlanning := true |}.
Proof.
  destruct (classify_npm_test threshold) as (Hi & _ & Hg & Hp).
  unfold planFromIntent. rewrite Hi, Hg, Hp. reflexivity.
Qed.

End PlannerFacts.

Module OrchestratorFacts.
Import Orchestrator.
Local Open Scope string_scope.
Local Open Scope list_scope.


Lemma message_of_thrown (err err' : exn) :
  Js.message_of err = Thrown err' ->
  Js.unreadable err = true /\ exists text : string, err' = Error text.
Proof.
  destruct err as [m|v]; cbn; [discriminate|].
  destruct v; cbn; try discriminate; intros [= <-]; eauto.
Qed.

Section Facts.
Context {W : Type}.
Variable Number_toString : float -> string.
Variable VALIDATORS : string -> jsval -> outcome (list (string * jsval)).
Variable RESPONSE_TEMPLATES : string -> templates.
Variable JSON_parse : string -> outcome jsval.
Variable JSON_stringify : jsval -> string.
Variable this : @config W.

Local Abbreviation process :=
  (process Number_toString VALIDATORS RESPONSE_TEMPLATES JSON_parse JSON_stringify this).
Local Abbreviation process_try :=
  (process_try Number_toString VALIDATORS RESPONSE_TEMPLATES JSON_parse JSON_stringify this).
Local Abbreviation classification_of input :=
  (Classifier.classify input (confidenceThreshold this)).
Local Abbreviation plan_of input :=
  (Classifier.planFromIntent (classification_of input) input).

(** The route that [process] takes after classifying. *)
Definition no_pattern_match (c : Classification.t) : bool :=
  Classification.needsModel c && String.eqb (Classification.reason c) "no_pattern_match".

(** What the execution loop does with the steps that it completes, from
    a world [w]: one record per step, in plan order, [failed] with
    [err.message] where the executor throws, and the next step is run
    from the world the last call left. *)
Inductive Executed : list Step.t -> W -> list StepResult.t -> W -> Prop :=
| Executed_nil (w : W) : Executed [] w [] w
| Executed_ok (step : Step.t) (steps : list Step.t) (w w1 w2 : W)
    (v : jsval) (rs : list StepResult.t) :
    executeTool this (Step.tool step) (Step.args step) w = (Returned v, w1) ->
    Executed steps w1 rs w2 ->
    Executed (step :: steps) w
      (StepResult.ok (Step.tool step) (Step.args step) v :: rs) w2
| Executed_failed (step : Step.t) (steps : list Step.t) (w w1 w2 : W)
    (err : exn) (message : jsval) (rs : list StepResult.t) :
    executeTool this (Step.tool step) (Step.args step) w = (Thrown err, w1) ->
    Js.message_of err = Returned message ->
    Executed steps w1 rs w2 ->
    Executed (step :: steps) w
      (StepResult.failed (Step.tool step) (Step.args step) message :: rs) w2.

(** The one way in which the loop is left before its end: the call of a
    step throws [null] or [undefined], and the [catch] block throws the
    [TypeError] of reading [message] of it. *)
Definition aborts_at (step : Step.t) (w : W) (text : string) (w' : W) : Prop :=
  exists err : exn,
    executeTool this (Step.tool step) (Step.args step) w = (Thrown err, w')
    /\ Js.unreadable err = true
    /\ Js.message_of err = Thrown (Error text).

Definition call_of (step : Step.t) : jsval * jsval := (Step.tool step, Step.args step).

(** A frame after calls of the executor. *)
Definition moved (f : @frame W) (w : W) (calls : list (jsval * jsval)) : frame :=
  {| metrics := metrics f; world := w; invocations := invocations f ++ calls;
     trace := trace f; state := state f |}.

Lemma Executed_length steps w rs w' :
  Executed steps w rs w' -> length rs = length steps.
Proof. induction 1; cbn; congruence. Qed.

Ltac frame_simpl :=
  cbn [metrics world invocations trace state fst snd] in *.

Ltac monad_unfold :=
  cbv beta iota zeta delta
    [bind ret throw try_catch lift with_metrics set_state trace_push get_trace
     get_state on_world call_executeTool _trackIntent _snapshot result_of
     run_step run_model_step];
  frame_simpl.

(** The loop on any list of steps: it completes a prefix [ran] of them,
    which is all of them unless a call throws [null] or [undefined]; it
    leaves metrics, trace and state alone. *)
Lemma run_steps_spec (steps : list Step.t) :
  forall (results : list StepResult.t) (f : frame),
  exists (ran : list Step.t) (rs : list StepResult.t) (w' : W),
    Executed ran (world f) rs w'
    /\ ((ran = steps
         /\ run_steps this steps results f
            = (Returned (results ++ rs), moved f w' (map call_of steps)))
        \/ exists (step : Step.t) (rest : list Step.t) (text : string) (w'' : W),
             steps = ran ++ step :: rest
             /\ aborts_at step w' text w''
             /\ run_steps this steps results f
                = (Thrown (Error text), moved f w'' (map call_of (ran ++ [step])))).
Proof using Type.
  induction steps as [|step steps IH]; intros results f.
  - exists [], [], (world f). split; [constructor|]. left. split; [reflexivity|].
    cbn. unfold moved. rewrite !app_nil_r. destruct f; reflexivity.
  - cbn [run_steps]. monad_unfold.
    destruct (executeTool this (Step.tool step) (Step.args step) (world f))
      as [[v|err] w1] eqn:Hcall.
    + match goal with |- context [run_steps this steps ?acc ?g] =>
        destruct (IH acc g) as (ran & rs & w' & Hex & Hrun) end.
      frame_simpl.
      exists (step :: ran), (StepResult.ok (Step.tool step) (Step.args step) v :: rs), w'.
      split; [eapply Executed_ok; eauto|].
      destruct Hrun as [(-> & Hrun) | (s & rest & text & w'' & -> & Hab & Hrun)];
        rewrite Hrun; unfold moved; frame_simpl; cbn [map app]; rewrite <- !app_assoc.
      * left. split; reflexivity.
      * right. exists s, rest, text, w''. repeat split; auto.
    + destruct (Js.message_of err) as [message|err'] eqn:Hmessage; frame_simpl.
      * match goal with |- context [run_steps this steps ?acc ?g] =>
          destruct (IH acc g) as (ran & rs & w' & Hex & Hrun) end.
        frame_simpl.
        exists (step :: ran),
          (StepResult.failed (Step.tool step) (Step.args step) message :: rs), w'.
        split; [eapply Executed_failed; eauto|].
        destruct Hrun as [(-> & Hrun) | (s & rest & text & w'' & -> & Hab & Hrun)];
          rewrite Hrun; unfold moved; frame_simpl; cbn [map app]; rewrite <- !app_assoc.
        -- left. split; reflexivity.
        -- right. exists s, rest, text, w''. repeat split; auto.
      * destruct (message_of_thrown _ _ Hmessage) as (Hnull & text & ->).
        exists [], [], (world f). split; [constructor|]. right.
        exists step, steps, text, w1. split; [reflexivity|]. split.
        -- exists err. auto.
        -- reflexivity.
Qed.

(** Which fields of the frame a computation leaves as they were. *)
Definition keeps_locals (f f' : @frame W) : Prop :=
  metrics f' = metrics f /\ state f' = state f /\ trace f' = trace f.

Definition keeps_counters (f f' : @frame W) : Prop :=
  metrics f' = metrics f /\ state f' = state f.

Lemma run_model_steps_spec (steps : list jsval) :
  forall (results : list StepResult.t) (f : frame) o f',
  run_model_steps this steps results f = (o, f') -> keeps_locals f f'.
Proof using Type.
  induction steps as [|step steps IH]; intros results f o f'.
  - cbn. intros [= <- <-]. repeat split.
  - cbn [run_model_steps]. monad_unfold.
    destruct (Js.prop step "tool") as [tool|m1]; frame_simpl.
    + destruct (Js.prop step "args") as [args|m2]; frame_simpl.
      * destruct (executeTool this tool args (world f)) as [[v|m3] w1]; frame_simpl.
        -- intros H. apply IH in H. exact H.
        -- destruct (Js.message_of m3) as [message|m4]; frame_simpl.
           ++ intros H. apply IH in H. exact H.
           ++ intros [= <- <-]. repeat split.
      * intros [= <- <-]. repeat split.
    + intros [= <- <-]. repeat split.
Qed.

(** The [catch] block of [_modelAssistPlan], case by case. *)
Ltac catch_case :=
  match goal with |- context [Js.message_of ?e] =>
    destruct (Js.message_of e) as [?message|?m0] end;
  frame_simpl;
  [match goal with |- context [logger_warn ?t ?s ?w] =>
     destruct (logger_warn t s w) as [[[]|?m4] ?w2] end; frame_simpl|];
  intros [= <- <-]; repeat split.

Lemma modelAssistPlan_spec model input c partialPlan f o f' :
  _modelAssistPlan Number_toString JSON_parse JSON_stringify this model input c partialPlan f
  = (o, f') ->
  keeps_locals f f' /\ invocations f' = invocations f.
Proof using Type.
  unfold _modelAssistPlan. monad_unfold.
  destruct (complete model _ input (world f)) as [[response|m1] w1]; frame_simpl.
  - destruct (json_in response) as [[text|]|m2]; frame_simpl.
    + destruct (JsString.truthy text); frame_simpl.
      * destruct (JSON_parse text) as [plan|m3]; frame_simpl.
        -- intros [= <- <-]. repeat split.
        -- catch_case.
      * intros [= <- <-]. repeat split.
    + intros [= <- <-]. repeat split.
    + catch_case.
  - catch_case.
Qed.

(** What a result that is not the deterministic one looks like. *)
Definition undetermined (r : Result.t) (f' : @frame W) : Prop :=
  Result.deterministic r = false /\ Result.error r = None
  /\ Result.metrics r = snapshot_of (metrics f') /\ Result.trace r = trace f'.

Lemma executeModelPlan_spec input plan c f o f' :
  _executeModelPlan Number_toString RESPONSE_TEMPLATES this input plan c f = (o, f') ->
  keeps_counters f f'
  /\ match o with Returned r => undetermined r f' | Thrown _ => True end.
Proof using Type.
  unfold _executeModelPlan. monad_unfold.
  destruct (Js.prop plan "steps") as [plan_steps|m1]; frame_simpl;
    [|intros [= <- <-]; repeat split].
  destruct (Js.iterate _ _) as [steps|m2]; frame_simpl;
    [|intros [= <- <-]; repeat split].
  destruct (run_model_steps this steps [] f) as [[results|m3] f1] eqn:Hrun;
    apply run_model_steps_spec in Hrun; destruct Hrun as (Hm & Hs & Ht);
    frame_simpl; [|intros [= <- <-]; repeat split; assumption].
  match goal with |- context [if ?b then _ else _] => destruct b end;
    match goal with |- context [match ?t with Returned _ => _ | Thrown _ => _ end] =>
      destruct t as [response|m4] end;
    frame_simpl; intros [= <- <-]; repeat split; assumption.
Qed.

Lemma modelFallback_spec input c f o f' :
  _modelFallback this input c f = (o, f') ->
  state f' = state f /\ invocations f' = invocations f
  /\ (metrics f' = incr_modelFallbacks (metrics f)
      \/ metrics f' = incr_modelCallsForResponse (incr_modelFallbacks (metrics f)))
  /\ match o with Returned r => undetermined r f' | Thrown _ => True end.
Proof using Type.
  unfold _modelFallback. monad_unfold.
  destruct (model this) as [model|]; frame_simpl.
  - destruct (processAgentLoop model input (world f)) as [[result|m1] w1]; frame_simpl.
    + destruct (Js.prop result "response") as [response|m2]; frame_simpl;
        intros [= <- <-]; repeat split; auto.
    + intros [= <- <-]; repeat split; auto.
  - intros [= <- <-]; repeat split; auto.
Qed.

Definition is_some {A : Type} (o : option A) : bool :=
  match o with Some _ => true | None => false end.

(** The states in which an exception can leave the [try] block, by route. *)
Definition throwing_states (c : Classification.t) (p : Plan.t) : list string :=
  if no_pattern_match c then [CLASSIFYING]
  else if Plan.requiresModelForPlanning p then [PLANNING]
  else [EXECUTING; VALIDATING; RESPONDING].

(** The counters after the [try] block, and the result it returns. *)
Definition try_post (input : string) (f : @frame W) (o : outcome Result.t)
    (f' : @frame W) : Prop :=
  let c := classification_of input in
  let p := plan_of input in
  let m := metrics f in
  let m' := metrics f' in
  Metrics.totalTasks m' = Metrics.totalTasks m
  /\ Metrics.byIntent m' = Metrics.byIntent (track_intent (Classification.intent c) m)
  /\ Metrics.errors m' = Metrics.errors m
  /\ Metrics.modelFallbacks m' =
       (if no_pattern_match c then Metrics.incr (Metrics.modelFallbacks m)
        else Metrics.modelFallbacks m)
  /\ Metrics.modelCallsForPlanning m' =
       (if negb (no_pattern_match c) && Plan.requiresModelForPlanning p
           && is_some (model this)
        then Metrics.incr (Metrics.modelCallsForPlanning m)
        else Metrics.modelCallsForPlanning m)
  /\ (Metrics.modelCallsForResponse m' = Metrics.modelCallsForResponse m
      \/ (no_pattern_match c = true
          /\ Metrics.modelCallsForResponse m' =
               Metrics.incr (Metrics.modelCallsForResponse m)))
  /\ match o with
     | Returned r =>
         Metrics.deterministicTasks m' =
           (if Result.deterministic r then Metrics.incr (Metrics.deterministicTasks m)
            else Metrics.deterministicTasks m)
         /\ Result.deterministic r =
              negb (no_pattern_match c) && negb (Plan.requiresModelForPlanning p)
         /\ Result.error r = None
         /\ Result.metrics r = snapshot_of m'
         /\ Result.trace r = trace f'
     | Thrown _ =>
         Metrics.deterministicTasks m' = Metrics.deterministicTasks m
         /\ In (state f') (throwing_states c p)
         /\ (no_pattern_match c = false -> Plan.requiresModelForPlanning p = true ->
             model this <> None)
     end.

Local Arguments Classifier.classify : simpl never.
Local Arguments Classifier.planFromIntent : simpl never.

Lemma process_try_spec (input : string) (f : frame) o f' :
  process_try input f = (o, f') -> try_post input f o f'.
Proof using Type.
  unfold Orchestrator.process_try, try_post, throwing_states.
  cbv zeta. set (p := plan_of input). set (c := classification_of input).
  fold (no_pattern_match c). monad_unfold.
  destruct (no_pattern_match c) eqn:Hroute.
  - (* full model fallback *)
    intros H. apply modelFallback_spec in H. cbn [negb andb].
    destruct H as (Hs & _ & Hm & Hr). frame_simpl.
    destruct o as [r|message].
    + destruct Hr as (Hd & He & Hsnap & Htr). rewrite Hd, Hsnap.
      destruct Hm as [-> | ->]; cbn; repeat split; auto.
    + destruct Hm as [-> | ->]; cbn; rewrite Hs; repeat split; auto; discriminate.
  - cbn [negb andb].
    destruct (Plan.requiresModelForPlanning p) eqn:Hreq; cbn [negb andb].
    + destruct (model this) as [model|]; cbn [is_some]; monad_unfold.
      * (* model-assisted planning *)
        match goal with |- context [_modelAssistPlan _ _ _ _ _ _ _ _ ?g] =>
          destruct (_modelAssistPlan Number_toString JSON_parse JSON_stringify this
                      model input c p g)
            as [[modelPlan|m1] f1] eqn:Hassist end;
          apply modelAssistPlan_spec in Hassist;
          destruct Hassist as ((Hm1 & Hs1 & Ht1) & _); frame_simpl.
        -- destruct (Js.prop modelPlan "steps") as [modelPlan_steps|m2]; frame_simpl.
           ++ intros H. apply executeModelPlan_spec in H.
              destruct H as ((Hm2 & Hs2) & Hr). frame_simpl.
              rewrite Hm2, Hm1. destruct o as [r|message].
              ** destruct Hr as (Hd & He & Hsnap & Htr). rewrite Hd, Hsnap, Hm2, Hm1.
                 cbn. repeat split; auto.
              ** rewrite Hs2, Hs1. cbn. repeat split; auto; discriminate.
           ++ intros [= <- <-]. rewrite Hm1, Hs1. cbn. repeat split; auto; discriminate.
        -- intros [= <- <-]. rewrite Hm1, Hs1. cbn. repeat split; auto; discriminate.
      * (* no model: the explanatory answer *)
        intros [= <- <-]. cbn. repeat split; auto.
    + (* deterministic execution *)
      match goal with |- context [run_steps this ?st ?acc ?g] =>
        destruct (run_steps_spec st acc g)
          as (ran & rs & w' & _ & [(_ & Hrun) | (s & rest & text & w'' & _ & _ & Hrun)])
      end; rewrite Hrun; unfold moved; frame_simpl; cbn [app];
        [|intros [= <- <-]; cbn; repeat split; auto; discriminate].
      destruct (VALIDATORS _ _) as [validation|m1]; frame_simpl;
        [|intros [= <- <-]; cbn; repeat split; auto; discriminate].
      match goal with |- context [if ?b then _ else _] => destruct b end;
        match goal with |- context [match ?t with Returned _ => _ | Thrown _ => _ end] =>
          destruct t as [response|m4] end;
        frame_simpl; intros [= <- <-]; cbn; repeat split; auto; discriminate.
Qed.

(** The frame in which the [try] block of [process] starts. *)
Definition start (i : @instance W) : frame :=
  {| metrics := incr_totalTasks (i_metrics i); world := i_world i;
     invocations := i_invocations i; trace := []; state := INIT |}.

(** The frame that the [catch] block leaves, and the result that it
    builds when it has read a message. *)
Definition after_catch (f : @frame W) : frame :=
  {| metrics := incr_errors (metrics f); world := world f;
     invocations := invocations f; trace := trace f; state := state f |}.

Definition caught (message : jsval) (f : @frame W) : Result.t :=
  {| Result.response :=
       JStr ("Error in " ++ state f ++ ": " ++ Js.ToString Number_toString message)%string;
     Result.metrics := snapshot_of (incr_errors (metrics f)); Result.trace := trace f;
     Result.deterministic := false;
     Result.classification := None; Result.results := None;
     Result.error := Some message;
     Result.modelUsed := false; Result.modelUsedForPlanning := false |}.

Lemma process_unfold (input : string) (i : instance) :
  process input i =
  match process_try input (start i) with
  | (Returned r, f') => (Returned r, leave f')
  | (Thrown err, f') =>
      (match Js.message_of err with
       | Returned message => Returned (caught message f')
       | Thrown err' => Thrown err'
       end, leave (after_catch f'))
  end.
Proof using Type.
  unfold Orchestrator.process, process_catch, enter, start, caught, after_catch. monad_unfold.
  destruct (process_try input _) as [[r|err] f']; [reflexivity|].
  frame_simpl. destruct (Js.message_of err) as [message|err']; reflexivity.
Qed.

Lemma incr_in_range (n : Z) : (n < 2 ^ 53)%Z -> Metrics.incr n = (n + 1)%Z.
Proof. unfold Metrics.incr. intros H. destruct (Z.ltb_spec n (2 ^ 53)); lia. Qed.

Lemma count_track_same (intent : string) (m : Metrics.t) :
  Metrics.count intent (track_intent intent m) = Metrics.incr (Metrics.count intent m).
Proof.
  unfold Metrics.count, track_intent. cbn [Metrics.byIntent].
  rewrite lookup_insert_eq. reflexivity.
Qed.

Lemma count_track_other (intent k : string) (m : Metrics.t) :
  k <> intent -> Metrics.count k (track_intent intent m) = Metrics.count k m.
Proof.
  intros Hne. unfold Metrics.count, track_intent. cbn [Metrics.byIntent].
  rewrite lookup_insert_ne by congruence. reflexivity.
Qed.

(** The route on which no model is configured for a plan that needs one. *)
Lemma process_try_no_model (input : string) (f : frame) :
  no_pattern_match (classification_of input) = false ->
  Plan.requiresModelForPlanning (plan_of input) = true ->
  model this = None ->
  exists (r : Result.t) (f' : frame),
    process_try input f = (Returned r, f')
    /\ Result.response r =
         JStr ("I identified this as a " ++ dq ++
               Classification.intent (classification_of input) ++ dq ++
               " task, but I need a model to complete the planning. " ++
               "Run with --provider ollama or --provider claude to enable model-assisted planning.")%string
    /\ Result.deterministic r = false
    /\ Result.results r = None
    /\ world f' = world f /\ invocations f' = invocations f
    /\ metrics f' = track_intent (Classification.intent (classification_of input)) (metrics f).
Proof using Type.
  intros Hroute Hreq Hmodel. unfold Orchestrator.process_try.
  set (p := plan_of input) in *. set (c := classification_of input) in *.
  fold (no_pattern_match c). rewrite Hroute. monad_unfold.
  fold p. rewrite Hreq, Hmodel. monad_unfold.
  eexists _, _. split; [reflexivity|]. cbn. repeat split.
Qed.

(** The route on which the plan is executed without a model: the loop
    runs first, on the steps of the plan, and the stages after it call no
    executor. *)
Lemma process_try_executes (input : string) (f : frame) :
  no_pattern_match (classification_of input) = false ->
  Plan.requiresModelForPlanning (plan_of input) = false ->
  exists (ran : list Step.t) (rs : list StepResult.t) (w' : W),
    Executed ran (world f) rs w'
    /\ ((ran = Plan.steps (plan_of input)
         /\ forall o f', process_try input f = (o, f') ->
              world f' = w'
              /\ invocations f' = invocations f ++ map call_of ran
              /\ In (TraceExecuting (length rs) (length (List.filter StepResult.success rs)))
                    (trace f')
              /\ match o with
                 | Returned r => Result.results r = Some rs /\ Result.trace r = trace f'
                 | Thrown _ => True
                 end)
        \/ exists (step : Step.t) (rest : list Step.t) (text : string) (w'' : W),
             Plan.steps (plan_of input) = ran ++ step :: rest
             /\ aborts_at step w' text w''
             /\ exists f' : frame,
                  process_try input f = (Thrown (Error text), f')
                  /\ world f' = w''
                  /\ invocations f' = invocations f ++ map call_of (ran ++ [step])
                  /\ state f' = EXECUTING
                  /\ metrics f'
                     = track_intent (Classification.intent (classification_of input))
                         (metrics f)).
Proof using Type.
  intros Hroute Hreq. unfold Orchestrator.process_try.
  set (p := plan_of input) in *. set (c := classification_of input) in *.
  fold (no_pattern_match c). rewrite Hroute. monad_unfold.
  fold p. rewrite Hreq. monad_unfold.
  match goal with |- context [run_steps this ?st ?acc ?g] =>
    pose proof (run_steps_spec st acc g) as Hloop end.
  destruct Hloop as (ran & rs & w' & Hex & Hloop). frame_simpl.
  exists ran, rs, w'. split; [exact Hex|].
  destruct Hloop as [(-> & Hrun) | (s & rest & text & w'' & Hsteps & Hab & Hrun)].
  - left. split; [reflexivity|].
    intros o f'. rewrite Hrun. unfold moved. frame_simpl. cbn [app].
    assert (Hin : forall (l : list trace_entry) e l', In e ((l ++ [e]) ++ l')).
    { intros l e l'. apply in_or_app. left. apply in_or_app. right. left. reflexivity. }
    destruct (VALIDATORS _ _) as [validation|m1]; frame_simpl.
    + match goal with |- context [if ?b then _ else _] => destruct b end;
        match goal with |- context [match ?t with Returned _ => _ | Thrown _ => _ end] =>
          destruct t as [response|m4] end;
        frame_simpl; intros [= <- <-]; cbn [world invocations trace Result.results Result.trace];
        repeat split; try apply Hin;
        try (apply in_or_app; left; apply in_or_app; right; left; reflexivity).
    + intros [= <- <-]. cbn [world invocations trace]. repeat split.
      apply in_or_app; right; left; reflexivity.
  - right. exists s, rest, text, w''. split; [exact Hsteps|]. split; [exact Hab|].
    rewrite Hrun. unfold moved. frame_simpl.
    eexists. split; [reflexivity|]. cbn. repeat split.
Qed.

(** What the caller of [process] gets, as far as the counters see it. *)
Definition deterministic_result (o : outcome Result.t) : bool :=
  match o with
  | Returned r => Result.deterministic r
  | Thrown _ => false
  end.

Definition reached_catch (o : outcome Result.t) : bool :=
  match o with
  | Returned r => is_some (Result.error r)
  | Thrown _ => true
  end.


(** C1, as the code has it. Every call increments [totalTasks] and
    [byIntent[intent]] by one and leaves the other intents alone. Of the
    three outcome counters, [deterministicTasks] is incremented exactly when
    the call returns a deterministic result, [modelFallbacks] exactly
    when the classification is [no_pattern_match], and [errors] exactly
    when an exception reaches the [catch] block (the result then reports
    an error, or the call throws), each by one; [modelCallsForPlanning]
    is incremented, by one, exactly when a plan that requires a model meets
    a model adapter. A plan that is executed without a model increments
    exactly one of [deterministicTasks] and [errors]; a plan that requires
    a model increments neither [deterministicTasks] nor [modelFallbacks],
    and with no model adapter none of the three. *)
Theorem process_counters (input : string) (i : instance) :
  Metrics.in_range (i_metrics i) ->
  let c := classification_of input in
  let p := plan_of input in
  let o := fst (process input i) in
  let m := i_metrics i in
  let m' := i_metrics (snd (process input i)) in
  (Metrics.totalTasks m' = Metrics.totalTasks m + 1
   /\ Metrics.count (Classification.intent c) m'
      = Metrics.count (Classification.intent c) m + 1
   /\ (forall k, k <> Classification.intent c ->
                 Metrics.count k m' = Metrics.count k m)
   /\ Metrics.deterministicTasks m'
      = Metrics.deterministicTasks m + Z.b2z (deterministic_result o)
   /\ Metrics.modelFallbacks m'
      = Metrics.modelFallbacks m + Z.b2z (no_pattern_match c)
   /\ Metrics.errors m'
      = Metrics.errors m + Z.b2z (reached_catch o)
   /\ Metrics.modelCallsForPlanning m'
      = Metrics.modelCallsForPlanning m
        + Z.b2z (negb (no_pattern_match c) && Plan.requiresModelForPlanning p
                 && is_some (model this))
   /\ (no_pattern_match c = false -> Plan.requiresModelForPlanning p = false ->
       deterministic_result o = negb (reached_catch o))
   /\ (no_pattern_match c = false -> Plan.requiresModelForPlanning p = true ->
       deterministic_result o = false
       /\ (model this = None -> reached_catch o = false)))%Z.
Proof using Type.
  intros (Htot & Hdet & Hmf & Hplanning & _ & Herrs & Hcount).
  cbv zeta. rewrite process_unfold.
  destruct (process_try input (start i)) as [[r0|err] f1] eqn:Htry;
    pose proof (process_try_spec _ _ _ _ Htry) as Hpost;
    unfold try_post in Hpost; cbv zeta in Hpost;
    destruct Hpost as (Ht & Hby & Herr & Hfb & Hpl & _ & Hout);
    unfold start in *;
    cbn [leave i_metrics after_catch fst snd metrics incr_errors Metrics.totalTasks
         Metrics.deterministicTasks Metrics.modelFallbacks Metrics.errors
         Metrics.modelCallsForPlanning Metrics.byIntent Metrics.count] in *;
    unfold Metrics.count in *;
    cbn [Metrics.byIntent incr_errors incr_totalTasks Metrics.totalTasks
         Metrics.deterministicTasks Metrics.modelFallbacks Metrics.errors
         Metrics.modelCallsForPlanning] in *;
    rewrite ?Ht, ?Hby, ?Herr, ?Hfb, ?Hpl; cbn [track_intent Metrics.byIntent].
  - destruct Hout as (Hd & Hdr & He & _). rewrite Hd.
    cbn [deterministic_result reached_catch]. rewrite He. cbn [is_some Z.b2z negb].
    rewrite lookup_insert_eq. cbn [default from_option id].
    repeat split.
    + apply incr_in_range, Htot.
    + apply incr_in_range, Hcount.
    + intros k Hk. rewrite lookup_insert_ne by congruence. reflexivity.
    + destruct (Result.deterministic r0); cbn [Z.b2z]; [apply incr_in_range, Hdet|lia].
    + destruct (no_pattern_match _); cbn [Z.b2z]; [apply incr_in_range, Hmf|lia].
    + cbn. lia.
    + match goal with |- context [Z.b2z ?b] => destruct b end; cbn [Z.b2z];
        [apply incr_in_range, Hplanning|lia].
    + intros H1 H2. rewrite Hdr, H1, H2. reflexivity.
    + rewrite Hdr, H, H0. reflexivity.
  - destruct Hout as (Hd & _ & Hmodel). rewrite Hd.
    assert (Hcatch : reached_catch
              (match Js.message_of err with
               | Returned message => Returned (caught message f1)
               | Thrown err' => Thrown err'
               end) = true)
      by (destruct (Js.message_of err); reflexivity).
    assert (Hnot : deterministic_result
              (match Js.message_of err with
               | Returned message => Returned (caught message f1)
               | Thrown err' => Thrown err'
               end) = false)
      by (destruct (Js.message_of err); reflexivity).
    rewrite Hcatch, Hnot. cbn [Z.b2z negb].
    rewrite lookup_insert_eq. cbn [default from_option id].
    repeat split.
    + apply incr_in_range, Htot.
    + apply incr_in_range, Hcount.
    + intros k Hk. rewrite lookup_insert_ne by congruence. reflexivity.
    + lia.
    + destruct (no_pattern_match _); cbn [Z.b2z]; [apply incr_in_range, Hmf|lia].
    + apply incr_in_range, Herrs.
    + match goal with |- context [Z.b2z ?b] => destruct b end; cbn [Z.b2z];
        [apply incr_in_range, Hplanning|lia].
    + intros Hnone. exfalso. exact (Hmodel H H0 Hnone).
Qed.

(** C3, as the code has it. The loop of the EXECUTING stage runs the
    steps through the executor one after the other, in order, each from
    the world that the call before it left. A step whose call throws a
    value other than [null] and [undefined] is recorded as
    [{success: false, error: err.message}], and the loop goes on with the
    next step: the results hold one record per step, in that order.
    Only a call that throws [null] or [undefined] ends the loop: the
    [catch] block throws on [err.message], no step after it is run, and
    [process] answers "Error in executing: ..." without results. On the
    steps of a plan that [process] executes, the results are the ones
    that the stage record counts and that the deterministic result
    returns. *)
Theorem execution_runs_every_step
    (steps : list Step.t) (results : list StepResult.t) (f : frame)
    (input : string) (i : instance) :
  (exists (ran : list Step.t) (rs : list StepResult.t) (w' : W),
     Executed ran (world f) rs w'
     /\ length rs = length ran
     /\ ((ran = steps
          /\ run_steps this steps results f
             = (Returned (results ++ rs), moved f w' (map call_of steps)))
         \/ exists (step : Step.t) (rest : list Step.t) (text : string) (w'' : W),
              steps = ran ++ step :: rest
              /\ aborts_at step w' text w''
              /\ run_steps this steps results f
                 = (Thrown (Error text), moved f w'' (map call_of (ran ++ [step])))))
  /\ (no_pattern_match (classification_of input) = false ->
      Plan.requiresModelForPlanning (plan_of input) = false ->
      exists (o : outcome Result.t) (i' : instance)
             (ran : list Step.t) (rs : list StepResult.t) (w' : W),
        process input i = (o, i')
        /\ Executed ran (i_world i) rs w'
        /\ length rs = length ran
        /\ ((ran = Plan.steps (plan_of input)
             /\ i_world i' = w'
             /\ i_invocations i' = i_invocations i ++ map call_of ran
             /\ match o with
                | Returned r =>
                    In (TraceExecuting (length rs)
                          (length (List.filter StepResult.success rs))) (Result.trace r)
                    /\ (Result.results r = Some rs \/ is_some (Result.error r) = true)
                | Thrown _ => True
                end)
            \/ exists (step : Step.t) (rest : list Step.t) (text : string) (r : Result.t),
                 Plan.steps (plan_of input) = ran ++ step :: rest
                 /\ aborts_at step w' text (i_world i')
                 /\ i_invocations i' = i_invocations i ++ map call_of (ran ++ [step])
                 /\ o = Returned r
                 /\ Result.response r = JStr ("Error in executing: " ++ text)%string
                 /\ Result.results r = None
                 /\ Result.deterministic r = false)).
Proof using Type.
  split.
  - destruct (run_steps_spec steps results f) as (ran & rs & w' & Hex & Hrun).
    exists ran, rs, w'. split; [exact Hex|]. split; [|exact Hrun].
    eapply Executed_length; eauto.
  - intros Hroute Hreq.
    destruct (process_try_executes input (start i) Hroute Hreq)
      as (ran & rs & w' & Hex & Hcases).
    rewrite process_unfold.
    destruct Hcases as [(Hdone & Hall) | (s & rest & text & w'' & Hsteps & Hab & f' & Htry
                                          & Hw & Hinv & Hstate & _)].
    + destruct (process_try input (start i)) as [[r0|err] f1] eqn:Htry;
        destruct (Hall _ _ eq_refl) as (Hw & Hinv & Htrace & Hout);
        eexists _, _, ran, rs, w'; (split; [reflexivity|]);
        (split; [exact Hex|]); (split; [eapply Executed_length; eauto|]);
        left; (split; [exact Hdone|]);
        cbn [leave after_catch i_world i_invocations world invocations];
        (split; [exact Hw|]); (split; [exact Hinv|]).
      * destruct Hout as (Hres & Htr). rewrite Htr. split; auto.
      * destruct (Js.message_of err) as [message|err']; [|exact I].
        cbn [caught Result.trace Result.results Result.error is_some]. split; auto.
    + rewrite Htry. cbn [Js.message_of].
      eexists _, _, ran, rs, w'. split; [reflexivity|].
      split; [exact Hex|]. split; [eapply Executed_length; eauto|].
      right. exists s, rest, text, (caught (JStr text) f').
      cbn [leave after_catch i_world i_invocations world invocations].
      rewrite Hw. repeat split; auto.
      cbn [caught Result.response Js.ToString]. rewrite Hstate. reflexivity.
Qed.

(** C9. "npm test" is classified as [shell_command] whatever the
    threshold, with no git operation and no package extracted, so that its
    plan requires a model; an orchestrator without a model adapter then
    answers with the explanatory text and [deterministic = false], and the
    tool executor is not called. *)
Theorem npm_test_without_model (i : instance) :
  model this = None ->
  (forall threshold : float,
     let c := Classifier.classify "npm test" threshold in
     Classification.intent c = "shell_command"
     /\ Entities.gitOps (Classification.entities c) = []
     /\ Entities.packages (Classification.entities c) = []
     /\ Plan.requiresModelForPlanning (Classifier.planFromIntent c "npm test") = true)
  /\ exists (r : Result.t) (i' : instance),
       process "npm test" i = (Returned r, i')
       /\ Result.deterministic r = false
       /\ Result.response r =
            JStr ("I identified this as a " ++ dq ++ "shell_command" ++ dq ++
                  " task, but I need a model to complete the planning. " ++
                  "Run with --provider ollama or --provider claude to enable model-assisted planning.")%string
       /\ Result.results r = None
       /\ i_invocations i' = i_invocations i
       /\ i_world i' = i_world i.
Proof using Type.
  intros Hmodel. split.
  - intros threshold. cbv zeta.
    destruct (PlannerFacts.classify_npm_test threshold) as (Hi & _ & Hg & Hp).
    rewrite PlannerFacts.plan_npm_test.
    repeat split; assumption.
  - destruct (PlannerFacts.classify_npm_test (confidenceThreshold this))
      as (Hi & Hr & _ & _).
    assert (Hroute : no_pattern_match (classification_of "npm test") = false).
    { unfold no_pattern_match. cbv zeta in Hr. rewrite Hr. apply andb_false_r. }
    assert (Hreq : Plan.requiresModelForPlanning (plan_of "npm test") = true).
    { rewrite PlannerFacts.plan_npm_test. reflexivity. }
    destruct (process_try_no_model "npm test" (start i) Hroute Hreq Hmodel)
      as (r & f' & Htry & Hresp & Hdet & Hres & Hw & Hinv & _).
    rewrite process_unfold, Htry. exists r, (leave f').
    split; [reflexivity|]. cbv zeta in Hi. rewrite Hi in Hresp.
    repeat split; assumption.
Qed.

End Facts.
End OrchestratorFacts.

(** ** A concrete orchestrator, for the examples

    The validators and the templates are the tables of the source. The
    world counts the calls of a tool executor that answers every call with
    the same file content. The stand-ins for the run-time library print a
    number as an integer and convert no string to a number; JSON is
    printed as [JSON.stringify] prints it, and none is parsed: the
    examples hand the parser no text. *)
Module Demo.
Import Orchestrator OrchestratorFacts.
Local Open Scope string_scope.
Local Open Scope list_scope.

Definition Number_toString (x : float) : string := Js.toFixed x 0.
Definition String_toNumber (s : string) : float := PrimFloat.nan.
Definition JSON_stringify_pretty (v : jsval) : outcome jsval :=
  Returned (Js.JSON_stringify_pretty Number_toString v).
Definition JSON_stringify : jsval -> string := Js.JSON_stringify Number_toString.
Definition JSON_parse (text : string) : outcome jsval :=
  Thrown "Unexpected end of JSON input".

(** The own enumerable properties of a value, as a spread copies them. *)
Fixpoint indexed (i : nat) (items : list jsval) : list (string * jsval) :=
  match items with
  | [] => []
  | item :: items' => (Js.digits (N.of_nat i), item) :: indexed (S i) items'
  end.

Definition own_properties (v : jsval) : list (string * jsval) :=
  match v with
  | JObj fields => fields
  | JArr items => indexed 0 items
  | JStr s => indexed 0 (map (fun c => JStr (String c EmptyString)) (list_ascii_of_string s))
  | _ => []
  end.

(** The functions of [Object.prototype] called as a validator, that is
    without a receiver: [Object] returns its argument as an object,
    [toString] names the missing receiver, [isPrototypeOf] answers [false]
    to what is no object, [__proto__] is no function, and the others
    throw on the missing receiver. *)
Definition inherited_validator (name : string) (result : jsval)
  : outcome (list (string * jsval)) :=
  if String.eqb name "constructor" then Returned (own_properties result)
  else if String.eqb name "toString"
  then Returned (own_properties (JStr "[object Undefined]"))
  else if String.eqb name "__proto__" then Thrown "validator is not a function"
  else if String.eqb name "isPrototypeOf"
          && match result with JObj _ | JArr _ => false | _ => true end
  then Returned []
  else if String.eqb name "toLocaleString"
  then Thrown "Object.prototype.toLocaleString called on null or undefined"
  else Thrown "Cannot convert undefined or null to object".

Definition VALIDATORS :=
  Tables.VALIDATORS Number_toString String_toNumber inherited_validator.
Definition RESPONSE_TEMPLATES := Tables.RESPONSE_TEMPLATES Number_toString JSON_stringify_pretty.

Definition execute (tool args : jsval) (w : nat) : outcome jsval * nat :=
  (Returned (JObj [("success", JBool true); ("content", JStr "export default {}")]), S w).

(** An executor that cannot read files, and one that rejects every call
    with [null]. *)
Definition unreadable_files (tool args : jsval) (w : nat) : outcome jsval * nat :=
  match tool with
  | JStr "read_file" => (Thrown "EACCES: permission denied", S w)
  | _ => (Returned (JObj [("success", JBool true); ("entries", JArr [])]), S w)
  end.

Definition rejecting (tool args : jsval) (w : nat) : outcome jsval * nat :=
  (Thrown (Value JNull), S w).

Definition warn (message : string) (w : nat) : outcome unit * nat := (Returned tt, w).

(** [new WorkflowOrchestrator(execute)] and
    [new WorkflowOrchestrator(execute, failing)], where the model adapter
    [failing] rejects every request with an [Error], and [silent] with
    [null]. *)
Definition without_model : @config nat :=
  fst (constructor execute None None None warn).

Definition failing : @ModelProvider nat :=
  {| complete := fun _ _ w => (Thrown "connect ECONNREFUSED", w);
     processAgentLoop := fun _ w => (Thrown "connect ECONNREFUSED", w) |}.

Definition silent : @ModelProvider nat :=
  {| complete := fun _ _ w => (Thrown (Value JNull), w);
     processAgentLoop := fun _ w => (Thrown (Value JNull), w) |}.

Definition with_failing_model : @config nat :=
  fst (constructor execute (Some failing) None None warn).

Definition with_silent_model : @config nat :=
  fst (constructor execute (Some silent) None None warn).

Definition with_unreadable_files : @config nat :=
  fst (constructor unreadable_files None None None warn).

Definition with_rejecting_executor : @config nat :=
  fst (constructor rejecting None None None warn).

Definition fresh : @instance nat :=
  {| i_metrics := Metrics.zero; i_world := 0; i_invocations := [] |}.

Definition run (this : @config nat) (input : string) : outcome Result.t * instance :=
  process Number_toString VALIDATORS RESPONSE_TEMPLATES JSON_parse JSON_stringify
    this input fresh.

(** Two steps, of which the first reads a file. *)
Definition read_then_list : list Step.t :=
  [Classifier.step "read_file" [("path", JStr "src/agent.js")];
   Classifier.step "list_directory" [("path", JStr "src")]].

(** C1 as the specification words it: exactly one of the three outcome
    counters has grown, by one, and so has the count of the intent. *)
Definition grew (before after : Z) : bool := (after =? before + 1)%Z.
Definition same (before after : Z) : bool := (after =? before)%Z.

Definition exactly_one_incremented (m m' : Metrics.t) : bool :=
  let d := (Metrics.deterministicTasks m, Metrics.deterministicTasks m') in
  let f := (Metrics.modelFallbacks m, Metrics.modelFallbacks m') in
  let e := (Metrics.errors m, Metrics.errors m') in
  (grew (fst d) (snd d) && same (fst f) (snd f) && same (fst e) (snd e))
  || (same (fst d) (snd d) && grew (fst f) (snd f) && same (fst e) (snd e))
  || (same (fst d) (snd d) && same (fst f) (snd f) && grew (fst e) (snd e)).

Definition counted_once (this : @config nat) (input : string) : bool :=
  let m' := i_metrics (snd (run this input)) in
  let intent := Classification.intent
                  (Classifier.classify input (confidenceThreshold this)) in
  exactly_one_incremented Metrics.zero m'
  && grew (Metrics.count intent Metrics.zero) (Metrics.count intent m').

(** The four counters of the routes after a call. *)
Definition outcome_counters (i : @instance nat) : Z * Z * Z * Z :=
  (Metrics.deterministicTasks (i_metrics i), Metrics.modelFallbacks (i_metrics i),
   Metrics.errors (i_metrics i), Metrics.modelCallsForPlanning (i_metrics i)).

Lemma zero_in_range : Metrics.in_range Metrics.zero.
Proof.
  unfold Metrics.in_range, Metrics.count. cbn.
  repeat split; try lia; intros k; rewrite ?lookup_empty; cbn; lia.
Qed.

(** "npm test" without a model: none of the three counters moves. *)
Lemma npm_test_counts_nothing :
  counted_once without_model "npm test" = false
  /\ (let m' := i_metrics (snd (run without_model "npm test")) in
      (Metrics.deterministicTasks m', Metrics.modelFallbacks m', Metrics.errors m'))
     = (0, 0, 0)%Z.
Proof. split; vm_compute; reflexivity. Qed.

(** A model adapter that rejects a request it is handed in full: both
    [modelFallbacks] and [errors] move, and the answer names the state. *)
Lemma failing_fallback_counts_twice :
  counted_once with_failing_model "hello" = false
  /\ (let (o, i') := run with_failing_model "hello" in
      (option_map Result.response
         (match o with Returned r => Some r | Thrown _ => None end),
       Metrics.deterministicTasks (i_metrics i'),
       Metrics.modelFallbacks (i_metrics i'),
       Metrics.errors (i_metrics i')))
     = (Some (JStr "Error in classifying: connect ECONNREFUSED"), 0, 1, 1)%Z.
Proof. split; vm_compute; reflexivity. Qed.


(** C3 as the specification words it, against the code: an executor that
    rejects with [null] is not recorded. In [process] the call has no
    results and answers with the generic error; in the loop, on two
    steps, the second step is not run. *)
Lemma null_throw_leaves_the_loop :
  (let (o, i') := run with_rejecting_executor "read file src/agent.js" in
   (match o with
    | Returned r => Some (Result.response r, Result.results r, Result.deterministic r)
    | Thrown _ => None
    end, i_invocations i'))
  = (Some (JStr "Error in executing: Cannot read properties of null (reading 'message')",
           None, false),
     [(JStr "read_file", JObj [("path", JStr "src/agent.js")])])
  /\ (let (o, f') := run_steps with_rejecting_executor read_then_list [] (start fresh) in
      (o, invocations f'))
     = (Thrown "Cannot read properties of null (reading 'message')",
        [(JStr "read_file", JObj [("path", JStr "src/agent.js")])]).
Proof. split; vm_compute; reflexivity. Qed.

(** The deterministic route, end to end. *)
Lemma read_file_end_to_end :
  (let (o, i') := run without_model "read file src/agent.js" in
   (match o with
    | Returned r =>
        Some (Result.response r, Result.deterministic r,
              option_map (map StepResult.success) (Result.results r),
              Snapshot.deterministicRate (Result.metrics r))
    | Thrown _ => None
    end, i_world i', i_invocations i'))
  = (Some (JStr ("Contents of `src/agent.js`:" ++ nl ++ nl ++ "export default {}")%string,
           true, Some [true], "100.0%"),
     1%nat, [(JStr "read_file", JObj [("path", JStr "src/agent.js")])]).
Proof. vm_compute. reflexivity. Qed.

(** The validator of [shell_command] on a step result with exit code 1,
    and the response of its error template. *)
Lemma exit_code_example :
  let result := JObj [("exitCode", JNum 1); ("stderr", JStr "boom")] in
  Tables.validate_shell_command Number_toString result
  = [("valid", JBool false); ("reason", JStr "exit_code_1"); ("stderr", JStr "boom")]
  /\ error (RESPONSE_TEMPLATES "shell_command")
        (JObj (Js.spread [("exitCode", JNum 1); ("stderr", JStr "boom")]
                 (Tables.validate_shell_command Number_toString result)))
        (plan_fields (Classifier.plan_of "shell_command"
                        [Classifier.step "run_command" [("command", JStr "git push")]] false))
     = Returned ("`git push` failed (exit 1):" ++ nl ++ "boom")%string.
Proof. vm_compute. split; reflexivity. Qed.

(** What [JSON.stringify] prints. *)
Lemma JSON_stringify_examples :
  JSON_stringify_pretty JUndefined = Returned JUndefined
  /\ JSON_stringify_pretty (JObj []) = Returned (JStr "{}")
  /\ JSON_stringify_pretty
       (JObj [("success", JBool true); ("tags", JArr [JStr "a"; JUndefined]);
              ("skipped", JUndefined); ("code", JNum 1)])
     = Returned (JStr ("{" ++ nl ++ "  " ++ dq ++ "success" ++ dq ++ ": true," ++ nl ++
             "  " ++ dq ++ "tags" ++ dq ++ ": [" ++ nl ++
             "    " ++ dq ++ "a" ++ dq ++ "," ++ nl ++
             "    null" ++ nl ++
             "  ]," ++ nl ++
             "  " ++ dq ++ "code" ++ dq ++ ": 1" ++ nl ++ "}"))%string
  /\ JSON_stringify (JArr [JObj [("tool", JStr "read_file"); ("args", JObj [])]])
     = ("[{" ++ dq ++ "tool" ++ dq ++ ":" ++ dq ++ "read_file" ++ dq ++ "," ++
        dq ++ "args" ++ dq ++ ":{}}]")%string.
Proof. vm_compute. repeat split; reflexivity. Qed.

Lemma process_counters_witness :
  Metrics.in_range (i_metrics fresh)
  /\ outcome_counters (snd (run without_model "read file src/agent.js")) = (1, 0, 0, 0)%Z
  /\ outcome_counters (snd (run with_failing_model "npm test")) = (0, 0, 0, 1)%Z
  /\ outcome_counters (snd (run with_silent_model "hello")) = (0, 1, 1, 0)%Z.
Proof.
  split; [exact zero_in_range|].
  pose proof (process_counters Number_toString VALIDATORS RESPONSE_TEMPLATES JSON_parse
                JSON_stringify without_model "read file src/agent.js" fresh zero_in_range)
    as H1.
  pose proof (process_counters Number_toString VALIDATORS RESPONSE_TEMPLATES JSON_parse
                JSON_stringify with_failing_model "npm test" fresh zero_in_range)
    as H2.
  pose proof (process_counters Number_toString VALIDATORS RESPONSE_TEMPLATES JSON_parse
                JSON_stringify with_silent_model "hello" fresh zero_in_range)
    as H3.
  cbv zeta in H1, H2, H3.
  destruct H1 as (_ & _ & _ & Hd1 & Hf1 & He1 & Hp1 & _).
  destruct H2 as (_ & _ & _ & Hd2 & Hf2 & He2 & Hp2 & _).
  destruct H3 as (_ & _ & _ & Hd3 & Hf3 & He3 & Hp3 & _).
  unfold outcome_counters, run.
  rewrite Hd1, Hf1, He1, Hp1, Hd2, Hf2, He2, Hp2, Hd3, Hf3, He3, Hp3.
  repeat split; vm_compute; reflexivity.
Defined.


Lemma execution_runs_every_step_witness :
  exists (rs : list StepResult.t) (f' : frame),
    run_steps with_unreadable_files read_then_list [] (start fresh) = (Returned rs, f')
    /\ length rs = 2
    /\ map StepResult.success rs = [false; true]
    /\ map StepResult.error rs = [Some (JStr "EACCES: permission denied"); None]
    /\ invocations f'
       = [(JStr "read_file", JObj [("path", JStr "src/agent.js")]);
          (JStr "list_directory", JObj [("path", JStr "src")])]
    /\ world f' = 2.
Proof.
  destruct (execution_runs_every_step Number_toString VALIDATORS RESPONSE_TEMPLATES
              JSON_parse JSON_stringify with_unreadable_files
              read_then_list [] (start fresh) "read file src/agent.js" fresh)
    as ((ran & rs & w' & Hex & Hlen & Hloop) & _).
  assert (Hnot : forall text f', run_steps with_unreadable_files read_then_list []
                                   (start fresh) <> (Thrown (Error text), f')).
  { intros text f' H. apply (f_equal fst) in H. vm_compute in H. discriminate H. }
  destruct Hloop as [(-> & Hrun) | (s & rest & text & w'' & _ & _ & Hrun)];
    [|exfalso; exact (Hnot _ _ Hrun)].
  exists ([] ++ rs), (moved (start fresh) w' (map call_of read_then_list)).
  split; [exact Hrun|]. split; [exact Hlen|].
  assert (H := f_equal (fun x => (match fst x with
                                  | Returned l => l
                                  | Thrown _ => []
                                  end, world (snd x))) Hrun).
  cbn [fst snd app moved world] in H. vm_compute in H.
  injection H as Hrs Hw. rewrite <- Hrs, <- Hw. cbn [app].
  vm_compute. repeat split; reflexivity.
Defined.

Lemma npm_test_without_model_witness :
  model without_model = None
  /\ exists r i',
       run without_model "npm test" = (Returned r, i')
       /\ Result.deterministic r = false
       /\ i_invocations i' = [].
Proof.
  split; [reflexivity|].
  destruct (npm_test_without_model Number_toString VALIDATORS RESPONSE_TEMPLATES JSON_parse
              JSON_stringify without_model fresh eq_refl)
    as (_ & r & i' & Hrun & Hdet & _ & _ & Hinv & _).
  exists r, i'. repeat split; assumption.
Defined.

End Demo.

(* ===================================================================== *)
(** * Further properties of the code *)
(* ===================================================================== *)

(** ** classifier.js: candidates and classification *)

Module ClassifierMore.
Import JsString Regex Classifier ScorerFacts.
Local Open Scope string_scope.
Local Open Scope list_scope.
Local Open Scope float_scope.

(** The identifiers of the table. *)
Definition table_ids : list string := map (fun nt => TaskType.id (snd nt)) TASK_TYPES.

Lemma candidate_in_table (input : string) (c : Candidate.t) :
  In c (scoreTaskTypes input) ->
  exists name t, In (name, t) TASK_TYPES /\ c = candidate input t
                 /\ In (Candidate.taskType c) table_ids.
Proof.
  intros Hc. apply In_scores in Hc. destruct Hc as (name & t & Hin & _ & ->).
  exists name, t. repeat split; [exact Hin|].
  unfold table_ids. cbn [candidate Candidate.taskType].
  exact (in_map (fun nt => TaskType.id (snd nt)) _ _ Hin).
Qed.

Lemma unknown_not_in_table : ~ In "unknown"%string table_ids.
Proof.
  intros H. vm_compute in H.
  repeat (destruct H as [H|H]; [discriminate H|]). exact H.
Qed.

(** X1. [classify] answers the intent [unknown] exactly when the scorer
    finds no candidate, and exactly then its reason is
    [no_pattern_match]; such an answer has confidence 0, needs the model
    and lists no tools and no scores. *)
Theorem classify_unknown_iff (input : string) (threshold : float) :
  let c := classify input threshold in
  (Classification.intent c = "unknown"%string <-> scoreTaskTypes input = [])
  /\ (Classification.reason c = "no_pattern_match"%string <-> scoreTaskTypes input = [])
  /\ (scoreTaskTypes input = [] ->
      Classification.confidence c = 0
      /\ Classification.needsModel c = true
      /\ Classification.tools c = []
      /\ Classification.allScores c = []).
Proof.
  intros c. subst c. unfold classify.
  destruct (scoreTaskTypes input) as [|top others] eqn:Hs.
  - cbn. repeat split; auto.
  - assert (Hin : In top (scoreTaskTypes input)) by (rewrite Hs; left; reflexivity).
    apply candidate_in_table in Hin. destruct Hin as (_ & _ & _ & _ & Hid).
    split; [|split].
    + split; [|discriminate]. intros Hu. exfalso. apply unknown_not_in_table.
      destruct (threshold <=? Candidate.confidence top); cbn in Hu; rewrite <- Hu; exact Hid.
    + split; [|discriminate].
      destruct (threshold <=? Candidate.confidence top); cbn; [|discriminate].
      destruct others as [|second rest]; [discriminate|].
      destruct (Candidate.confidence top - Candidate.confidence second <? 0.1); discriminate.
    + discriminate.
Qed.

(** X2. The threshold only decides whether the model is needed: under any
    two thresholds [classify] gives the same intent, confidence, tools,
    entities and scores; the entities are those of [extractEntities] and
    the scores are the first three candidates of [scoreTaskTypes]. *)
Theorem classify_threshold_only_gates (input : string) (t1 t2 : float) :
  let c1 := classify input t1 in
  let c2 := classify input t2 in
  Classification.intent c1 = Classification.intent c2
  /\ Classification.confidence c1 = Classification.confidence c2
  /\ Classification.tools c1 = Classification.tools c2
  /\ Classification.entities c1 = Classification.entities c2
  /\ Classification.allScores c1 = Classification.allScores c2
  /\ Classification.entities c1 = extractEntities input
  /\ Classification.allScores c1 = firstn 3 (scoreTaskTypes input).
Proof.
  intros c1 c2. subst c1 c2. unfold classify.
  destruct (scoreTaskTypes input) as [|top others] eqn:Hs.
  - cbn. repeat split.
  - assert (Hin : In top (scoreTaskTypes input)) by (rewrite Hs; left; reflexivity).
    apply candidate_in_table in Hin. destruct Hin as (name & t & _ & -> & _).
    destruct (t1 <=? _), (t2 <=? _); cbn; repeat split.
Qed.

Lemma possible_scores (input : string) : Forall possible (scoreTaskTypes input).
Proof.
  exact (Forall_Array_sort by_confidence_desc possible _ (unsorted_possible input)).
Qed.

Lemma classify_top (input : string) (threshold : float) top others :
  scoreTaskTypes input = top :: others ->
  Classification.confidence (classify input threshold) = Candidate.confidence top
  /\ Classification.intent (classify input threshold) = Candidate.taskType top.
Proof.
  intros Hs. unfold classify. rewrite Hs. cbv zeta.
  destruct (threshold <=? Candidate.confidence top); split; reflexivity.
Qed.

(** X3. The classification is the best candidate: no candidate has a
    higher confidence than the one [classify] reports, and a candidate of
    equal confidence belongs to a task type that comes no earlier in the
    table than the reported intent. *)
Theorem classify_picks_best (input : string) (threshold : float) :
  Forall (fun c =>
            (Candidate.confidence c <=? Classification.confidence (classify input threshold)) = true
            /\ ((Candidate.confidence c =? Classification.confidence (classify input threshold)) = true ->
                (index_of (Classification.intent (classify input threshold))
                 <= index_of (Candidate.taskType c))%nat))
         (scoreTaskTypes input).
Proof.
  pose proof (scores_ordered input) as Hsorted.
  pose proof (possible_scores input) as Hposs.
  destruct (scoreTaskTypes input) as [|top others] eqn:Hs; [constructor|].
  destruct (classify_top input threshold top others Hs) as (-> & ->).
  inversion Hsorted as [|? ? Hs' Hall]; subst.
  inversion Hposs as [|? ? Hptop Hpothers]; subst.
  constructor.
  - destruct (confidences_compare _ _ Hptop Hptop) as (_ & Hle & Heq).
    rewrite Hle. split; [apply N.leb_le; lia | intros _; lia].
  - rewrite List.Forall_forall in Hall, Hpothers |- *. intros c Hc.
    specialize (Hall c Hc). specialize (Hpothers c Hc).
    destruct (confidences_compare _ _ Hptop Hpothers) as (_ & Hle & _).
    destruct (confidences_compare _ _ Hpothers Hptop) as (_ & _ & Heq).
    rewrite Hle, Heq. unfold before, table_index in Hall. split.
    + apply N.leb_le. lia.
    + intros He. apply N.eqb_eq in He. lia.
Qed.

(** All confidences that the scorer can produce lie in [0, 1]; the
    positive ones are those of a type with some signal. *)
Definition in_unit_interval (x : float) : bool := (0 <=? x) && (x <=? 1).

Lemma all_confidences_bounded : forallb in_unit_interval all_confidences = true.
Proof. vm_compute. reflexivity. Qed.

(** X4. Every candidate has a confidence above 0 and at most 1, and the
    confidence that [classify] reports lies between 0 and 1. *)
Theorem confidences_in_unit_interval (input : string) (threshold : float) :
  Forall (fun c => (0 <? Candidate.confidence c) = true
                   /\ (Candidate.confidence c <=? 1) = true)
         (scoreTaskTypes input)
  /\ in_unit_interval (Classification.confidence (classify input threshold)) = true.
Proof.
  assert (Hall : Forall (fun c => (0 <? Candidate.confidence c) = true
                   /\ (Candidate.confidence c <=? 1) = true) (scoreTaskTypes input)).
  { apply List.Forall_forall. intros c Hc.
    pose proof (possible_scores input) as Hposs. rewrite List.Forall_forall in Hposs.
    specialize (Hposs c Hc). unfold possible in Hposs.
    pose proof all_confidences_bounded as Hb. rewrite List.forallb_forall in Hb.
    specialize (Hb _ Hposs). unfold in_unit_interval in Hb.
    apply andb_prop in Hb. destruct Hb as (_ & Hle).
    apply In_scores in Hc. destruct Hc as (name & t & _ & Hpos & ->).
    split; [exact Hpos | exact Hle]. }
  split; [exact Hall|].
  unfold classify. destruct (scoreTaskTypes input) as [|top others] eqn:Hs.
  - vm_compute. reflexivity.
  - inversion Hall as [|? ? (Hpos & Hle) _]; subst.
    assert (H0 : (0 <=? Candidate.confidence top) = true).
    { pose proof (possible_scores input) as Hposs. rewrite Hs in Hposs.
      inversion Hposs as [|? ? Hp _]; subst. unfold possible in Hp.
      pose proof all_confidences_bounded as Hb. rewrite List.forallb_forall in Hb.
      specialize (Hb _ Hp). unfold in_unit_interval in Hb.
      apply andb_prop in Hb. tauto. }
    cbv zeta. destruct (threshold <=? Candidate.confidence top); cbn;
      unfold in_unit_interval; rewrite H0, Hle; reflexivity.
Qed.

(** Whether some entity category boosts the type. *)
Definition has_boost (b : bool * bool * bool * bool) : bool :=
  let '(b1, b2, b3, b4) := b in b1 || b2 || b3 || b4.

Definition has_signal (input : string) (t : TaskType.t) : bool :=
  nonempty (matching_patterns input t) || nonempty (matching_keywords input t)
  || has_boost (boosts (extractEntities input) t).

(** On every combination of numbers of matches and of boosts of a type,
    the confidence is positive exactly when there is a match or a boost. *)
Definition signal_check (t : TaskType.t) : bool :=
  forallb (fun p =>
    forallb (fun k =>
      forallb (fun b =>
        Bool.eqb (0 <? confidence_at t p k b)
                 (negb (Nat.eqb p 0) || negb (Nat.eqb k 0) || has_boost b))
        (flags_of t))
      (seq 0 (S (length (TaskType.keywords t)))))
    (seq 0 (S (length (TaskType.patterns t)))).

Lemma signal_check_table : forallb (fun nt => signal_check (snd nt)) TASK_TYPES = true.
Proof. vm_compute. reflexivity. Qed.

Lemma nonempty_length {A : Type} (l : list A) : nonempty l = negb (Nat.eqb (length l) 0).
Proof. destruct l; reflexivity. Qed.

Lemma positive_iff_signal (input name : string) (t : TaskType.t) :
  In (name, t) TASK_TYPES ->
  (0 <? Math_min (raw_score input t) 1) = has_signal input t.
Proof.
  intros Hin. pose proof signal_check_table as Hall.
  rewrite List.forallb_forall in Hall. specialize (Hall _ Hin). cbn [snd] in Hall.
  unfold signal_check in Hall. rewrite List.forallb_forall in Hall.
  assert (Hp : In (length (matching_patterns input t))
                  (seq 0 (S (length (TaskType.patterns t))))).
  { apply in_seq.
    pose proof (filter_length_le (fun pattern => test pattern input) (TaskType.patterns t)).
    unfold matching_patterns. lia. }
  assert (Hk : In (length (matching_keywords input t))
                  (seq 0 (S (length (TaskType.keywords t))))).
  { apply in_seq.
    pose proof (filter_length_le
                  (fun keyword => includes (toLowerCase input) (toLowerCase keyword))
                  (TaskType.keywords t)).
    unfold matching_keywords. lia. }
  specialize (Hall _ Hp). rewrite List.forallb_forall in Hall.
  specialize (Hall _ Hk). rewrite List.forallb_forall in Hall.
  specialize (Hall (restrict t (populated (extractEntities input)))).
  rewrite confidence_shape. unfold has_signal. rewrite !nonempty_length.
  apply Bool.eqb_prop. apply Hall.
  unfold flags_of. apply nodup_In. apply in_map. apply In_all_populated.
Qed.

Definition has_candidate (input : string) (t : TaskType.t) : bool :=
  existsb (fun c => String.eqb (Candidate.taskType c) (TaskType.id t)) (scoreTaskTypes input).

(** X5. A task type of the table has a candidate exactly when it has a
    signal in the input: one of its patterns matches, one of its keywords
    occurs, or an entity category that boosts it is populated. *)
Theorem candidate_iff_signal (input : string) :
  Forall (fun nt => has_candidate input (snd nt) = has_signal input (snd nt)) TASK_TYPES.
Proof.
  apply List.Forall_forall. intros [name t] Hin. cbn [snd].
  rewrite <- (positive_iff_signal input name t Hin). unfold has_candidate.
  destruct (0 <? Math_min (raw_score input t) 1) eqn:Hpos.
  - apply existsb_exists. exists (candidate input t). split.
    + apply In_scores. exists name, t. auto.
    + apply String.eqb_refl.
  - destruct (existsb _ _) eqn:Hex; [|reflexivity].
    apply existsb_exists in Hex. destruct Hex as (c & Hc & Hid).
    apply In_scores in Hc. destruct Hc as (name' & t' & Hin' & Hpos' & ->).
    apply String.eqb_eq in Hid. cbn [candidate Candidate.taskType] in Hid.
    rewrite (id_determines_type _ _ _ _ Hin' Hin Hid) in Hpos'. congruence.
Qed.

(** Sorting permutes. *)
Lemma sort_insert_perm {A : Type} (cmp : A -> A -> float) (x : A) (l : list A) :
  Permutation (sort_insert cmp x l) (x :: l).
Proof.
  induction l as [|y l IH]; cbn; [reflexivity|].
  destruct (0 <? cmp x y); [|reflexivity].
  rewrite IH. apply perm_swap.
Qed.

Lemma Array_sort_perm {A : Type} (cmp : A -> A -> float) (l : list A) :
  Permutation (Array_sort cmp l) l.
Proof.
  induction l as [|x l IH]; cbn; [reflexivity|].
  rewrite sort_insert_perm. constructor. exact IH.
Qed.

Lemma sorted_lt_NoDup (l : list nat) : StronglySorted lt l -> List.NoDup l.
Proof.
  induction 1 as [|x l Hs IH Hall]; constructor; [|exact IH].
  intros Hin. rewrite List.Forall_forall in Hall. specialize (Hall x Hin). lia.
Qed.

Lemma StronglySorted_map {A B : Type} (f : A -> B) (R : B -> B -> Prop) (l : list A) :
  StronglySorted (fun a b => R (f a) (f b)) l -> StronglySorted R (map f l).
Proof.
  induction 1 as [|x l Hs IH Hall]; cbn; constructor; [exact IH|].
  rewrite List.Forall_forall in Hall |- *. intros y Hy.
  apply in_map_iff in Hy. destruct Hy as (a & <- & Ha). auto.
Qed.

(** X6. The candidates of an input belong to pairwise different task
    types of the table, so that there are at most ten of them. *)
Theorem candidates_one_per_type (input : string) :
  List.NoDup (map Candidate.taskType (scoreTaskTypes input))
  /\ incl (map Candidate.taskType (scoreTaskTypes input)) table_ids
  /\ (length (scoreTaskTypes input) <= 10)%nat.
Proof.
  assert (Hnd : List.NoDup (map Candidate.taskType (scoreTaskTypes input))).
  { unfold scoreTaskTypes.
    apply (Permutation_NoDup (l := map Candidate.taskType (unsorted_scores input))).
    - apply Permutation_map. symmetry. apply Array_sort_perm.
    - apply (NoDup_map_inv index_of). rewrite map_map.
      apply sorted_lt_NoDup.
      apply (StronglySorted_map table_index lt).
      apply unsorted_in_table_order. }
  assert (Hincl : incl (map Candidate.taskType (scoreTaskTypes input)) table_ids).
  { intros id Hid. apply in_map_iff in Hid. destruct Hid as (c & <- & Hc).
    apply candidate_in_table in Hc. destruct Hc as (_ & _ & _ & _ & H). exact H. }
  repeat split; [exact Hnd | exact Hincl |].
  rewrite <- (length_map Candidate.taskType).
  apply (NoDup_incl_length Hnd Hincl).
Qed.

End ClassifierMore.

(** ** classifier.js: plans *)

Module PlannerMore.
Import JsString Regex Classifier ScorerFacts ClassifierMore.
Local Open Scope string_scope.
Local Open Scope list_scope.

(** The intents for which the planner can complete a plan by itself. *)
Definition PLANNABLE : list string :=
  ["file_read"; "shell_command"; "http_request"; "search"; "testing"].

Ltac plan_cases :=
  unfold planFromIntent, plan_of;
  repeat match goal with
         | |- context [String.eqb ?a ?b] =>
             let E := fresh "E" in destruct (String.eqb a b) eqn:E;
             [apply String.eqb_eq in E|clear E]
         | |- context [first_truthy ?l] => destruct (first_truthy l)
         | |- context [match Entities.gitOps ?e with _ => _ end] =>
             destruct (Entities.gitOps e)
         | |- context [nonempty ?l] => destruct (nonempty l)
         | |- context [exec SEARCH_TERM ?i] => destruct (exec SEARCH_TERM i)
         | |- context [test RUN_TESTS ?i] => destruct (test RUN_TESTS i)
         end;
  cbn [Plan.intent Plan.steps Plan.requiresModelForPlanning length].


(** X7. A plan carries the intent of its classification and has at most
    two steps. A plan that needs no model has exactly one step, and its
    intent is one of [file_read], [shell_command], [http_request],
    [search] and [testing]; a plan without steps needs the model. *)
Theorem plan_shape (classification : Classification.t) (input : string) :
  let p := planFromIntent classification input in
  Plan.intent p = Classification.intent classification
  /\ (length (Plan.steps p) <= 2)%nat
  /\ (Plan.requiresModelForPlanning p = false ->
      length (Plan.steps p) = 1%nat
      /\ In (Classification.intent classification) PLANNABLE)
  /\ (Plan.steps p = [] -> Plan.requiresModelForPlanning p = true).
Proof.
  cbv zeta. unfold PLANNABLE.
  plan_cases;
    (split; [reflexivity|]); (split; [lia|]);
    (split;
     [intros Hd;
      first [discriminate Hd
            | split; [reflexivity|];
              match goal with E : _ = _ |- _ => rewrite E end; cbn; tauto]
     | intros Hs; first [discriminate Hs | reflexivity]]).
Qed.

Definition uses_tool_of (tools : list string) (s : Step.t) : bool :=
  match Step.tool s with
  | JStr tool => existsb (String.eqb tool) tools
  | _ => false
  end.

Lemma plan_tools_of_type (c : Classification.t) (input name : string) (t : TaskType.t) :
  In (name, t) TASK_TYPES ->
  Classification.intent c = TaskType.id t ->
  Classification.tools c = TaskType.tools t ->
  forallb (uses_tool_of (Classification.tools c)) (Plan.steps (planFromIntent c input)) = true.
Proof.
  intros Hin Hid Htools. rewrite Htools.
  unfold planFromIntent, plan_of. rewrite Hid.
  cbn in Hin.
  repeat (destruct Hin as [Hin|Hin]; [injection Hin as <- <-|]); try contradiction;
    cbn [TaskType.id TaskType.tools FILE_READ FILE_WRITE FILE_EDIT SHELL_COMMAND
         HTTP_REQUEST CODE_ANALYSIS PROJECT_SCAFFOLD SEARCH TESTING DEPLOYMENT];
    repeat match goal with
           | |- context [String.eqb ?a ?b] =>
               let v := eval vm_compute in (String.eqb a b) in
               change (String.eqb a b) with v; cbv iota
           end;
    repeat match goal with
           | |- context [first_truthy ?l] => destruct (first_truthy l)
           | |- context [match Entities.gitOps ?e with _ => _ end] =>
               destruct (Entities.gitOps e)
           | |- context [nonempty ?l] => destruct (nonempty l)
           | |- context [exec SEARCH_TERM ?i] => destruct (exec SEARCH_TERM i)
           | |- context [test RUN_TESTS ?i] => destruct (test RUN_TESTS i)
           end;
    reflexivity.
Qed.

(** X8. Every step of the plan made for the classification of an input
    calls a tool that the classification lists. *)
Theorem plan_uses_classified_tools (input : string) (threshold : float) :
  let c := classify input threshold in
  forallb (uses_tool_of (Classification.tools c)) (Plan.steps (planFromIntent c input)) = true.
Proof.
  cbv zeta.
  destruct (scoreTaskTypes input) as [|top others] eqn:Hs.
  - assert (Hc : Classification.intent (classify input threshold) = "unknown").
    { unfold classify. rewrite Hs. reflexivity. }
    unfold planFromIntent, plan_of. rewrite Hc. reflexivity.
  - assert (Hin : In top (scoreTaskTypes input)) by (rewrite Hs; left; reflexivity).
    apply candidate_in_table in Hin. destruct Hin as (name & t & Hin & Htop & _).
    apply (plan_tools_of_type _ input name t Hin).
    + unfold classify. rewrite Hs. cbv zeta. rewrite Htop.
      destruct (PrimFloat.leb threshold _); reflexivity.
    + unfold classify. rewrite Hs. cbv zeta. rewrite Htop.
      destruct (PrimFloat.leb threshold _); reflexivity.
Qed.

End PlannerMore.

(** ** orchestrator.js: validators, templates and the executed plan *)

Module TablesFacts.
Import Orchestrator OrchestratorFacts.
Local Open Scope string_scope.
Local Open Scope list_scope.

Section WithRuntime.
Variable Number_toString : float -> string.
Variable String_toNumber : string -> float.
Variable JSON_stringify_pretty : jsval -> outcome jsval.
Variable inherited_validator : string -> jsval -> outcome (list (string * jsval)).

Local Abbreviation VALIDATORS :=
  (Tables.VALIDATORS Number_toString String_toNumber inherited_validator).
Local Abbreviation RESPONSE_TEMPLATES :=
  (Tables.RESPONSE_TEMPLATES Number_toString JSON_stringify_pretty).






(** *** The validating and responding stages on the last step result *)

(** [lastResult?.result || lastResult] *)
Definition validated (lastResult : option StepResult.t) : jsval :=
  Js.or (result_field lastResult) (value_of lastResult).

(** The response that the two stages build, or the exception that leaves
    them. *)
Definition respond (intent : string) (lastResult : option StepResult.t) (plan : jsval)
  : outcome string :=
  match VALIDATORS intent (validated lastResult) with
  | Thrown message => Thrown message
  | Returned validation =>
      if Js.truthy (Js.field "valid" validation)
      then success (RESPONSE_TEMPLATES intent) (validated lastResult) plan
      else error (RESPONSE_TEMPLATES intent)
             (JObj (Js.spread
                      (match lastResult with
                       | Some r => StepResult.fields r
                       | None => []
                       end)
                      validation))
             plan
  end.









(** *** The pipeline with the tables of the source *)

Context {W : Type}.
Variable JSON_parse : string -> outcome jsval.
Variable JSON_stringify : jsval -> string.
Variable this : @config W.

Local Abbreviation process :=
  (process Number_toString VALIDATORS RESPONSE_TEMPLATES JSON_parse JSON_stringify this).
Local Abbreviation process_try :=
  (process_try Number_toString VALIDATORS RESPONSE_TEMPLATES JSON_parse JSON_stringify this).
Local Abbreviation classification_of input :=
  (Classifier.classify input (confidenceThreshold this)).
Local Abbreviation plan_of input :=
  (Classifier.planFromIntent (classification_of input) input).

Local Arguments Classifier.classify : simpl never.
Local Arguments Classifier.planFromIntent : simpl never.

Ltac frame_simpl :=
  cbn [metrics world invocations trace state fst snd] in *.

Ltac monad_unfold :=
  cbv beta iota zeta delta
    [bind ret throw try_catch lift with_metrics set_state trace_push get_trace
     get_state on_world call_executeTool _trackIntent _snapshot result_of
     run_step run_model_step];
  frame_simpl.

(** The record that the execution loop pushes for a step, unless the
    call threw [null] or [undefined]. *)
Definition recorded (s : Step.t) (o : outcome jsval) : option StepResult.t :=
  match o with
  | Returned v => Some (StepResult.ok (Step.tool s) (Step.args s) v)
  | Thrown err =>
      match Js.message_of err with
      | Returned message => Some (StepResult.failed (Step.tool s) (Step.args s) message)
      | Thrown _ => None
      end
  end.

(** A deterministic plan of one step: what [process] does, in terms of
    the outcome of the one call of the executor. *)
Lemma process_one_step (input : string) (i : instance) (s : Step.t)
    (o : outcome jsval) (w1 : W) (record : StepResult.t) :
  no_pattern_match (classification_of input) = false ->
  Plan.requiresModelForPlanning (plan_of input) = false ->
  Plan.steps (plan_of input) = [s] ->
  executeTool this (Step.tool s) (Step.args s) (i_world i) = (o, w1) ->
  recorded s o = Some record ->
  exists (o' : outcome Result.t) (i' : instance),
    process input i = (o', i')
    /\ i_world i' = w1
    /\ i_invocations i' = i_invocations i ++ [(Step.tool s, Step.args s)]
    /\ match respond (Classification.intent (classification_of input))
               (Some record) (plan_fields (plan_of input)) with
       | Returned text =>
           exists r : Result.t,
             o' = Returned r
             /\ Result.response r = JStr text
             /\ Result.deterministic r = true
             /\ Result.error r = None
             /\ Result.results r = Some [record]
             /\ Result.classification r = Some (classification_of input)
             /\ Metrics.deterministicTasks (i_metrics i')
                = Metrics.incr (Metrics.deterministicTasks (i_metrics i))
             /\ Metrics.errors (i_metrics i') = Metrics.errors (i_metrics i)
       | Thrown err =>
           deterministic_result o' = false
           /\ reached_catch o' = true
           /\ Metrics.deterministicTasks (i_metrics i')
              = Metrics.deterministicTasks (i_metrics i)
           /\ Metrics.errors (i_metrics i') = Metrics.incr (Metrics.errors (i_metrics i))
       end.
Proof using Type.
  intros Hroute Hreq Hsteps Hcall Hrec.
  rewrite process_unfold. unfold Orchestrator.process_try.
  set (p := plan_of input) in *. set (c := classification_of input) in *.
  fold (no_pattern_match c). rewrite Hroute. monad_unfold.
  fold p. rewrite Hreq, Hsteps. cbn [run_steps]. monad_unfold.
  unfold start. frame_simpl. rewrite Hcall.
  unfold respond, validated.
  assert (Hcaught : forall (err : exn) (f : @frame W),
            deterministic_result
              (match Js.message_of err with
               | Returned message => Returned (caught Number_toString message f)
               | Thrown err' => Thrown err'
               end) = false
            /\ reached_catch
                 (match Js.message_of err with
                  | Returned message => Returned (caught Number_toString message f)
                  | Thrown err' => Thrown err'
                  end) = true).
  { intros err f. destruct (Js.message_of err); split; reflexivity. }
  destruct o as [v|err]; cbn [recorded] in Hrec;
    [|destruct (Js.message_of err) as [message|err']; [|discriminate Hrec]];
    injection Hrec as <-; cbn [app last_result last]; frame_simpl;
    (destruct (Tables.VALIDATORS _ _ _ _ _) as [validation|m1]; frame_simpl;
     [destruct (Js.truthy (Js.field "valid" validation));
      match goal with |- context [match ?t with Returned _ => _ | Thrown _ => _ end] =>
        destruct t as [text|m2] end
     |]);
    frame_simpl; eexists _, _; (split; [reflexivity|]);
    cbn [leave after_catch i_world i_invocations i_metrics world invocations metrics];
    (split; [reflexivity|]); (split; [reflexivity|]);
    lazymatch goal with
    | |- exists _, _ => eexists; repeat split
    | |- _ => split; [apply Hcaught|]; split; [apply Hcaught|]; split; reflexivity
    end.
Qed.

(** Only an input without candidates is handed to the model in full, and
    its intent is [unknown]. *)
Lemma fallback_is_unknown (input : string) (threshold : float) :
  no_pattern_match (Classifier.classify input threshold) = true ->
  Classification.intent (Classifier.classify input threshold) = "unknown".
Proof.
  unfold no_pattern_match, Classifier.classify.
  destruct (Classifier.scoreTaskTypes input) as [|top others]; [reflexivity|].
  cbv zeta. destruct (PrimFloat.leb threshold _); cbn.
  - destruct others as [|second rest]; cbn; [discriminate|].
    destruct (PrimFloat.ltb _ _); cbn; discriminate.
  - discriminate.
Qed.

Lemma known_intent_route (input : string) :
  Classification.intent (classification_of input) <> "unknown" ->
  no_pattern_match (classification_of input) = false.
Proof using Type.
  intros Hne. destruct (no_pattern_match (classification_of input)) eqn:E; [|reflexivity].
  apply fallback_is_unknown in E. contradiction.
Qed.

Lemma plannable_route (input : string) :
  Plan.requiresModelForPlanning (plan_of input) = false ->
  no_pattern_match (classification_of input) = false.
Proof using Type.
  intros Hreq. apply known_intent_route. intros Hu.
  unfold Classifier.planFromIntent in Hreq. rewrite Hu in Hreq. discriminate Hreq.
Qed.



(** The two ways in which a tool call fails: the injected executor throws,
    or it returns the error record of [executeTool] in tools.js. *)
Definition failure (message : string) (o : outcome jsval) : Prop :=
  o = Thrown message
  \/ o = Returned (JObj [("success", JBool false); ("error", JStr message)]).

(** The record of a call that fails in one of the two ways. *)
Lemma failure_recorded (s : Step.t) (message : string) (o : outcome jsval) :
  failure message o ->
  exists record : StepResult.t,
    recorded s o = Some record
    /\ (record = StepResult.failed (Step.tool s) (Step.args s) (JStr message)
        \/ record = StepResult.ok (Step.tool s) (Step.args s)
                      (JObj [("success", JBool false); ("error", JStr message)])).
Proof. intros [-> | ->]; eexists; (split; [reflexivity|]); auto. Qed.

Lemma shell_plan (c : Classification.t) (input : string) :
  Classification.intent c = "shell_command" ->
  Plan.requiresModelForPlanning (Classifier.planFromIntent c input) = false ->
  exists cmd,
    Plan.steps (Classifier.planFromIntent c input)
    = [Classifier.step "run_command" [("command", JStr cmd)]]
    /\ JsString.truthy cmd = true.
Proof.
  intros Hi. unfold Classifier.planFromIntent, Classifier.plan_of. rewrite Hi.
  cbn [String.eqb Ascii.eqb Bool.eqb andb].
  destruct (Entities.gitOps _) as [|op ops].
  - destruct (Classifier.nonempty _); [|discriminate].
    destruct (Regex.test Classifier.NPM input); intros _; eexists; split; reflexivity.
  - intros _. eexists; split; reflexivity.
Qed.

(** X11. A shell command that fails is reported as a success. When the
    executor throws on [run_command], or returns the record
    [{success: false, error}] that [executeTool] of tools.js makes of an
    exception, the response of a deterministic [shell_command] plan is
    that the command completed successfully, the result is marked
    deterministic and has no error, and the error counter does not move. *)
Theorem shell_failure_reported_as_success
    (input message : string) (i : instance) (o : outcome jsval) (w1 : W) :
  Classification.intent (classification_of input) = "shell_command" ->
  Plan.requiresModelForPlanning (plan_of input) = false ->
  (forall args, executeTool this (JStr "run_command") args (i_world i) = (o, w1)) ->
  failure message o ->
  exists (cmd : string) (r : Result.t) (i' : instance),
    Plan.steps (plan_of input) = [Classifier.step "run_command" [("command", JStr cmd)]]
    /\ process input i = (Returned r, i')
    /\ Result.response r = JStr ("`" ++ cmd ++ "` completed successfully.")%string
    /\ Result.deterministic r = true
    /\ Result.error r = None
    /\ Metrics.errors (i_metrics i') = Metrics.errors (i_metrics i).
Proof using Type.
  intros Hi Hreq Hcall Hfail. pose proof (plannable_route input Hreq) as Hroute.
  destruct (shell_plan _ input Hi Hreq) as (cmd & Hsteps & Hcmd).
  destruct (failure_recorded (Classifier.step "run_command" [("command", JStr cmd)])
              message o Hfail) as (record & Hrec & Hrecord).
  destruct (process_one_step input i _ o w1 record Hroute Hreq Hsteps (Hcall _) Hrec)
    as (o' & i' & Hrun & _ & _ & Hout).
  rewrite Hi in Hout.
  assert (Hresp : respond "shell_command" (Some record) (plan_fields (plan_of input))
                  = Returned ("`" ++ cmd ++ "` completed successfully.")%string).
  { unfold plan_fields. rewrite Hsteps.
    destruct cmd as [|ch cmd']; [discriminate Hcmd|].
    destruct Hrecord as [-> | ->]; reflexivity. }
  rewrite Hresp in Hout. destruct Hout as (r & -> & H1 & H2 & H3 & _ & _ & _ & H4).
  exists cmd, r, i'. repeat split; assumption.
Qed.

Lemma file_read_plan (c : Classification.t) (input : string) :
  Classification.intent c = "file_read" ->
  Plan.requiresModelForPlanning (Classifier.planFromIntent c input) = false ->
  exists path,
    Plan.steps (Classifier.planFromIntent c input)
    = [Classifier.step "read_file" [("path", JStr path)]]
    /\ JsString.truthy path = true.
Proof.
  intros Hi. unfold Classifier.planFromIntent, Classifier.plan_of. rewrite Hi.
  cbn [String.eqb Ascii.eqb Bool.eqb andb]. unfold Classifier.first_truthy.
  destruct (Entities.filePaths _) as [|x l]; [discriminate|].
  destruct (JsString.truthy x) eqn:Hx; [|discriminate].
  intros _. exists x. split; [reflexivity | exact Hx].
Qed.

(** X12. A file that cannot be read: when the executor fails on
    [read_file], by an exception or by the error record, with a non-empty
    message, the response of a deterministic [file_read] plan is the
    failure text with the path and the message, while the result is still
    marked deterministic, has no error and moves no error counter; with
    an empty message the response shows [[object Object]] as the
    contents of the file. *)
Theorem file_read_failure_is_reported
    (input message : string) (i : instance) (o : outcome jsval) (w1 : W) :
  Classification.intent (classification_of input) = "file_read" ->
  Plan.requiresModelForPlanning (plan_of input) = false ->
  (forall args, executeTool this (JStr "read_file") args (i_world i) = (o, w1)) ->
  failure message o ->
  exists (path : string) (r : Result.t) (i' : instance),
    Plan.steps (plan_of input) = [Classifier.step "read_file" [("path", JStr path)]]
    /\ process input i = (Returned r, i')
    /\ Result.response r =
         JStr (if JsString.truthy message
               then "Failed to read `" ++ path ++ "`: " ++ message
               else "Contents of `" ++ path ++ "`:" ++ nl ++ nl ++ "[object Object]")%string
    /\ Result.deterministic r = true
    /\ Result.error r = None
    /\ Metrics.errors (i_metrics i') = Metrics.errors (i_metrics i).
Proof using Type.
  intros Hi Hreq Hcall Hfail. pose proof (plannable_route input Hreq) as Hroute.
  destruct (file_read_plan _ input Hi Hreq) as (path & Hsteps & Hpath).
  destruct (failure_recorded (Classifier.step "read_file" [("path", JStr path)])
              message o Hfail) as (record & Hrec & Hrecord).
  destruct (process_one_step input i _ o w1 record Hroute Hreq Hsteps (Hcall _) Hrec)
    as (o' & i' & Hrun & _ & _ & Hout).
  rewrite Hi in Hout.
  assert (Hresp : respond "file_read" (Some record) (plan_fields (plan_of input))
                  = Returned (if JsString.truthy message
                              then "Failed to read `" ++ path ++ "`: " ++ message
                              else "Contents of `" ++ path ++ "`:" ++ nl ++ nl
                                   ++ "[object Object]")%string).
  { unfold plan_fields. rewrite Hsteps.
    destruct path as [|ch path']; [discriminate Hpath|].
    destruct message as [|m message']; destruct Hrecord as [-> | ->]; reflexivity. }
  rewrite Hresp in Hout. destruct Hout as (r & -> & H1 & H2 & H3 & _ & _ & _ & H4).
  exists path, r, i'. repeat split; assumption.
Qed.

Lemma http_plan (c : Classification.t) (input : string) :
  Classification.intent c = "http_request" ->
  Plan.requiresModelForPlanning (Classifier.planFromIntent c input) = false ->
  exists url method,
    Plan.steps (Classifier.planFromIntent c input)
    = [Classifier.step "http_request"
         [("url", JStr url); ("method", JStr method); ("body", JNull); ("headers", JObj [])]].
Proof.
  intros Hi. unfold Classifier.planFromIntent, Classifier.plan_of. rewrite Hi.
  cbn [String.eqb Ascii.eqb Bool.eqb andb].
  destruct (Classifier.first_truthy _); [|discriminate].
  intros _. eexists _, _. reflexivity.
Qed.

(** X13. A request that fails is answered as status 200: when the
    executor fails on [http_request], by an exception or by the error
    record, the response of a deterministic [http_request] plan is the
    success text with status 200 and, for the body, the text [undefined]
    ([JSON.stringify] of a missing body is [undefined]); the result is
    marked deterministic and has no error. *)
Theorem http_failure_reported_as_200
    (input message : string) (i : instance) (o : outcome jsval) (w1 : W) :
  JSON_stringify_pretty JUndefined = Returned JUndefined ->
  Classification.intent (classification_of input) = "http_request" ->
  Plan.requiresModelForPlanning (plan_of input) = false ->
  (forall args, executeTool this (JStr "http_request") args (i_world i) = (o, w1)) ->
  failure message o ->
  exists (r : Result.t) (i' : instance),
    process input i = (Returned r, i')
    /\ Result.response r =
         JStr ("HTTP " ++ Number_toString 200 ++ " OK:" ++ nl ++ nl ++ "undefined")%string
    /\ Result.deterministic r = true
    /\ Result.error r = None.
Proof using Type.
  intros Hjson Hi Hreq Hcall Hfail. pose proof (plannable_route input Hreq) as Hroute.
  destruct (http_plan _ input Hi Hreq) as (url & method & Hsteps).
  destruct (failure_recorded
              (Classifier.step "http_request"
                 [("url", JStr url); ("method", JStr method); ("body", JNull);
                  ("headers", JObj [])])
              message o Hfail) as (record & Hrec & Hrecord).
  destruct (process_one_step input i _ o w1 record Hroute Hreq Hsteps (Hcall _) Hrec)
    as (o' & i' & Hrun & _ & _ & Hout).
  rewrite Hi in Hout.
  assert (Hresp : respond "http_request" (Some record) (plan_fields (plan_of input))
                  = Returned ("HTTP " ++ Number_toString 200 ++ " OK:" ++ nl ++ nl
                              ++ "undefined")%string).
  { unfold respond, validated, Tables.VALIDATORS, Tables.validate_http_request.
    destruct Hrecord as [-> | ->]; cbn; rewrite Hjson; reflexivity. }
  rewrite Hresp in Hout. destruct Hout as (r & -> & H1 & H2 & H3 & _).
  exists r, i'. repeat split; assumption.
Qed.

End WithRuntime.
End TablesFacts.

(** ** orchestrator.js: the counters over successive calls *)

Module MetricsFacts.
Import Orchestrator OrchestratorFacts.
Local Open Scope string_scope.
Local Open Scope list_scope.

Section Calls.
Context {W : Type}.
Variable Number_toString : float -> string.
Variable VALIDATORS : string -> jsval -> outcome (list (string * jsval)).
Variable RESPONSE_TEMPLATES : string -> templates.
Variable JSON_parse : string -> outcome jsval.
Variable JSON_stringify : jsval -> string.
Variable this : @config W.

Local Abbreviation process :=
  (process Number_toString VALIDATORS RESPONSE_TEMPLATES JSON_parse JSON_stringify this).
Local Abbreviation process_try :=
  (process_try Number_toString VALIDATORS RESPONSE_TEMPLATES JSON_parse JSON_stringify this).
Local Abbreviation intent_of input :=
  (Classification.intent (Classifier.classify input (confidenceThreshold this))).

Local Arguments Classifier.classify : simpl never.
Local Arguments Classifier.planFromIntent : simpl never.

(** Successive calls of [process] on one orchestrator, as the read-eval
    loop of v3.js makes them, which catches what a call throws: the
    results of the calls that return, and the instance after the last
    call. *)
Fixpoint process_all (inputs : list string) (i : instance) : list Result.t * instance :=
  match inputs with
  | [] => ([], i)
  | input :: inputs' =>
      match process input i with
      | (Returned r, i') =>
          let (rs, i'') := process_all inputs' i' in (r :: rs, i'')
      | (Thrown _, i') => process_all inputs' i'
      end
  end.

(** How many of the inputs are classified as intent [k]. *)
Definition classified_as (k : string) (inputs : list string) : Z :=
  Z.of_nat (length (List.filter (fun input => String.eqb (intent_of input) k) inputs)).

(** What holds of the counters after [n] calls with the intents counted
    by [h]. *)
Definition counted (m : Metrics.t) (n : Z) (h : string -> Z) : Prop :=
  (Metrics.totalTasks m = n
   /\ (forall k, Metrics.count k m = h k)
   /\ 0 <= Metrics.deterministicTasks m
   /\ 0 <= Metrics.modelFallbacks m
   /\ 0 <= Metrics.modelCallsForPlanning m
   /\ 0 <= Metrics.modelCallsForResponse m
   /\ 0 <= Metrics.errors m
   /\ Metrics.deterministicTasks m + Metrics.modelFallbacks m
      + Metrics.modelCallsForPlanning m <= n
   /\ Metrics.deterministicTasks m + Metrics.errors m <= n
   /\ Metrics.modelCallsForResponse m <= Metrics.modelFallbacks m)%Z.

Lemma incr_exact (n : Z) : (n < 2 ^ 53)%Z -> Metrics.incr n = (n + 1)%Z.
Proof. unfold Metrics.incr. intros H. destruct (Z.ltb_spec n (2 ^ 53)); lia. Qed.

Lemma process_counts (input : string) (i : instance) (n : Z) (h : string -> Z) :
  counted (i_metrics i) n h ->
  (forall k, 0 <= h k <= n)%Z ->
  (n < 2 ^ 53)%Z ->
  exists o i',
    process input i = (o, i')
    /\ counted (i_metrics i') (n + 1)
         (fun k => h k + (if String.eqb (intent_of input) k then 1 else 0))%Z.
Proof using Type.
  intros (Ht & Hc & Hd0 & Hf0 & Hp0 & Hr0 & He0 & Hsum & Hde & Hrf) Hh Hn.
  rewrite process_unfold.
  destruct (process_try input (start i)) as [[r|message] f'] eqn:Htry;
    pose proof (process_try_spec Number_toString VALIDATORS RESPONSE_TEMPLATES JSON_parse
                  JSON_stringify this _ _ _ _ Htry) as Hpost;
    unfold try_post in Hpost; cbv zeta in Hpost;
    destruct Hpost as (Ht' & Hby & Herr & Hfb & Hpl & Hre & Hout);
    unfold start in *;
    cbn [metrics incr_totalTasks Metrics.totalTasks Metrics.deterministicTasks
         Metrics.modelFallbacks Metrics.modelCallsForPlanning
         Metrics.modelCallsForResponse Metrics.errors Metrics.byIntent] in *;
    eexists _, _; (split; [reflexivity|]);
    unfold counted;
    cbn [leave i_metrics after_catch fst snd metrics incr_errors Metrics.totalTasks
         Metrics.deterministicTasks Metrics.modelFallbacks Metrics.modelCallsForPlanning
         Metrics.modelCallsForResponse Metrics.errors Metrics.byIntent];
    unfold Metrics.count in *;
    cbn [Metrics.byIntent] in *;
    rewrite ?Ht', ?Hby, ?Herr, ?Hfb, ?Hpl; cbn [track_intent Metrics.byIntent];
    rewrite (incr_exact (Metrics.totalTasks (i_metrics i))) by lia.
  - destruct Hout as (Hd & Hdr & _).
    assert (Hcount : forall k,
      default 0%Z (<[intent_of input := Metrics.incr
                       (default 0%Z (Metrics.byIntent (i_metrics i) !! intent_of input))]>
                     (Metrics.byIntent (i_metrics i)) !! k)
      = (h k + (if String.eqb (intent_of input) k then 1 else 0))%Z).
    { intros k. destruct (String.eqb_spec (intent_of input) k) as [<-|Hne].
      - rewrite lookup_insert_eq. cbn. rewrite incr_exact; rewrite Hc; [reflexivity|].
        specialize (Hh (intent_of input)). lia.
      - rewrite lookup_insert_ne by exact Hne. rewrite Hc. lia. }
    rewrite Hd, Hdr.
    destruct (no_pattern_match _) eqn:Hroute; cbn [negb andb] in *;
      [|destruct (Plan.requiresModelForPlanning _) eqn:Hreq; cbn [negb andb] in *;
        [destruct (is_some (model this))|]];
      (destruct Hre as [Hre | (Hx & Hre)]; [|try discriminate Hx]);
      rewrite ?Hre;
      repeat match goal with |- context [Metrics.incr ?x] =>
               rewrite (incr_exact x) by lia end;
      repeat split; try lia; try exact Hcount.
  - destruct Hout as (Hd & _).
    assert (Hcount : forall k,
      default 0%Z (<[intent_of input := Metrics.incr
                       (default 0%Z (Metrics.byIntent (i_metrics i) !! intent_of input))]>
                     (Metrics.byIntent (i_metrics i)) !! k)
      = (h k + (if String.eqb (intent_of input) k then 1 else 0))%Z).
    { intros k. destruct (String.eqb_spec (intent_of input) k) as [<-|Hne].
      - rewrite lookup_insert_eq. cbn. rewrite incr_exact; rewrite Hc; [reflexivity|].
        specialize (Hh (intent_of input)). lia.
      - rewrite lookup_insert_ne by exact Hne. rewrite Hc. lia. }
    unfold incr_errors.
    cbn [Metrics.totalTasks Metrics.deterministicTasks Metrics.modelFallbacks
         Metrics.modelCallsForPlanning Metrics.modelCallsForResponse Metrics.errors
         Metrics.byIntent].
    rewrite ?Ht', ?Hby, ?Herr, ?Hfb, ?Hpl, ?Hd; cbn [track_intent Metrics.byIntent].
    destruct (no_pattern_match _) eqn:Hroute; cbn [negb andb] in *;
      [|destruct (Plan.requiresModelForPlanning _) eqn:Hreq; cbn [negb andb] in *;
        [destruct (is_some (model this))|]];
      (destruct Hre as [Hre | (Hx & Hre)]; [|try discriminate Hx]);
      rewrite ?Hre;
      repeat match goal with |- context [Metrics.incr ?x] =>
               rewrite (incr_exact x) by lia end;
      repeat split; try lia; try exact Hcount.
Qed.

Lemma counted_ext (m : Metrics.t) (n : Z) (h h' : string -> Z) :
  (forall k, h k = h' k) -> counted m n h -> counted m n h'.
Proof using Type.
  intros Hext (Ht & Hc & Hrest). split; [exact Ht|]. split; [|exact Hrest].
  intros k. rewrite <- Hext. apply Hc.
Qed.

Lemma classified_as_cons (k input : string) (inputs : list string) :
  classified_as k (input :: inputs)
  = ((if String.eqb (intent_of input) k then 1 else 0) + classified_as k inputs)%Z.
Proof using Type.
  unfold classified_as. cbn [List.filter].
  destruct (String.eqb (intent_of input) k); cbn [length]; lia.
Qed.

Lemma classified_as_bounds (k : string) (inputs : list string) :
  (0 <= classified_as k inputs <= Z.of_nat (length inputs))%Z.
Proof using Type.
  unfold classified_as.
  pose proof (filter_length_le (fun input => String.eqb (intent_of input) k) inputs). lia.
Qed.

Lemma process_all_counts (inputs : list string) :
  forall (i : instance) (n : Z) (h : string -> Z),
  counted (i_metrics i) n h ->
  (forall k, 0 <= h k <= n)%Z ->
  (n + Z.of_nat (length inputs) <= 2 ^ 53)%Z ->
  (length (fst (process_all inputs i)) <= length inputs)%nat
  /\ counted (i_metrics (snd (process_all inputs i))) (n + Z.of_nat (length inputs))
       (fun k => h k + classified_as k inputs)%Z.
Proof using Type.
  induction inputs as [|input inputs IH]; intros i n h Hc Hh Hn.
  - cbn [process_all fst snd length]. split; [lia|].
    rewrite Z.add_0_r. apply (counted_ext _ _ h); [|exact Hc].
    intros k. unfold classified_as. cbn. lia.
  - cbn [length] in Hn. cbn [process_all].
    destruct (process_counts input i n h Hc Hh ltac:(lia)) as (o & i' & -> & Hc').
    specialize (IH i' (n + 1)%Z _ Hc').
    destruct IH as (Hlen & Hcounted).
    + intros k. specialize (Hh k). destruct (String.eqb (intent_of input) k); lia.
    + lia.
    + destruct (process_all inputs i') as [rs i'']. destruct o as [r|err];
        cbn [fst snd length] in *.
      all: split; [lia|].
      all: replace (n + Z.of_nat (S (length inputs)))%Z
        with (n + 1 + Z.of_nat (length inputs))%Z by lia.
      all: eapply counted_ext; [|exact Hcounted].
      all: intros k; cbv beta; rewrite classified_as_cons; lia.
Qed.

(** X16. After any sequence of calls of [process] on a fresh orchestrator
    (at most 2^53 of them), whether the calls returned or threw:
    [totalTasks] is the number of calls, the count of each intent is the
    number of inputs classified as it, and the outcome counters stay
    within the calls: deterministic tasks, fallbacks and planning calls
    together, deterministic tasks and errors together; the response calls
    of the model never exceed the fallbacks, and no more results were
    returned than calls made. *)
Theorem metrics_after_calls (inputs : list string) (i : instance) :
  i_metrics i = Metrics.zero ->
  (Z.of_nat (length inputs) <= 2 ^ 53)%Z ->
  let results := fst (process_all inputs i) in
  let m := i_metrics (snd (process_all inputs i)) in
  (Metrics.totalTasks m = Z.of_nat (length inputs)
   /\ (forall k, Metrics.count k m = classified_as k inputs)
   /\ Metrics.deterministicTasks m + Metrics.modelFallbacks m
      + Metrics.modelCallsForPlanning m <= Metrics.totalTasks m
   /\ Metrics.deterministicTasks m + Metrics.errors m <= Metrics.totalTasks m
   /\ Metrics.modelCallsForResponse m <= Metrics.modelFallbacks m
   /\ Z.of_nat (length results) <= Metrics.totalTasks m)%Z.
Proof using Type.
  intros Hzero Hlen. cbv zeta.
  assert (Hstart : counted (i_metrics i) 0 (fun _ => 0%Z)).
  { rewrite Hzero. unfold counted, Metrics.count. cbn.
    repeat split; try lia. }
  assert (Hh : forall k : string, (0 <= (fun _ : string => 0) k <= 0)%Z) by (intros k; lia).
  assert (Hn : (0 + Z.of_nat (length inputs) <= 2 ^ 53)%Z) by lia.
  destruct (process_all_counts inputs i 0%Z (fun _ => 0%Z) Hstart Hh Hn) as (Hres & Hc).
  destruct Hc as (Ht & Hk & _ & _ & _ & _ & _ & Hsum & Hde & Hrf).
  rewrite Ht. repeat split; try assumption; try lia.
Qed.

End Calls.
End MetricsFacts.

(** ** tools.js: the safety check and the dispatcher *)

Module ToolsFacts.
Import JsString Tools.
Local Open Scope string_scope.
Local Open Scope list_scope.

(** *** Substrings *)

Lemma starts_with_app (p s t : string) :
  starts_with p s = true -> starts_with p (s ++ t) = true.
Proof.
  revert s. induction p as [|a p IH]; intros s H; [reflexivity|].
  destruct s as [|b s]; [discriminate H|].
  change (String b s ++ t)%string with (String b (s ++ t)%string).
  cbn [starts_with] in *.
  apply andb_prop in H. destruct H as (Hab & Hp).
  apply andb_true_intro. split; [exact Hab | apply IH, Hp].
Qed.

Lemma includes_unfold (s p : string) :
  includes s p = (starts_with p s ||
                  match s with EmptyString => false | String _ t => includes t p end).
Proof. destruct s; reflexivity. Qed.

Lemma includes_app_r (s p t : string) :
  includes s p = true -> includes (s ++ t) p = true.
Proof.
  induction s as [|c s IH]; intros H; rewrite includes_unfold in H.
  - rewrite orb_false_r in H. rewrite includes_unfold.
    rewrite (starts_with_app p "" t H). reflexivity.
  - change (String c s ++ t)%string with (String c (s ++ t)%string).
    rewrite includes_unfold.
    apply orb_prop in H. destruct H as [H|H].
    + pose proof (starts_with_app p _ t H) as H'.
      change (String c s ++ t)%string with (String c (s ++ t)%string) in H'.
      rewrite H'. reflexivity.
    + rewrite (IH H). apply orb_true_r.
Qed.

Lemma includes_app_l (pre s p : string) :
  includes s p = true -> includes (pre ++ s) p = true.
Proof.
  intros H. induction pre as [|c pre IH]; [exact H|].
  change (String c pre ++ s)%string with (String c (pre ++ s)%string).
  rewrite includes_unfold. rewrite IH. apply orb_true_r.
Qed.

Lemma toLowerCase_app (s t : string) :
  toLowerCase (s ++ t) = (toLowerCase s ++ toLowerCase t)%string.
Proof.
  unfold toLowerCase. induction s as [|c s IH]; [reflexivity|].
  change (String c s ++ t)%string with (String c (s ++ t)%string).
  cbn [map_chars]. rewrite IH. reflexivity.
Qed.

(** *** The safety check *)

(** Whether [checkSafety] throws on a command line. *)
Definition refused (command : string) (config : config) : bool :=
  match checkSafety (JStr command) config with
  | Thrown _ => true
  | Returned _ => false
  end.

Lemma check_destructive_spec (command : string) (l : list string) :
  match check_destructive (JStr command) l with
  | Thrown _ => existsb (includes (toLowerCase command)) l = true
  | Returned _ => existsb (includes (toLowerCase command)) l = false
  end.
Proof.
  induction l as [|d l IH]; cbn; [reflexivity|].
  destruct (includes (toLowerCase command) d); cbn; [reflexivity | exact IH].
Qed.

Lemma check_blocked_spec (command : string) (l : list string) :
  match check_blocked (JStr command) l with
  | Thrown _ => existsb (includes command) l = true
  | Returned _ => existsb (includes command) l = false
  end.
Proof.
  induction l as [|d l IH]; cbn; [reflexivity|].
  destruct (includes command d); cbn; [reflexivity | exact IH].
Qed.

Definition blocked_list (config : config) : list string :=
  match blockedCommands config with Some l => l | None => [] end.

Lemma refused_spec (command : string) (config : config) :
  refused command config
  = (sandboxMode config && existsb (includes (toLowerCase command)) DESTRUCTIVE)
    || existsb (includes command) (blocked_list config).
Proof.
  unfold refused, checkSafety, blocked_list.
  destruct (sandboxMode config); cbn [andb orb].
  - pose proof (check_destructive_spec command DESTRUCTIVE) as Hd.
    destruct (check_destructive (JStr command) DESTRUCTIVE); rewrite Hd; cbn [orb];
      [|reflexivity].
    pose proof (check_blocked_spec command
                  match blockedCommands config with Some l => l | None => [] end) as Hb.
    destruct (check_blocked _ _); rewrite Hb; reflexivity.
  - pose proof (check_blocked_spec command
                  match blockedCommands config with Some l => l | None => [] end) as Hb.
    destruct (check_blocked _ _); rewrite Hb; reflexivity.
Qed.

Lemma existsb_includes_app (pre s post : string) (l : list string) :
  existsb (includes s) l = true -> existsb (includes (pre ++ s ++ post)) l = true.
Proof.
  intros H. apply existsb_exists in H. destruct H as (p & Hp & Hin).
  apply existsb_exists. exists p. split; [exact Hp|].
  apply includes_app_l, includes_app_r, Hin.
Qed.

(** X17. The safety check cannot be talked round by context: a command
    line that [checkSafety] refuses is still refused with any text put
    before and after it. *)
Theorem refused_command_stays_refused (pre command post : string) (config : config) :
  refused command config = true ->
  refused (pre ++ command ++ post) config = true.
Proof.
  rewrite !refused_spec. intros H. apply orb_prop in H. destruct H as [H|H].
  - apply andb_prop in H. destruct H as (-> & H). cbn [andb].
    rewrite !toLowerCase_app. rewrite (existsb_includes_app _ _ _ _ H). reflexivity.
  - rewrite (existsb_includes_app _ _ _ _ H). apply orb_true_r.
Qed.

Section WithSystem.
Context {W : Type}.
Variable Number_toString : float -> string.
Variable path_resolve : string -> jsval -> outcome string.
Variable execSync : jsval -> option string -> jsval -> W -> (string + exec_error) * W.
Variable exchange : jsval -> W -> outcome http_event * W.
Variable create_file read_file edit_file list_directory delete_file move_file git
  : @executor W.
Variable inherited : string -> option (@executor W).

Local Abbreviation executors :=
  (executors Number_toString path_resolve execSync exchange
     create_file read_file edit_file list_directory delete_file move_file git inherited).
Local Abbreviation executeTool :=
  (executeTool Number_toString path_resolve execSync exchange
     create_file read_file edit_file list_directory delete_file move_file git inherited).
Local Abbreviation run_command := (run_command path_resolve execSync).

(** What [executeTool] throws is the [TypeError] of its own [catch]
    block, which has caught [null] or [undefined]. *)
Lemma executeTool_throws (name input : jsval) (config : config) (w w' : W) (err : exn) :
  executeTool name input config w = (Thrown err, w') ->
  exists text : string, err = Error text.
Proof using Type.
  unfold Tools.executeTool.
  destruct (executors _) as [executor|]; [|discriminate].
  destruct (executor input config w) as [[v|err0] w1]; [discriminate|].
  destruct (Js.message_of err0) as [message|err1] eqn:Hm; [discriminate|].
  intros [= <- <-]. destruct err0 as [m|[]]; cbn in Hm; try discriminate;
    injection Hm as <-; eexists; reflexivity.
Qed.

(** What [executeTool] returns where the executor has thrown a value
    with a [message], or where there is no executor. *)
Lemma executeTool_catches (name input : jsval) (config : config) (w w1 : W)
    (executor : @executor W) (err : exn) :
  executors (Js.ToString Number_toString name) = Some executor ->
  executor input config w = (Thrown err, w1) ->
  Js.unreadable err = false ->
  exists message : jsval,
    Js.message_of err = Returned message
    /\ executeTool name input config w = (Returned (failure message), w1).
Proof using Type.
  intros He Hx Hread. unfold Tools.executeTool. rewrite He, Hx.
  destruct err as [m|v]; [eexists; split; reflexivity|].
  destruct v; try discriminate Hread; eexists; split; reflexivity.
Qed.

(** The safety check throws [Error] objects. *)
Lemma check_destructive_throws (command : string) (l : list string) (err : exn) :
  check_destructive (JStr command) l = Thrown err -> exists message : string, err = Error message.
Proof using Type.
  induction l as [|d l IH]; cbn; [discriminate|].
  destruct (includes (toLowerCase command) d); [|exact IH].
  intros [= <-]. eexists; reflexivity.
Qed.

Lemma check_blocked_throws (command : string) (l : list string) (err : exn) :
  check_blocked (JStr command) l = Thrown err -> exists message : string, err = Error message.
Proof using Type.
  induction l as [|d l IH]; cbn; [discriminate|].
  destruct (includes command d); [|exact IH].
  intros [= <-]. eexists; reflexivity.
Qed.

Lemma checkSafety_throws (command : string) (config : config) (err : exn) :
  checkSafety (JStr command) config = Thrown err -> exists message : string, err = Error message.
Proof using Type.
  unfold checkSafety. destruct (sandboxMode config).
  - destruct (check_destructive (JStr command) DESTRUCTIVE) as [[]|err0] eqn:Hd.
    + apply check_blocked_throws.
    + intros [= <-]. eapply check_destructive_throws, Hd.
  - apply check_blocked_throws.
Qed.

(** A command line that the safety check refuses is not run. *)
Lemma run_command_refused (command : string) (fields : list (string * jsval))
    (config : config) (w : W) :
  Js.field "command" fields = JStr command ->
  refused command config = true ->
  exists message : string,
    checkSafety (JStr command) config = Thrown message
    /\ run_command (JObj fields) config w = (Thrown message, w).
Proof using Type.
  intros Hc Hr. unfold refused in Hr.
  destruct (checkSafety (JStr command) config) as [|err] eqn:Hs; [discriminate|].
  destruct (checkSafety_throws _ _ _ Hs) as (message & ->).
  exists message. split; [reflexivity|].
  unfold Tools.run_command. cbn [Js.prop Js.opt_prop]. rewrite Hc, Hs. reflexivity.
Qed.

End WithSystem.
End ToolsFacts.

(** ** v3.js: the orchestrator over the executors of tools.js *)

Module IntegrationFacts.
Import Orchestrator OrchestratorFacts TablesFacts ToolsFacts.
Local Open Scope string_scope.
Local Open Scope list_scope.

Section WithSystem.
Context {W : Type}.
Variable Number_toString : float -> string.
Variable String_toNumber : string -> float.
Variable JSON_stringify_pretty : jsval -> outcome jsval.
Variable inherited_validator : string -> jsval -> outcome (list (string * jsval)).
Variable JSON_parse : string -> outcome jsval.
Variable JSON_stringify : jsval -> string.
Variable path_resolve : string -> jsval -> outcome string.
Variable execSync : jsval -> option string -> jsval -> W
                    -> (string + Tools.exec_error) * W.
Variable exchange : jsval -> W -> outcome Tools.http_event * W.
Variable create_file read_file edit_file list_directory delete_file move_file git
  : @Tools.executor W.
Variable inherited : string -> option (@Tools.executor W).

Variable settings : Tools.config.
Variable modelProvider : option (@ModelProvider W).
Variable warn : string -> W -> outcome unit * W.

(** The orchestrator that v3.js builds over the executors of tools.js. *)
Definition this : @config W :=
  fst (V3.orchestrator Number_toString path_resolve execSync exchange
         create_file read_file edit_file list_directory delete_file move_file git
         inherited settings modelProvider warn).

Local Abbreviation VALIDATORS :=
  (Tables.VALIDATORS Number_toString String_toNumber inherited_validator).
Local Abbreviation RESPONSE_TEMPLATES :=
  (Tables.RESPONSE_TEMPLATES Number_toString JSON_stringify_pretty).
Local Abbreviation process :=
  (process Number_toString VALIDATORS RESPONSE_TEMPLATES JSON_parse JSON_stringify this).
Local Abbreviation classification_of input :=
  (Classifier.classify input (confidenceThreshold this)).
Local Abbreviation plan_of input :=
  (Classifier.planFromIntent (classification_of input) input).
Local Abbreviation respond :=
  (respond Number_toString String_toNumber JSON_stringify_pretty inherited_validator).
Local Abbreviation process_one_step :=
  (process_one_step Number_toString String_toNumber JSON_stringify_pretty
     inherited_validator JSON_parse JSON_stringify this).
Local Abbreviation executeTool :=
  (Tools.executeTool Number_toString path_resolve execSync exchange
     create_file read_file edit_file list_directory delete_file move_file git inherited).
Local Abbreviation run_command := (Tools.run_command path_resolve execSync).

Local Arguments Classifier.classify : simpl never.
Local Arguments Classifier.planFromIntent : simpl never.

Lemma executeTool_this (tool args : jsval) (w : W) :
  Orchestrator.executeTool this tool args w = executeTool tool args settings w.
Proof using Type. reflexivity. Qed.

Lemma executeTool_run_command (args : jsval) (w : W) :
  executeTool (JStr "run_command") args settings w
  = match run_command args settings w with
    | (Returned result, w') => (Returned result, w')
    | (Thrown err, w') =>
        match Js.message_of err with
        | Returned message => (Returned (Tools.failure message), w')
        | Thrown err' => (Thrown err', w')
        end
    end.
Proof using Type. reflexivity. Qed.

(** The executor that the orchestrator is given throws nothing but the
    [TypeError] of the [catch] block of [executeTool]: every call of a
    step is recorded. *)
Lemma step_is_recorded (s : Step.t) (w : W) :
  exists (o : outcome jsval) (w' : W) (record : StepResult.t),
    Orchestrator.executeTool this (Step.tool s) (Step.args s) w = (o, w')
    /\ recorded s o = Some record.
Proof using Type.
  destruct (Orchestrator.executeTool this (Step.tool s) (Step.args s) w) as [o w'] eqn:Hcall.
  exists o, w'. destruct o as [v|err]; [eexists; split; reflexivity|].
  rewrite executeTool_this in Hcall.
  destruct (executeTool_throws _ _ _ _ _ _ _ _ _ _ _ _ _ _ _ _ _ _ Hcall) as (text & ->).
  eexists; split; reflexivity.
Qed.

(** X19. Under the orchestrator that v3.js builds over tools.js, a
    planned command that the safety check refuses is not run (the world
    is unchanged), and yet the response says that it completed
    successfully, in a result marked deterministic; the refusal is only
    in the step record. *)
Theorem refused_command_reported_as_success
    (input command : string) (i : instance) :
  Classification.intent (classification_of input) = "shell_command" ->
  Plan.steps (plan_of input)
  = [Classifier.step "run_command" [("command", JStr command)]] ->
  Plan.requiresModelForPlanning (plan_of input) = false ->
  refused command settings = true ->
  exists (r : Result.t) (i' : instance) (message : string),
    process input i = (Returned r, i')
    /\ Tools.checkSafety (JStr command) settings = Thrown message
    /\ Result.results r
       = Some [StepResult.ok (JStr "run_command") (JObj [("command", JStr command)])
                 (Tools.failed message)]
    /\ Result.response r = JStr ("`" ++ command ++ "` completed successfully.")%string
    /\ Result.deterministic r = true
    /\ i_world i' = i_world i.
Proof using Type.
  intros Hi Hsteps Hreq Href.
  pose proof (plannable_route _ _ Hreq) as Hroute.
  destruct (run_command_refused path_resolve execSync command
              [("command", JStr command)] settings (i_world i) eq_refl Href)
    as (message & Hsafe & Hrun).
  assert (Hcall : Orchestrator.executeTool this
                    (Step.tool (Classifier.step "run_command" [("command", JStr command)]))
                    (Step.args (Classifier.step "run_command" [("command", JStr command)]))
                    (i_world i)
                  = (Returned (Tools.failed message), i_world i)).
  { cbn [Step.tool Step.args Classifier.step]. rewrite executeTool_this.
    rewrite executeTool_run_command. rewrite Hrun. reflexivity. }
  destruct (process_one_step input i _ _ _ _ Hroute Hreq Hsteps Hcall eq_refl)
    as (o' & i' & Hproc & Hw & _ & Hout).
  rewrite Hi in Hout.
  assert (Hcmd : JsString.truthy command = true).
  { destruct (shell_plan _ input Hi Hreq) as (cmd & Hsteps' & Hcmd).
    rewrite Hsteps in Hsteps'. injection Hsteps' as <-. exact Hcmd. }
  match type of Hout with match ?t with _ => _ end =>
    assert (Hresp : t = Returned ("`" ++ command ++ "` completed successfully.")%string)
  end.
  { unfold plan_fields. rewrite Hsteps.
    destruct command as [|ch command']; [discriminate Hcmd|]. reflexivity. }
  rewrite Hresp in Hout. destruct Hout as (r & -> & H1 & H2 & _ & H4 & _).
  exists r, i', message. repeat split; assumption.
Qed.

Lemma checkSafety_accepts (command : string) :
  refused command settings = false ->
  Tools.checkSafety (JStr command) settings = Returned tt.
Proof using Type.
  unfold refused. destruct (Tools.checkSafety (JStr command) settings) as [[]|m];
    [reflexivity | discriminate].
Qed.

(** What the orchestrator answers to a command that has run. *)
Definition shell_answer (command : string) (ran : string + Tools.exec_error) : string :=
  let succeeded (output : string) : string :=
    ("`" ++ command ++ "` completed successfully"
     ++ (if JsString.truthy output then ":" ++ nl ++ nl ++ output else "."))%string in
  match ran with
  | inl stdout => succeeded (Tools.head 50000 stdout)
  | inr err =>
      if Tables.not_zero
           (JNum (match Tools.e_status err with Some n => n | None => 1%float end))
      then
        let stderr := Tools.head_or_empty 20000 (Tools.e_stderr err) in
        ("`" ++ command ++ "` failed (exit undefined):" ++ nl
         ++ (if JsString.truthy stderr then stderr else "unknown error"))%string
      else succeeded (Tools.head_or_empty 20000 (Tools.e_stdout err))
  end.

(** X20. Under the orchestrator that v3.js builds over tools.js, a planned
    command that passes the safety check is run once, in the working
    directory with a timeout of 60000, and the response is [shell_answer]
    of what [execSync] did: the success text with the output, or for a
    status other than zero the failure text, whose exit code always reads
    [undefined]. *)
Theorem shell_command_end_to_end (input command : string) (i : instance) :
  Classification.intent (classification_of input) = "shell_command" ->
  Plan.steps (plan_of input)
  = [Classifier.step "run_command" [("command", JStr command)]] ->
  Plan.requiresModelForPlanning (plan_of input) = false ->
  refused command settings = false ->
  exists (r : Result.t) (i' : instance),
    process input i = (Returned r, i')
    /\ Result.response r
       = JStr (shell_answer command
                 (fst (execSync (JStr command) (Some (Tools.workingDirectory settings))
                         (JNum 60000) (i_world i))))
    /\ Result.deterministic r = true
    /\ i_world i'
       = snd (execSync (JStr command) (Some (Tools.workingDirectory settings))
                (JNum 60000) (i_world i)).
Proof using Type.
  intros Hi Hsteps Hreq Href.
  pose proof (plannable_route _ _ Hreq) as Hroute.
  pose proof (checkSafety_accepts command Href) as Hsafe.
  assert (Hcmd : JsString.truthy command = true).
  { destruct (shell_plan _ input Hi Hreq) as (cmd & Hsteps' & Hcmd).
    rewrite Hsteps in Hsteps'. injection Hsteps' as <-. exact Hcmd. }
  destruct (execSync (JStr command) (Some (Tools.workingDirectory settings))
              (JNum 60000) (i_world i)) as [ran w1] eqn:Hexec.
  destruct (step_is_recorded (Classifier.step "run_command" [("command", JStr command)])
              (i_world i)) as (o & w2 & record & Hcall & Hrec).
  destruct (process_one_step input i _ _ _ _ Hroute Hreq Hsteps Hcall Hrec)
    as (o' & i' & Hproc & Hw & _ & Hout).
  rewrite Hi in Hout.
  cbn [Step.tool Step.args Classifier.step] in Hcall. rewrite executeTool_this in Hcall.
  rewrite executeTool_run_command in Hcall.
  unfold Tools.run_command in Hcall. cbn [Js.prop Js.opt_prop Js.field List.find fst snd
    String.eqb Ascii.eqb Bool.eqb Js.truthy Js.or] in Hcall.
  cbn in Hcall. rewrite Hsafe in Hcall. cbn in Hcall. rewrite Hexec in Hcall.
  assert (Hresp : respond "shell_command" (Some record) (plan_fields (plan_of input))
                  = Returned (shell_answer command ran)).
  { unfold plan_fields. rewrite Hsteps.
    destruct command as [|ch command']; [discriminate Hcmd|].
    destruct ran as [stdout|err]; injection Hcall as <- <-;
      cbn [recorded] in Hrec; injection Hrec as <-.
    - unfold shell_answer. cbn.
      destruct (Tools.head 50000 stdout) as [|c0 out]; reflexivity.
    - unfold shell_answer, TablesFacts.respond, validated, Tables.VALIDATORS,
        Tables.validate_shell_command.
      cbn [recorded StepResult.ok result_field value_of StepResult.result Js.or Js.truthy
           String.eqb Ascii.eqb Bool.eqb negb Js.opt_prop Js.field List.find fst snd].
      match goal with |- context [Tables.not_zero ?x] =>
        destruct (Tables.not_zero x) end; cbn.
      + destruct (Tools.head_or_empty 20000 (Tools.e_stderr err)) as [|c0 e]; reflexivity.
      + destruct (Tools.head_or_empty 20000 (Tools.e_stdout err)) as [|c0 e]; reflexivity. }
  rewrite Hresp in Hout. destruct Hout as (r & -> & H1 & H2 & _).
  exists r, i'. cbn [fst snd]. repeat split; try assumption.
  rewrite Hw. destruct ran; injection Hcall as _ <-; reflexivity.
Qed.

Lemma search_plan (c : Classification.t) (input : string) :
  Classification.intent c = "search" ->
  Plan.requiresModelForPlanning (Classifier.planFromIntent c input) = false ->
  exists target pattern,
    Plan.steps (Classifier.planFromIntent c input)
    = [Classifier.step "search_files" [("path", JStr target); ("pattern", JStr pattern)]].
Proof.
  intros Hi. unfold Classifier.planFromIntent, Classifier.plan_of. rewrite Hi.
  cbn [String.eqb Ascii.eqb Bool.eqb andb].
  destruct (Regex.exec Classifier.SEARCH_TERM input); [|discriminate].
  intros _. eexists _, _. reflexivity.
Qed.

(** What [search_files] returns, whatever the search finds. *)
Lemma search_files_shape (target pattern : string) (w : W) :
  exists (o : outcome jsval) (w' : W),
    Tools.search_files Number_toString path_resolve execSync
      (JObj [("path", JStr target); ("pattern", JStr pattern)]) settings w = (o, w')
    /\ match o with
       | Returned v => exists matches,
           v = JObj [("success", JBool true); ("matches", JStr matches)]
       | Thrown _ => True
       end.
Proof using Type.
  unfold Tools.search_files.
  cbn [Js.prop Js.opt_prop Js.field List.find fst snd String.eqb Ascii.eqb Bool.eqb
       Tools.escaped_pattern Js.truthy].
  cbn. destruct (Tools.resolvePath path_resolve (JStr target) settings) as [fullPath|m].
  - destruct (execSync _ None (JNum 15000) w) as [[stdout|err] w'];
      eexists _, _; (split; [reflexivity|]); eexists; reflexivity.
  - eexists _, _. split; [reflexivity|]. exact I.
Qed.

(** X21. Under the orchestrator that v3.js builds over tools.js, every
    search that the planner completes is answered with zero results,
    whatever the search printed: [search_files] returns its matches as a
    text, which the response template does not count. *)
Theorem search_answer_is_constant (input : string) (i : instance) :
  Classification.intent (classification_of input) = "search" ->
  Plan.requiresModelForPlanning (plan_of input) = false ->
  exists (r : Result.t) (i' : instance),
    process input i = (Returned r, i')
    /\ Result.response r
       = JStr ("Search complete: " ++ Number_toString 0 ++ " results found.")%string
    /\ Result.deterministic r = true.
Proof using Type.
  intros Hi Hreq.
  pose proof (plannable_route _ _ Hreq) as Hroute.
  destruct (search_plan _ input Hi Hreq) as (target & pattern & Hsteps).
  destruct (step_is_recorded (Classifier.step "search_files"
                                [("path", JStr target); ("pattern", JStr pattern)])
              (i_world i)) as (o & w2 & record & Hcall & Hrec).
  destruct (process_one_step input i _ _ _ _ Hroute Hreq Hsteps Hcall Hrec)
    as (o' & i' & Hproc & _ & _ & Hout).
  rewrite Hi in Hout.
  cbn [Step.tool Step.args Classifier.step] in Hcall. rewrite executeTool_this in Hcall.
  assert (Hresp : respond "search" (Some record) (plan_fields (plan_of input))
                  = Returned ("Search complete: " ++ Number_toString 0
                              ++ " results found.")%string).
  { unfold Tools.executeTool in Hcall.
    change (Tools.executors _ _ _ _ _ _ _ _ _ _ _ _ (Js.ToString _ (JStr "search_files")))
      with (Some (Tools.search_files Number_toString path_resolve execSync)) in Hcall.
    cbv beta iota in Hcall.
    destruct (search_files_shape target pattern (i_world i)) as (o1 & w' & Hs & Hshape).
    rewrite Hs in Hcall.
    destruct o1 as [v|err].
    - injection Hcall as <- <-. cbn [recorded] in Hrec. injection Hrec as <-.
      destruct Hshape as (matches & ->). reflexivity.
    - destruct (Js.message_of err) as [message|err'] eqn:Hm.
      + injection Hcall as <- <-. cbn [recorded] in Hrec. injection Hrec as <-. reflexivity.
      + destruct (message_of_thrown _ _ Hm) as (_ & text & ->).
        injection Hcall as <- <-. cbn [recorded Js.message_of] in Hrec.
        injection Hrec as <-. reflexivity. }
  rewrite Hresp in Hout. destruct Hout as (r & -> & H1 & H2 & _).
  exists r, i'. repeat split; assumption.
Qed.

(** X22. Under the orchestrator that v3.js builds over tools.js, every
    request that the planner completes is answered as status 200 with
    the text [undefined] for a body, whatever the exchange gave (a
    response of any status, an error, a timeout or an exception):
    [http_request] names its fields [statusCode] and [body], which
    validator and template do not read, and [JSON.stringify] of the
    missing [data] is [undefined]. *)
Theorem http_answer_is_constant (input : string) (i : instance) :
  JSON_stringify_pretty JUndefined = Returned JUndefined ->
  Classification.intent (classification_of input) = "http_request" ->
  Plan.requiresModelForPlanning (plan_of input) = false ->
  exists (r : Result.t) (i' : instance),
    process input i = (Returned r, i')
    /\ Result.response r
       = JStr ("HTTP " ++ Number_toString 200 ++ " OK:" ++ nl ++ nl ++ "undefined")%string
    /\ Result.deterministic r = true.
Proof using Type.
  intros Hjson Hi Hreq.
  pose proof (plannable_route _ _ Hreq) as Hroute.
  destruct (http_plan _ input Hi Hreq) as (url & method & Hsteps).
  destruct (step_is_recorded
              (Classifier.step "http_request"
                 [("url", JStr url); ("method", JStr method); ("body", JNull);
                  ("headers", JObj [])])
              (i_world i)) as (o & w2 & record & Hcall & Hrec).
  destruct (process_one_step input i _ _ _ _ Hroute Hreq Hsteps Hcall Hrec)
    as (o' & i' & Hproc & _ & _ & Hout).
  rewrite Hi in Hout.
  assert (Hresp : respond "http_request" (Some record) (plan_fields (plan_of input))
                  = Returned ("HTTP " ++ Number_toString 200 ++ " OK:" ++ nl ++ nl
                              ++ "undefined")%string).
  { cbn [Step.tool Step.args Classifier.step] in Hcall. rewrite executeTool_this in Hcall.
    unfold Tools.executeTool in Hcall.
    change (Tools.executors _ _ _ _ _ _ _ _ _ _ _ _ (Js.ToString _ (JStr "http_request")))
      with (Some (Tools.http_request exchange)) in Hcall.
    cbv beta iota in Hcall. unfold Tools.http_request in Hcall.
    destruct (exchange _ (i_world i)) as [[[statusCode headers body|message|]|err] w'];
      [| | |destruct (Js.message_of err) as [message|err'] eqn:Hm;
            [|destruct (message_of_thrown _ _ Hm) as (_ & text & ->)]];
      injection Hcall as <- <-; cbn [recorded Js.message_of] in Hrec;
      injection Hrec as <-;
      unfold TablesFacts.respond, validated, Tables.VALIDATORS, Tables.validate_http_request;
      cbn; rewrite Hjson; reflexivity. }
  rewrite Hresp in Hout. destruct Hout as (r & -> & H1 & H2 & _).
  exists r, i'. repeat split; assumption.
Qed.


End WithSystem.
End IntegrationFacts.

(** ** The matcher of regular expressions: soundness *)

Module MatchFacts.
Import JsString Regex.
Local Open Scope nat_scope.

(** *** What a successful match has gone through

    [matches ci r s s']: the pattern [r] can take the matcher from the
    state [s] to the state [s']. *)

Inductive iterated (R : mstate -> mstate -> Prop) (gs : list nat)
  : nat -> option nat -> mstate -> mstate -> Prop :=
| iterated_stop (hi : option nat) (s : mstate) : iterated R gs 0 hi s s
| iterated_full (lo : nat) (s : mstate) : iterated R gs lo (Some 0) s s
| iterated_more (lo : nat) (hi : option nat) (s s1 s2 : mstate) :
    hi <> Some 0 ->
    R (clear_caps gs s) s1 ->
    iterated R gs (Nat.pred lo) (option_map Nat.pred hi) s1 s2 ->
    iterated R gs lo hi s s2.

Fixpoint matches (ci : bool) (r : regex) : mstate -> mstate -> Prop :=
  match r with
  | Empty => fun s s' => s' = s
  | Chr c => fun s s' =>
      exists x t, rest s = String x t /\ char_eq ci x c = true /\ s' = advance x t s
  | Any => fun s s' =>
      exists x t, rest s = String x t /\ is_line_terminator x = false
                  /\ s' = advance x t s
  | Class negated items => fun s s' =>
      exists x t, rest s = String x t
                  /\ xorb negated (existsb (item_matches ci x) items) = true
                  /\ s' = advance x t s
  | WordBoundary => fun s s' =>
      xorb (is_word_opt (prev s)) (is_word_opt (next_char (rest s))) = true /\ s' = s
  | Bol => fun s s' => prev s = None /\ s' = s
  | Eol => fun s s' => rest s = EmptyString /\ s' = s
  | Seq a b => fun s s' => exists s1, matches ci a s s1 /\ matches ci b s1 s'
  | Alt a b => fun s s' => matches ci a s s' \/ matches ci b s s'
  | Rep lo hi _ a => iterated (matches ci a) (groups_of a) lo hi
  | Group n a => fun s s' =>
      exists s1, matches ci a s s1
                 /\ s' = set_cap n (take (pos s1 - pos s) (rest s)) s1
  end.

Lemma repeat_matcher_sound (body : cont -> cont) (R : mstate -> mstate -> Prop)
    (gs : list nat) :
  (forall k s e, body k s = Some e -> exists s', R s s' /\ k s' = Some e) ->
  forall fuel lo hi greedy k s e,
    lo <= fuel ->
    repeat_matcher body gs fuel lo hi greedy k s = Some e ->
    exists s', iterated R gs lo hi s s' /\ k s' = Some e.
Proof.
  intros Hbody. induction fuel as [|fuel IH]; intros lo hi greedy k s e Hlo H; cbn in H.
  - assert (lo = 0) by lia. subst. exists s. split; [constructor | exact H].
  - remember (body (fun s' => if (lo =? 0) && (pos s' =? pos s) then None
                      else repeat_matcher body gs fuel (Nat.pred lo)
                             (option_map Nat.pred hi) greedy k s') (clear_caps gs s))
      as more eqn:Hdef.
    assert (Hmore : forall e', hi <> Some 0 -> more = Some e' ->
              exists s', iterated R gs lo hi s s' /\ k s' = Some e').
    { intros e' Hhi Hb. rewrite Hdef in Hb. apply Hbody in Hb. destruct Hb as (s1 & HR & Hd).
      destruct ((lo =? 0) && (pos s1 =? pos s)); [discriminate|].
      apply IH in Hd; [|lia]. destruct Hd as (s' & Hit & Hk).
      exists s'. split; [|exact Hk]. eapply iterated_more; eauto. }
    clear Hdef.
    destruct hi as [[|hi]|].
    + exists s. split; [apply iterated_full | exact H].
    + cbn [option_map] in *. destruct (Nat.eqb_spec lo 0) as [->|Hne]; cbn [negb] in H.
      * destruct greedy; unfold or_else in H.
        -- destruct more as [m|].
           ++ injection H as <-. apply Hmore; [discriminate | reflexivity].
           ++ exists s. split; [constructor | exact H].
        -- destruct (k s) eqn:Hk.
           ++ injection H as <-. exists s. split; [constructor | exact Hk].
           ++ apply Hmore; [discriminate | exact H].
      * apply Hmore; [discriminate | exact H].
    + cbn [option_map] in *. destruct (Nat.eqb_spec lo 0) as [->|Hne]; cbn [negb] in H.
      * destruct greedy; unfold or_else in H.
        -- destruct more as [m|].
           ++ injection H as <-. apply Hmore; [discriminate | reflexivity].
           ++ exists s. split; [constructor | exact H].
        -- destruct (k s) eqn:Hk.
           ++ injection H as <-. exists s. split; [constructor | exact Hk].
           ++ apply Hmore; [discriminate | exact H].
      * apply Hmore; [discriminate | exact H].
Qed.

(** The matcher is sound: a result comes from the continuation at a state
    that the pattern leads to. *)
Lemma matcher_sound (ci : bool) (r : regex) :
  forall (k : cont) (s e : mstate),
    matcher ci r k s = Some e ->
    exists s', matches ci r s s' /\ k s' = Some e.
Proof.
  induction r as [| c | | negated items | | | | a IHa b IHb | a IHa b IHb
                  | lo hi greedy a IHa | n a IHa];
    intros k s e H; cbn [matcher] in H; cbn [matches].
  - exists s. auto.
  - destruct (rest s) as [|x t] eqn:Hrest; [discriminate|].
    destruct (char_eq ci x c) eqn:Hc; [|discriminate].
    exists (advance x t s). split; [|exact H]. exists x, t. auto.
  - destruct (rest s) as [|x t] eqn:Hrest; [discriminate|].
    destruct (is_line_terminator x) eqn:Hc; [discriminate|].
    exists (advance x t s). split; [|exact H]. exists x, t. auto.
  - destruct (rest s) as [|x t] eqn:Hrest; [discriminate|].
    destruct (xorb negated _) eqn:Hc; [|discriminate].
    exists (advance x t s). split; [|exact H]. exists x, t. auto.
  - destruct (xorb _ _) eqn:Hc; [|discriminate]. exists s. auto.
  - destruct (prev s) eqn:Hp; [discriminate|]. exists s. auto.
  - destruct (rest s) eqn:Hr; [|discriminate]. exists s. auto.
  - apply IHa in H. destruct H as (s1 & Ha & H). apply IHb in H.
    destruct H as (s2 & Hb & H). exists s2. split; [|exact H]. exists s1. auto.
  - unfold or_else in H. destruct (matcher ci a k s) eqn:Ha.
    + injection H as <-. apply IHa in Ha. destruct Ha as (s' & Ha & Hk).
      exists s'. auto.
    + apply IHb in H. destruct H as (s' & Hb & Hk). exists s'. auto.
  - apply (repeat_matcher_sound _ (matches ci a) _ IHa) in H; [exact H | lia].
  - apply IHa in H. destruct H as (s1 & Ha & H).
    eexists. split; [|exact H]. exists s1. auto.
Qed.

(** *** The text between two states *)

(** [s'] lies [w] further in the subject than [s]. *)
Definition spans (s : mstate) (w : string) (s' : mstate) : Prop :=
  rest s = (w ++ rest s')%string /\ pos s' = pos s + String.length w.

Lemma spans_refl (s : mstate) : spans s EmptyString s.
Proof. unfold spans. cbn. split; [reflexivity | lia]. Qed.

Lemma append_cons (x : ascii) (a b : string) :
  (String x a ++ b)%string = String x (a ++ b)%string.
Proof. reflexivity. Qed.

Lemma append_assoc (a b c : string) : ((a ++ b) ++ c = a ++ (b ++ c))%string.
Proof.
  induction a as [|x a IH]; [reflexivity|]. rewrite !append_cons, IH. reflexivity.
Qed.

Lemma length_append (a b : string) :
  String.length (a ++ b) = String.length a + String.length b.
Proof.
  induction a as [|x a IH]; [reflexivity|]. rewrite append_cons. cbn [String.length].
  rewrite IH. reflexivity.
Qed.

Lemma spans_trans (s1 s2 s3 : mstate) (w1 w2 : string) :
  spans s1 w1 s2 -> spans s2 w2 s3 -> spans s1 (w1 ++ w2) s3.
Proof.
  unfold spans. intros (H1 & P1) (H2 & P2). rewrite H1, H2, append_assoc, length_append.
  split; [reflexivity | lia].
Qed.

Lemma spans_advance (s : mstate) (x : ascii) (t : string) :
  rest s = String x t -> spans s (String x EmptyString) (advance x t s).
Proof. intros H. unfold spans, advance. cbn. rewrite H. split; [reflexivity | lia]. Qed.

Lemma take_append (w t : string) : take (String.length w) (w ++ t) = w.
Proof.
  induction w as [|x w IH]; [destruct t; reflexivity|].
  rewrite append_cons. cbn [String.length take]. rewrite IH. reflexivity.
Qed.

Lemma spans_take (s s' : mstate) (w : string) :
  spans s w s' -> take (pos s' - pos s) (rest s) = w.
Proof.
  intros (H & P). rewrite H, P.
  replace (pos s + String.length w - pos s) with (String.length w) by lia.
  apply take_append.
Qed.

(** *** The language of a pattern

    [lang ci r w]: the text [w] is one that [r] can consume; the
    assertions ([\b], [^], [$]) consume nothing. *)

Inductive repeated (L : string -> Prop) : nat -> option nat -> string -> Prop :=
| repeated_stop (hi : option nat) : repeated L 0 hi EmptyString
| repeated_full (lo : nat) : repeated L lo (Some 0) EmptyString
| repeated_more (lo : nat) (hi : option nat) (w1 w2 : string) :
    hi <> Some 0 ->
    L w1 -> repeated L (Nat.pred lo) (option_map Nat.pred hi) w2 ->
    repeated L lo hi (w1 ++ w2).

Definition one (P : ascii -> bool) (w : string) : Prop :=
  exists x, w = String x EmptyString /\ P x = true.

Fixpoint lang (ci : bool) (r : regex) : string -> Prop :=
  match r with
  | Empty | WordBoundary | Bol | Eol => fun w => w = EmptyString
  | Chr c => one (fun x => char_eq ci x c)
  | Any => one (fun x => negb (is_line_terminator x))
  | Class negated items => one (fun x => xorb negated (existsb (item_matches ci x) items))
  | Seq a b => fun w => exists w1 w2, w = (w1 ++ w2)%string /\ lang ci a w1 /\ lang ci b w2
  | Alt a b => fun w => lang ci a w \/ lang ci b w
  | Rep lo hi _ a => repeated (lang ci a) lo hi
  | Group _ a => lang ci a
  end.

Lemma spans_clear_caps (gs : list nat) (s : mstate) (w : string) (s' : mstate) :
  spans (clear_caps gs s) w s' -> spans s w s'.
Proof. exact (fun H => H). Qed.

Lemma spans_set_cap (n : nat) (t : string) (s : mstate) (w : string) (s' : mstate) :
  spans s w s' -> spans s w (set_cap n t s').
Proof. exact (fun H => H). Qed.

(** A match consumes a text of the language of the pattern. *)
Lemma matches_lang (ci : bool) (r : regex) :
  forall s s', matches ci r s s' -> exists w, spans s w s' /\ lang ci r w.
Proof.
  induction r as [| c | | negated items | | | | a IHa b IHb | a IHa b IHb
                  | lo hi greedy a IHa | n a IHa];
    intros s s' H; cbn [matches lang] in *.
  - subst. exists EmptyString. split; [apply spans_refl | reflexivity].
  - destruct H as (x & t & Hr & Hc & ->). exists (String x EmptyString).
    split; [apply spans_advance, Hr|]. exists x. auto.
  - destruct H as (x & t & Hr & Hc & ->). exists (String x EmptyString).
    split; [apply spans_advance, Hr|]. exists x. rewrite Hc. auto.
  - destruct H as (x & t & Hr & Hc & ->). exists (String x EmptyString).
    split; [apply spans_advance, Hr|]. exists x. auto.
  - destruct H as (_ & ->). exists EmptyString. split; [apply spans_refl | reflexivity].
  - destruct H as (_ & ->). exists EmptyString. split; [apply spans_refl | reflexivity].
  - destruct H as (_ & ->). exists EmptyString. split; [apply spans_refl | reflexivity].
  - destruct H as (s1 & Ha & Hb). apply IHa in Ha. apply IHb in Hb.
    destruct Ha as (w1 & S1 & L1). destruct Hb as (w2 & S2 & L2).
    exists (w1 ++ w2)%string. split; [eapply spans_trans; eauto|].
    exists w1, w2. auto.
  - destruct H as [H|H]; [apply IHa in H | apply IHb in H];
      destruct H as (w & S & L); exists w; auto.
  - induction H as [hi s | lo s | lo hi s s1 s2 Hhi HR Hit IH].
    + exists EmptyString. split; [apply spans_refl | constructor].
    + exists EmptyString. split; [apply spans_refl | constructor].
    + apply IHa in HR. destruct HR as (w1 & S1 & L1). destruct IH as (w2 & S2 & L2).
      exists (w1 ++ w2)%string. split.
      * eapply spans_trans; [|exact S2]. exact S1.
      * constructor; assumption.
  - destruct H as (s1 & Ha & ->). apply IHa in Ha. destruct Ha as (w & S & L).
    exists w. split; [exact S | exact L].
Qed.

End MatchFacts.

(** ** Searches and captures *)

Module SearchFacts.
Import JsString Regex MatchFacts.
Local Open Scope nat_scope.

(** What a found match is: the text of the language of the pattern that
    the match consumed, with the captures of the state the matcher ended
    in. *)
Definition found (ci : bool) (r : regex) (m : match_result) : Prop :=
  exists st : mstate,
    matches ci r st (m_end m)
    /\ m_caps m = caps (m_end m)
    /\ lang ci r (m_text m).

Lemma search_from_sound (ci : bool) (r : regex) :
  forall (s : string) (i : nat) (p : option ascii) (m : match_result),
    search_from ci r i p s = Some m -> found ci r m.
Proof.
  assert (Hhere : forall s i p e,
             matcher ci r Some {| pos := i; prev := p; rest := s; caps := [] |} = Some e ->
             found ci r {| m_index := i; m_text := take (pos e - i) s;
                           m_caps := caps e; m_end := e |}).
  { intros s i p e Hm. apply matcher_sound in Hm. destruct Hm as (s' & Hm & [= ->]).
    destruct (matches_lang ci r _ _ Hm) as (w & Hspan & Hlang).
    pose proof (spans_take _ _ _ Hspan) as Htake. cbn [pos rest] in Htake.
    eexists. split; [exact Hm|]. cbn [m_end m_text m_caps caps].
    split; [reflexivity|]. rewrite Htake. exact Hlang. }
  induction s as [|c s IH]; intros i p m H; cbn [search_from] in H.
  - destruct (matcher ci r Some _) as [e|] eqn:Hm; [|discriminate].
    injection H as <-. eapply Hhere, Hm.
  - destruct (matcher ci r Some _) as [e|] eqn:Hm.
    + injection H as <-. eapply Hhere, Hm.
    + eapply IH, H.
Qed.

Lemma exec_sound (re : RegExp) (s : string) (m : match_result) :
  exec re s = Some m -> found (ignoreCase re) (compile (source re)) m.
Proof. apply search_from_sound. Qed.

(** Every text that a global match returns is one of the language of the
    pattern. *)
Lemma match_all_from_lang (ci : bool) (r : regex) :
  forall (fuel : nat) (s : string) (i : nat) (p : option ascii) (t : string),
    In t (match_all_from fuel ci r i p s) -> lang ci r t.
Proof.
  induction fuel as [|fuel IH]; intros s i p t H; cbn [match_all_from] in H; [contradiction|].
  destruct (search_from ci r i p s) as [m|] eqn:Hs; [|contradiction].
  destruct H as [<-|H].
  - apply search_from_sound in Hs. destruct Hs as (st & _ & _ & Hlang).
    exact Hlang.
  - destruct (pos (m_end m) =? m_index m).
    + destruct (rest (m_end m)) as [|c t']; [contradiction|]. eapply IH, H.
    + eapply IH, H.
Qed.

Lemma match_all_lang (re : RegExp) (s t : string) :
  In t (match_all re s) -> lang (ignoreCase re) (compile (source re)) t.
Proof. apply match_all_from_lang. Qed.

(** *** Captures *)

Lemma find_filter_other {A : Type} (f g : A -> bool) (l : list A) :
  (forall x, f x = true -> g x = true) ->
  List.find f (List.filter g l) = List.find f l.
Proof.
  intros Hfg. induction l as [|x l IH]; cbn; [reflexivity|].
  destruct (g x) eqn:Hg; cbn.
  - destruct (f x); [reflexivity | exact IH].
  - destruct (f x) eqn:Hf; [|exact IH]. rewrite (Hfg x Hf) in Hg. discriminate.
Qed.

Lemma get_cap_set_same (n : nat) (t : string) (s : mstate) :
  get_cap n (caps (set_cap n t s)) = Some t.
Proof. unfold get_cap, set_cap. cbn. rewrite Nat.eqb_refl. reflexivity. Qed.

Lemma get_cap_set_other (n m : nat) (t : string) (s : mstate) :
  n <> m -> get_cap n (caps (set_cap m t s)) = get_cap n (caps s).
Proof.
  intros Hne. unfold get_cap, set_cap. cbn [caps List.find fst].
  destruct (Nat.eqb_spec m n) as [->|_]; [contradiction|].
  rewrite find_filter_other; [reflexivity|].
  intros [k v] Hk. cbn [fst] in *. apply Nat.eqb_eq in Hk. subst k.
  destruct (Nat.eqb_spec n m); [contradiction | reflexivity].
Qed.

Lemma get_cap_clear (n : nat) (gs : list nat) (s : mstate) :
  ~ In n gs -> get_cap n (caps (clear_caps gs s)) = get_cap n (caps s).
Proof.
  intros Hn. unfold get_cap, clear_caps. cbn [caps].
  rewrite find_filter_other; [reflexivity|].
  intros [k v] Hk. cbn [fst] in *. apply Nat.eqb_eq in Hk. subst k.
  destruct (existsb (Nat.eqb n) gs) eqn:He; [|reflexivity].
  apply existsb_exists in He. destruct He as (g & Hg & Heq).
  apply Nat.eqb_eq in Heq. subst. contradiction.
Qed.

(** A pattern leaves the captures of the groups that it does not contain. *)
Lemma matches_keeps_cap (ci : bool) (n : nat) (r : regex) :
  ~ In n (groups_of r) ->
  forall s s', matches ci r s s' -> get_cap n (caps s') = get_cap n (caps s).
Proof.
  induction r as [| c | | negated items | | | | a IHa b IHb | a IHa b IHb
                  | lo hi greedy a IHa | m a IHa];
    intros Hn s s' H; cbn [matches groups_of] in *.
  - subst. reflexivity.
  - destruct H as (x & t & _ & _ & ->). reflexivity.
  - destruct H as (x & t & _ & _ & ->). reflexivity.
  - destruct H as (x & t & _ & _ & ->). reflexivity.
  - destruct H as (_ & ->). reflexivity.
  - destruct H as (_ & ->). reflexivity.
  - destruct H as (_ & ->). reflexivity.
  - destruct H as (s1 & Ha & Hb).
    rewrite (IHb ltac:(intros X; apply Hn, in_or_app; auto) _ _ Hb).
    apply (IHa ltac:(intros X; apply Hn, in_or_app; auto) _ _ Ha).
  - destruct H as [H|H].
    + apply (IHa ltac:(intros X; apply Hn, in_or_app; auto) _ _ H).
    + apply (IHb ltac:(intros X; apply Hn, in_or_app; auto) _ _ H).
  - induction H as [hi s | lo s | lo hi s s1 s2 Hhi HR Hit IH]; try reflexivity.
    rewrite IH. rewrite (IHa Hn _ _ HR). apply get_cap_clear, Hn.
  - destruct H as (s1 & Ha & ->).
    rewrite get_cap_set_other by (intros ->; apply Hn; left; reflexivity).
    apply IHa; [|exact Ha]. intros X. apply Hn. right. exact X.
Qed.

(** The body of group [n], when every match of the pattern sets the
    group, and sets it last from that body. *)
Fixpoint sets (n : nat) (r : regex) : option regex :=
  match r with
  | Group m a =>
      if n =? m then (if existsb (Nat.eqb n) (groups_of a) then None else Some a)
      else sets n a
  | Seq a b =>
      match sets n b with
      | Some g => Some g
      | None =>
          if existsb (Nat.eqb n) (groups_of b) then None else sets n a
      end
  | _ => None
  end.

Lemma not_in_groups (n : nat) (gs : list nat) :
  existsb (Nat.eqb n) gs = false -> ~ In n gs.
Proof.
  intros He Hin. assert (existsb (Nat.eqb n) gs = true); [|congruence].
  apply existsb_exists. exists n. split; [exact Hin | apply Nat.eqb_refl].
Qed.

Lemma matches_sets (ci : bool) (n : nat) (r : regex) :
  forall (g : regex) (s s' : mstate),
    sets n r = Some g -> matches ci r s s' ->
    exists t, get_cap n (caps s') = Some t /\ lang ci g t.
Proof.
  induction r as [| c | | negated items | | | | a IHa b IHb | a IHa b IHb
                  | lo hi greedy a IHa | m a IHa];
    intros g s s' Hg H; cbn [sets] in Hg; try discriminate Hg; cbn [matches] in H.
  - destruct H as (s1 & Ha & Hb).
    destruct (sets n b) as [gb|] eqn:Hsb.
    + injection Hg as <-. eapply IHb; eauto.
    + destruct (existsb (Nat.eqb n) (groups_of b)) eqn:He; [discriminate|].
      destruct (IHa g _ _ Hg Ha) as (t & Ht & Hl). exists t. split; [|exact Hl].
      rewrite (matches_keeps_cap ci n b (not_in_groups _ _ He) _ _ Hb). exact Ht.
  - destruct H as (s1 & Ha & ->).
    destruct (Nat.eqb_spec n m) as [->|Hne].
    + destruct (existsb (Nat.eqb m) (groups_of a)); [discriminate|]. injection Hg as <-.
      destruct (matches_lang ci a _ _ Ha) as (w & Hspan & Hlang).
      rewrite (spans_take _ _ _ Hspan). exists w. split; [apply get_cap_set_same | exact Hlang].
    + destruct (IHa g _ _ Hg Ha) as (t & Ht & Hl). exists t. split; [|exact Hl].
      rewrite get_cap_set_other by exact Hne. exact Ht.
Qed.

(** The capture of a group that every match sets. *)
Lemma exec_group (re : RegExp) (n : nat) (g : regex) (s : string) (m : match_result) :
  sets n (compile (source re)) = Some g ->
  exec re s = Some m ->
  exists t, get_cap n (m_caps m) = Some t /\ lang (ignoreCase re) g t.
Proof.
  intros Hg He. apply exec_sound in He.
  destruct He as (st & Hm & Hcaps & _). rewrite Hcaps.
  eapply matches_sets; eauto.
Qed.

End SearchFacts.

(** ** The texts of a pattern *)

Module LangFacts.
Import JsString Regex MatchFacts SearchFacts.
Local Open Scope nat_scope.

(** *** Every code unit *)

Definition all_chars : list ascii := map ascii_of_nat (seq 0 256).

Lemma in_all_chars (x : ascii) : In x all_chars.
Proof.
  unfold all_chars. rewrite <- (ascii_nat_embedding x). apply in_map, in_seq.
  pose proof (nat_ascii_bounded x). lia.
Qed.

Lemma for_all_chars (P : ascii -> bool) :
  forallb P all_chars = true -> forall x, P x = true.
Proof. intros H x. rewrite forallb_forall in H. apply H, in_all_chars. Qed.

Fixpoint all_of (P : ascii -> bool) (s : string) : bool :=
  match s with
  | EmptyString => true
  | String c t => P c && all_of P t
  end.

Lemma all_of_app (P : ascii -> bool) (a b : string) :
  all_of P (a ++ b) = all_of P a && all_of P b.
Proof.
  induction a as [|x a IH]; [reflexivity|]. rewrite append_cons. cbn [all_of].
  rewrite IH, andb_assoc. reflexivity.
Qed.

(** *** The characters that a pattern can consume *)

(** Whether every character that the pattern can consume satisfies [P]. *)
Fixpoint consumes_only (P : ascii -> bool) (ci : bool) (r : regex) : bool :=
  match r with
  | Empty | WordBoundary | Bol | Eol => true
  | Chr c => forallb (fun x => implb (char_eq ci x c) (P x)) all_chars
  | Any => forallb (fun x => implb (negb (is_line_terminator x)) (P x)) all_chars
  | Class negated items =>
      forallb (fun x => implb (xorb negated (existsb (item_matches ci x) items)) (P x))
        all_chars
  | Seq a b | Alt a b => consumes_only P ci a && consumes_only P ci b
  | Rep _ _ _ a | Group _ a => consumes_only P ci a
  end.

Lemma one_only (P Q : ascii -> bool) (w : string) :
  forallb (fun x => implb (Q x) (P x)) all_chars = true ->
  one Q w -> all_of P w = true.
Proof.
  intros H (x & -> & Hx). pose proof (for_all_chars _ H x) as Hp. cbn in Hp.
  rewrite Hx in Hp. cbn in *. rewrite Hp. reflexivity.
Qed.

Lemma consumes_only_sound (P : ascii -> bool) (ci : bool) (r : regex) :
  consumes_only P ci r = true -> forall w, lang ci r w -> all_of P w = true.
Proof.
  induction r as [| c | | negated items | | | | a IHa b IHb | a IHa b IHb
                  | lo hi greedy a IHa | n a IHa];
    intros Hr w H; cbn [lang consumes_only] in *;
    try (subst; reflexivity); try (exact (one_only P _ w Hr H)).
  - apply andb_prop in Hr. destruct Hr as (Ha & Hb).
    destruct H as (w1 & w2 & -> & H1 & H2).
    rewrite all_of_app, (IHa Ha _ H1), (IHb Hb _ H2). reflexivity.
  - apply andb_prop in Hr. destruct Hr as (Ha & Hb).
    destruct H as [H|H]; [apply (IHa Ha _ H) | apply (IHb Hb _ H)].
  - induction H as [hi | lo | lo hi w1 w2 Hhi H1 H2 IH]; try reflexivity.
    rewrite all_of_app, (IHa Hr _ H1), IH. reflexivity.
  - apply IHa; assumption.
Qed.

(** *** The least length of a text of a pattern *)

Fixpoint least_length (r : regex) : nat :=
  match r with
  | Empty | WordBoundary | Bol | Eol => 0
  | Chr _ | Any | Class _ _ => 1
  | Seq a b => least_length a + least_length b
  | Alt a b => Nat.min (least_length a) (least_length b)
  | Rep lo hi _ a =>
      match lo, hi with
      | 0, _ | _, Some 0 => 0
      | _, _ => least_length a
      end
  | Group _ a => least_length a
  end.

Lemma least_length_sound (ci : bool) (r : regex) :
  forall w, lang ci r w -> least_length r <= String.length w.
Proof.
  induction r as [| c | | negated items | | | | a IHa b IHb | a IHa b IHb
                  | lo hi greedy a IHa | n a IHa];
    intros w H; cbn [lang least_length] in *;
    try (subst; cbn; lia); try (destruct H as (x & -> & _); cbn; lia).
  - destruct H as (w1 & w2 & -> & H1 & H2). rewrite length_append.
    apply IHa in H1. apply IHb in H2. lia.
  - destruct H as [H|H]; [apply IHa in H | apply IHb in H]; lia.
  - destruct H as [hi | lo | lo hi w1 w2 Hhi H1 H2].
    + cbn. lia.
    + destruct lo; cbn; lia.
    + rewrite length_append. apply IHa in H1.
      destruct lo as [|lo]; [lia|]. destruct hi as [[|hi]|]; lia.
  - apply IHa, H.
Qed.

(** *** Patterns with finitely many texts *)

(** [w] is [v] up to the case folding of the [i] flag. *)
Fixpoint agree (ci : bool) (w v : string) : bool :=
  match w, v with
  | EmptyString, EmptyString => true
  | String x w', String c v' => char_eq ci x c && agree ci w' v'
  | _, _ => false
  end.

Lemma agree_app (ci : bool) (w1 v1 w2 v2 : string) :
  agree ci w1 v1 = true -> agree ci w2 v2 = true ->
  agree ci (w1 ++ w2) (v1 ++ v2) = true.
Proof.
  revert v1. induction w1 as [|x w1 IH]; intros [|c v1] H1 H2; try discriminate H1.
  - exact H2.
  - rewrite !append_cons. cbn [agree] in *. apply andb_prop in H1. destruct H1 as (-> & H1).
    cbn. apply IH; assumption.
Qed.

Lemma agree_exact (w v : string) : agree false w v = true -> w = v.
Proof.
  revert v. induction w as [|x w IH]; intros [|c v] H; try discriminate H; [reflexivity|].
  cbn [agree char_eq] in H. apply andb_prop in H. destruct H as (Hx & H).
  apply Ascii.eqb_eq in Hx. subst. f_equal. apply IH, H.
Qed.

Definition is_lower_letter (c : ascii) : bool := between 97 122 (code c).

Lemma fold_letter_check :
  forallb (fun c => forallb (fun x =>
     implb (is_lower_letter c && char_eq true x c)
           (Ascii.eqb (lower_char x) c && Ascii.eqb (upper_char x) (upper_char c)))
     all_chars) all_chars = true.
Proof. vm_compute. reflexivity. Qed.

Lemma fold_letter (x c : ascii) :
  is_lower_letter c = true -> char_eq true x c = true ->
  lower_char x = c /\ upper_char x = upper_char c.
Proof.
  intros Hc Hx. pose proof (for_all_chars _ fold_letter_check c) as H. cbv beta in H.
  pose proof (for_all_chars _ H x) as H'. cbv beta in H'.
  rewrite Hc, Hx in H'. cbn in H'. apply andb_prop in H'. destruct H' as (H1 & H2).
  apply Ascii.eqb_eq in H1, H2. auto.
Qed.

(** A text that agrees with a lower-case word under the [i] flag is the
    word in some mix of cases. *)
Lemma agree_fold (w v : string) :
  all_of is_lower_letter v = true -> agree true w v = true ->
  toLowerCase w = v /\ toUpperCase w = toUpperCase v.
Proof.
  revert v. induction w as [|x w IH]; intros [|c v] Hv H; try discriminate H; [auto|].
  cbn [agree all_of] in *. apply andb_prop in H, Hv. destruct H as (Hx & H).
  destruct Hv as (Hc & Hv). destruct (IH v Hv H) as (Hl & Hu).
  destruct (fold_letter x c Hc Hx) as (Hlx & Hux).
  unfold toLowerCase, toUpperCase in *. cbn [map_chars]. rewrite Hl, Hu, Hlx, Hux. auto.
Qed.

(** The texts of a pattern made of characters, sequences, alternatives
    and optional parts. *)
Fixpoint words (r : regex) : option (list string) :=
  match r with
  | Empty | WordBoundary | Bol | Eol => Some [EmptyString]
  | Chr c => Some [String c EmptyString]
  | Seq a b =>
      match words a, words b with
      | Some la, Some lb => Some (flat_map (fun x => map (String.append x) lb) la)
      | _, _ => None
      end
  | Alt a b =>
      match words a, words b with
      | Some la, Some lb => Some (la ++ lb)
      | _, _ => None
      end
  | Rep _ (Some 1) _ a => option_map (cons EmptyString) (words a)
  | Group _ a => words a
  | _ => None
  end.

Lemma repeated_once (L : string -> Prop) (lo : nat) (w : string) :
  repeated L lo (Some 1) w -> w = EmptyString \/ L w.
Proof.
  intros H. inversion H as [hi | lo' | lo' hi w1 w2 Hhi H1 H2]; subst; [auto|].
  right. cbn in H2. inversion H2 as [hi | lo' | lo' hi w3 w4 Hhi' H3 H4]; subst.
  - replace (w1 ++ "")%string with w1; [exact H1|].
    clear. induction w1 as [|x w IH]; [reflexivity|]. rewrite append_cons, <- IH. reflexivity.
  - replace (w1 ++ "")%string with w1; [exact H1|].
    clear. induction w1 as [|x w IH]; [reflexivity|]. rewrite append_cons, <- IH. reflexivity.
  - contradiction.
Qed.

Lemma words_sound (ci : bool) (r : regex) :
  forall l w, words r = Some l -> lang ci r w ->
    exists v, In v l /\ agree ci w v = true.
Proof.
  induction r as [| c | | negated items | | | | a IHa b IHb | a IHa b IHb
                  | lo hi greedy a IHa | n a IHa];
    intros l w Hl H; cbn [words lang] in *; try discriminate Hl;
    try (injection Hl as <-; subst; exists EmptyString; split; [left|]; reflexivity).
  - injection Hl as <-. destruct H as (x & -> & Hx). exists (String c EmptyString).
    split; [left; reflexivity|]. cbn. rewrite Hx. reflexivity.
  - destruct (words a) as [la|]; [|discriminate]. destruct (words b) as [lb|]; [|discriminate].
    injection Hl as <-. destruct H as (w1 & w2 & -> & H1 & H2).
    destruct (IHa _ _ eq_refl H1) as (v1 & I1 & A1).
    destruct (IHb _ _ eq_refl H2) as (v2 & I2 & A2).
    exists (v1 ++ v2)%string. split; [|apply agree_app; assumption].
    apply in_flat_map. exists v1. split; [exact I1|]. apply in_map, I2.
  - destruct (words a) as [la|]; [|discriminate]. destruct (words b) as [lb|]; [|discriminate].
    injection Hl as <-. destruct H as [H|H].
    + destruct (IHa _ _ eq_refl H) as (v & I & A). exists v. split; [|exact A].
      apply in_or_app. auto.
    + destruct (IHb _ _ eq_refl H) as (v & I & A). exists v. split; [|exact A].
      apply in_or_app. auto.
  - destruct hi as [[|[|hi]]|]; try discriminate Hl.
    destruct (words a) as [la|]; [|discriminate]. injection Hl as <-.
    apply repeated_once in H. destruct H as [->|H].
    + exists EmptyString. split; [left|]; reflexivity.
    + destruct (IHa _ _ eq_refl H) as (v & I & A). exists v. split; [right|]; assumption.
  - eapply IHa; eassumption.
Qed.

(** *** The start of every text of a pattern *)

Fixpoint prefixes (r : regex) : list string :=
  match r with
  | Seq a b =>
      match words a with
      | Some la => flat_map (fun x => map (String.append x) (prefixes b)) la
      | None => prefixes a
      end
  | Alt a b => prefixes a ++ prefixes b
  | Group _ a => prefixes a
  | _ => match words r with Some l => l | None => [EmptyString] end
  end.

Lemma append_empty_r (w : string) : (w ++ "")%string = w.
Proof. induction w as [|x w IH]; [reflexivity|]. rewrite append_cons, IH. reflexivity. Qed.

Lemma prefixes_sound (ci : bool) (r : regex) :
  forall w, lang ci r w ->
    exists v w1 w2, In v (prefixes r) /\ w = (w1 ++ w2)%string /\ agree ci w1 v = true.
Proof.
  assert (Hleaf : forall r0 w, lang ci r0 w ->
            exists v w1 w2,
              In v (match words r0 with Some l => l | None => [EmptyString] end)
              /\ w = (w1 ++ w2)%string /\ agree ci w1 v = true).
  { intros r0 w H. destruct (words r0) as [l|] eqn:Hl.
    - destruct (words_sound ci r0 _ _ Hl H) as (v & I & A).
      exists v, w, EmptyString. rewrite append_empty_r. auto.
    - exists EmptyString, EmptyString, w. split; [left; reflexivity|]. split; reflexivity. }
  induction r as [| c | | negated items | | | | a IHa b IHb | a IHa b IHb
                  | lo hi greedy a IHa | n a IHa];
    intros w H; try (apply (Hleaf _ _ H)); cbn [prefixes].
  - cbn [lang] in H. destruct H as (wa & wb & -> & H1 & H2).
    destruct (words a) as [la|] eqn:Hl.
    + destruct (words_sound ci a _ _ Hl H1) as (va & Ia & Aa).
      destruct (IHb _ H2) as (vb & w1 & w2 & Ib & -> & Ab).
      exists (va ++ vb)%string, (wa ++ w1)%string, w2. split; [|split].
      * apply in_flat_map. exists va. split; [exact Ia | apply in_map, Ib].
      * rewrite append_assoc. reflexivity.
      * apply agree_app; assumption.
    + destruct (IHa _ H1) as (v & w1 & w2 & I & -> & A).
      exists v, w1, (w2 ++ wb)%string. rewrite append_assoc. auto.
  - cbn [lang] in H. destruct H as [H|H].
    + destruct (IHa _ H) as (v & w1 & w2 & I & -> & A). exists v, w1, w2.
      split; [apply in_or_app; auto | auto].
    + destruct (IHb _ H) as (v & w1 & w2 & I & -> & A). exists v, w1, w2.
      split; [apply in_or_app; auto | auto].
  - cbn [lang] in H. apply IHa, H.
Qed.

End LangFacts.

(** ** The edges of a text, splitting and trimming *)

Module EdgeFacts.
Import JsString Regex MatchFacts SearchFacts LangFacts.
Local Open Scope nat_scope.

(** *** The first and the last character of a text *)

Definition first_is (Q : ascii -> bool) (s : string) : bool :=
  match s with String c _ => Q c | EmptyString => false end.

Fixpoint last_is (Q : ascii -> bool) (s : string) : bool :=
  match s with
  | EmptyString => false
  | String c t => match t with EmptyString => Q c | _ => last_is Q t end
  end.

Lemma first_is_app (Q : ascii -> bool) (a b : string) :
  first_is Q a = true -> first_is Q (a ++ b) = true.
Proof. destruct a; [discriminate | exact (fun H => H)]. Qed.

Lemma last_is_app (Q : ascii -> bool) (a b : string) :
  last_is Q (a ++ b) = match b with EmptyString => last_is Q a | _ => last_is Q b end.
Proof.
  induction a as [|x a IH].
  - destruct b; reflexivity.
  - rewrite append_cons. destruct b as [|y b].
    + rewrite append_empty_r. reflexivity.
    + cbn [last_is]. rewrite IH. destruct a; reflexivity.
Qed.

Definition checks (Q guard : ascii -> bool) : bool :=
  forallb (fun x => implb (guard x) (Q x)) all_chars.

Lemma checks_sound (Q guard : ascii -> bool) (x : ascii) :
  checks Q guard = true -> guard x = true -> Q x = true.
Proof.
  intros H Hg. pose proof (for_all_chars _ H x) as Hx. cbv beta in Hx.
  rewrite Hg in Hx. exact Hx.
Qed.

(** Whether every text of the pattern starts with a character of [Q];
    with [e], the empty text is let through. *)
Fixpoint starts (Q : ascii -> bool) (ci e : bool) (r : regex) : bool :=
  match r with
  | Empty | WordBoundary | Bol | Eol => e
  | Chr c => checks Q (fun x => char_eq ci x c)
  | Any => checks Q (fun x => negb (is_line_terminator x))
  | Class negated items =>
      checks Q (fun x => xorb negated (existsb (item_matches ci x) items))
  | Seq a b => starts Q ci false a || (starts Q ci true a && starts Q ci e b)
  | Alt a b => starts Q ci e a && starts Q ci e b
  | Rep lo hi _ a =>
      if e then starts Q ci true a
      else match lo, hi with
           | 0, _ | _, Some 0 => false
           | _, _ => starts Q ci false a
           end
  | Group _ a => starts Q ci e a
  end.

(** The same for the end of every text. *)
Fixpoint ends (Q : ascii -> bool) (ci e : bool) (r : regex) : bool :=
  match r with
  | Empty | WordBoundary | Bol | Eol => e
  | Chr c => checks Q (fun x => char_eq ci x c)
  | Any => checks Q (fun x => negb (is_line_terminator x))
  | Class negated items =>
      checks Q (fun x => xorb negated (existsb (item_matches ci x) items))
  | Seq a b => ends Q ci false b || (ends Q ci true b && ends Q ci e a)
  | Alt a b => ends Q ci e a && ends Q ci e b
  | Rep lo hi _ a =>
      if e then ends Q ci true a
      else match lo, hi with
           | 0, _ | _, Some 0 => false
           | _, _ => ends Q ci false a
           end
  | Group _ a => ends Q ci e a
  end.

Definition edge (test : string -> bool) (e : bool) (w : string) : Prop :=
  (e = true /\ w = EmptyString) \/ test w = true.

Lemma edge_one (Q guard : ascii -> bool) (e : bool) (w : string) (test : string -> bool) :
  (forall x, test (String x EmptyString) = Q x) ->
  checks Q guard = true -> one guard w -> edge test e w.
Proof.
  intros Ht H (x & -> & Hx). right. rewrite Ht. eapply checks_sound; eassumption.
Qed.

Lemma starts_sound (Q : ascii -> bool) (ci : bool) (r : regex) :
  forall e w, starts Q ci e r = true -> lang ci r w -> edge (first_is Q) e w.
Proof.
  induction r as [| c | | negated items | | | | a IHa b IHb | a IHa b IHb
                  | lo hi greedy a IHa | n a IHa];
    intros e w Hr H; cbn [lang starts] in *;
    try (subst; left; split; reflexivity);
    try (eapply edge_one; [|exact Hr|exact H]; reflexivity).
  - destruct H as (w1 & w2 & -> & H1 & H2).
    apply orb_prop in Hr. destruct Hr as [Hr|Hr].
    + destruct (IHa _ _ Hr H1) as [(Hf & _)|Hw]; [discriminate|].
      right. apply first_is_app, Hw.
    + apply andb_prop in Hr. destruct Hr as (Ha & Hb).
      destruct (IHa _ _ Ha H1) as [(_ & ->)|Hw].
      * apply (IHb _ _ Hb H2).
      * right. apply first_is_app, Hw.
  - apply andb_prop in Hr. destruct Hr as (Ha & Hb).
    destruct H as [H|H]; [apply (IHa _ _ Ha H) | apply (IHb _ _ Hb H)].
  - destruct e.
    + induction H as [hi | lo | lo hi w1 w2 Hhi H1 H2 IH];
        try (left; split; reflexivity).
      destruct (IHa _ _ Hr H1) as [(_ & ->)|Hw]; [exact IH|].
      right. apply first_is_app, Hw.
    + destruct H as [hi | lo | lo hi w1 w2 Hhi H1 H2].
      * discriminate Hr.
      * destruct lo; discriminate Hr.
      * assert (Ha : starts Q ci false a = true).
        { destruct lo; [discriminate Hr|]. destruct hi as [[|hi]|]; [discriminate|..]; exact Hr. }
        destruct (IHa _ _ Ha H1) as [(Hf & _)|Hw]; [discriminate|].
        right. apply first_is_app, Hw.
  - apply IHa; assumption.
Qed.

Lemma last_is_app_edge (Q : ascii -> bool) (e : bool) (w1 w2 : string) :
  edge (last_is Q) e w1 -> edge (last_is Q) true w2 -> edge (last_is Q) e (w1 ++ w2).
Proof.
  intros H1 [(_ & ->)|H2].
  - rewrite append_empty_r. exact H1.
  - right. rewrite last_is_app. destruct w2; [discriminate H2 | exact H2].
Qed.

Lemma ends_sound (Q : ascii -> bool) (ci : bool) (r : regex) :
  forall e w, ends Q ci e r = true -> lang ci r w -> edge (last_is Q) e w.
Proof.
  induction r as [| c | | negated items | | | | a IHa b IHb | a IHa b IHb
                  | lo hi greedy a IHa | n a IHa];
    intros e w Hr H; cbn [lang ends] in *;
    try (subst; left; split; reflexivity);
    try (eapply edge_one; [|exact Hr|exact H]; reflexivity).
  - destruct H as (w1 & w2 & -> & H1 & H2).
    apply orb_prop in Hr. destruct Hr as [Hr|Hr].
    + destruct (IHb _ _ Hr H2) as [(Hf & _)|Hw]; [discriminate|].
      right. rewrite last_is_app. destruct w2; [discriminate Hw | exact Hw].
    + apply andb_prop in Hr. destruct Hr as (Hb & Ha).
      apply last_is_app_edge; [apply (IHa _ _ Ha H1) | apply (IHb _ _ Hb H2)].
  - apply andb_prop in Hr. destruct Hr as (Ha & Hb).
    destruct H as [H|H]; [apply (IHa _ _ Ha H) | apply (IHb _ _ Hb H)].
  - assert (Hany : (forall w, lang ci a w -> edge (last_is Q) true w) ->
                   forall lo hi w, repeated (lang ci a) lo hi w -> edge (last_is Q) true w).
    { intros Ha lo' hi' w' H'.
      induction H' as [hi' | lo' | lo' hi' w1 w2 Hhi H1 H2 IH];
        try (left; split; reflexivity).
      apply last_is_app_edge; [apply (Ha _ H1) | exact IH]. }
    destruct e; [apply (Hany (fun w => IHa true w Hr) _ _ _ H)|].
    destruct H as [hi | lo | lo hi w1 w2 Hhi H1 H2].
    + discriminate Hr.
    + destruct lo; discriminate Hr.
    + assert (Ha : ends Q ci false a = true).
      { destruct lo; [discriminate Hr|]. destruct hi as [[|hi]|]; [discriminate|..]; exact Hr. }
      apply last_is_app_edge; [apply (IHa _ _ Ha H1)|].
      eapply Hany; [|exact H2]. intros w Hw.
      destruct (IHa _ _ Ha Hw) as [(Hf & _)|Hl]; [discriminate | right; exact Hl].
  - apply IHa; assumption.
Qed.

(** *** Splitting at white space *)

Definition not_space (c : ascii) : bool := negb (is_space c).

Lemma all_of_rev_onto (P : ascii -> bool) (s acc : string) :
  all_of P (rev_onto s acc) = all_of P s && all_of P acc.
Proof.
  revert acc. induction s as [|c s IH]; intros acc; cbn [rev_onto all_of]; [reflexivity|].
  rewrite IH. cbn [all_of]. destruct (P c), (all_of P s); reflexivity.
Qed.

Lemma all_of_rev (P : ascii -> bool) (s : string) : all_of P (rev s) = all_of P s.
Proof. unfold rev. rewrite all_of_rev_onto. cbn. apply andb_true_r. Qed.

Lemma length_rev_onto (s acc : string) :
  String.length (rev_onto s acc) = String.length s + String.length acc.
Proof.
  revert acc. induction s as [|c s IH]; intros acc; cbn [rev_onto String.length]; [reflexivity|].
  rewrite IH. cbn [String.length]. lia.
Qed.

Lemma rev_nonempty (s : string) : s <> EmptyString -> rev s <> EmptyString.
Proof.
  intros Hs Hr. apply (f_equal String.length) in Hr. unfold rev in Hr.
  rewrite length_rev_onto in Hr. destruct s; [contradiction | discriminate Hr].
Qed.

(** The pieces of a text that starts and ends outside white space. *)
Lemma split_spaces_from_plain (P : ascii -> bool) :
  forall (s cur : string) (in_run : bool),
    all_of P cur = true ->
    all_of (fun c => P c || is_space c) s = true ->
    (forall c, P c = true -> is_space c = false) ->
    edge (last_is not_space) true s ->
    (in_run = true -> s <> EmptyString) ->
    (in_run = false -> cur <> EmptyString \/ first_is not_space s = true) ->
    Forall (fun p => p <> EmptyString /\ all_of P p = true)
      (split_spaces_from cur in_run s).
Proof.
  induction s as [|c s IH]; intros cur in_run Hcur Hs HP Hlast Hrun Hstart;
    cbn [split_spaces_from].
  - destruct in_run; [exfalso; apply Hrun; reflexivity|].
    destruct (Hstart eq_refl) as [Hne|Hf]; [|discriminate Hf].
    constructor; [|constructor]. split; [apply rev_nonempty, Hne|].
    rewrite all_of_rev. exact Hcur.
  - cbn [all_of] in Hs. apply andb_prop in Hs. destruct Hs as (Hc & Hs).
    assert (Hlast' : is_space c = true -> s <> EmptyString
                     /\ edge (last_is not_space) true s).
    { intros Hsp. destruct Hlast as [(_ & Hl)|Hl]; [discriminate Hl|].
      cbn [last_is] in Hl. destruct s as [|d s'].
      - unfold not_space in Hl. rewrite Hsp in Hl. discriminate Hl.
      - split; [discriminate | right; exact Hl]. }
    destruct (is_space c) eqn:Hsp.
    + destruct (Hlast' eq_refl) as (Hne & Hl). destruct in_run.
      * apply IH; try assumption; [intros _; exact Hne | discriminate].
      * destruct (Hstart eq_refl) as [Hcne|Hf];
          [|cbn in Hf; unfold not_space in Hf; rewrite Hsp in Hf; discriminate Hf].
        constructor.
        -- split; [apply rev_nonempty, Hcne | rewrite all_of_rev; exact Hcur].
        -- apply IH; try assumption; [reflexivity | intros _; exact Hne | discriminate].
    + rewrite orb_false_r in Hc. apply IH; try assumption.
      * cbn [all_of]. rewrite Hc, Hcur. reflexivity.
      * destruct Hlast as [(_ & Hl)|Hl]; [discriminate Hl|].
        destruct s as [|d s']; [left; split; reflexivity | right; exact Hl].
      * discriminate.
      * intros _. left. discriminate.
Qed.

Lemma split_spaces_plain (P : ascii -> bool) (s : string) :
  all_of (fun c => P c || is_space c) s = true ->
  (forall c, P c = true -> is_space c = false) ->
  first_is not_space s = true ->
  last_is not_space s = true ->
  Forall (fun p => p <> EmptyString /\ all_of P p = true) (split_spaces s).
Proof.
  intros Hs HP Hf Hl. apply (split_spaces_from_plain P); try assumption.
  - reflexivity.
  - right. exact Hl.
  - discriminate.
  - intros _. right. exact Hf.
Qed.

(** *** Trimming *)

Lemma rev_onto_app (s acc : string) : rev_onto s acc = (rev s ++ acc)%string.
Proof.
  unfold rev. revert acc. induction s as [|c s IH]; intros acc; cbn [rev_onto]; [reflexivity|].
  rewrite IH, (IH (String c EmptyString)), append_assoc. reflexivity.
Qed.

Lemma rev_app (a b : string) : rev (a ++ b) = (rev b ++ rev a)%string.
Proof.
  induction a as [|x a IH].
  - cbn. rewrite append_empty_r. reflexivity.
  - rewrite append_cons. unfold rev in *. cbn [rev_onto].
    rewrite rev_onto_app, (rev_onto_app a). unfold rev. rewrite IH, append_assoc. reflexivity.
Qed.

Lemma rev_rev (s : string) : rev (rev s) = s.
Proof.
  induction s as [|c s IH]; [reflexivity|].
  change (String c s) with (String c EmptyString ++ s)%string at 1.
  rewrite rev_app, rev_app, IH. reflexivity.
Qed.

Lemma drop_spaces_app (a b : string) :
  all_of is_space a = true -> first_is not_space b = true -> drop_spaces (a ++ b) = b.
Proof.
  intros Ha Hb. induction a as [|x a IH].
  - change (EmptyString ++ b)%string with b. destruct b as [|c b]; [discriminate Hb|].
    cbn [first_is] in Hb. unfold not_space in Hb. cbn [drop_spaces].
    destruct (is_space c); [discriminate Hb | reflexivity].
  - cbn [all_of] in Ha. apply andb_prop in Ha. destruct Ha as (Hx & Ha).
    rewrite append_cons. cbn [drop_spaces]. rewrite Hx. apply IH, Ha.
Qed.

Lemma first_is_rev (Q : ascii -> bool) (s : string) : first_is Q (rev s) = last_is Q s.
Proof.
  induction s as [|c s IH]; [reflexivity|].
  change (String c s) with (String c EmptyString ++ s)%string at 1.
  rewrite rev_app. cbn [last_is]. destruct s as [|d s]; [reflexivity|].
  rewrite <- IH. destruct (rev (String d s)) eqn:Hr; [|reflexivity].
  exfalso. revert Hr. apply rev_nonempty. discriminate.
Qed.

(** Trimming takes the white space around a text away. *)
Lemma trim_framed (a b c : string) :
  all_of is_space a = true -> all_of is_space c = true ->
  first_is not_space b = true -> last_is not_space b = true ->
  trim (a ++ b ++ c) = b.
Proof.
  intros Ha Hc Hf Hl. unfold trim.
  rewrite drop_spaces_app by (try apply first_is_app; assumption).
  rewrite rev_app, drop_spaces_app, rev_rev; [reflexivity | |].
  - rewrite all_of_rev. exact Hc.
  - rewrite first_is_rev. exact Hl.
Qed.

Lemma all_of_weaken (P Q : ascii -> bool) (s : string) :
  (forall c, P c = true -> Q c = true) -> all_of P s = true -> all_of Q s = true.
Proof.
  intros H. induction s as [|c s IH]; [reflexivity|]. cbn [all_of]. intros Hs.
  apply andb_prop in Hs. destruct Hs as (Hc & Hs). rewrite (H c Hc), (IH Hs). reflexivity.
Qed.

Lemma all_of_edges (Q : ascii -> bool) (s : string) :
  all_of Q s = true -> s <> EmptyString -> first_is Q s = true /\ last_is Q s = true.
Proof.
  intros H Hne. destruct s as [|c s]; [contradiction|]. cbn [all_of] in H.
  apply andb_prop in H. destruct H as (Hc & Hs). split; [exact Hc|].
  clear Hne. revert c Hc. induction s as [|d s IH]; intros c Hc; [exact Hc|].
  cbn [all_of] in Hs. apply andb_prop in Hs. destruct Hs as (Hd & Hs).
  change (last_is Q (String d s) = true). apply IH; assumption.
Qed.

End EdgeFacts.

(** ** classifier.js: the extracted entities and the planned commands *)

Module EntityFacts.
Import JsString Regex Classifier ScorerFacts ClassifierMore PlannerMore.
Import MatchFacts SearchFacts LangFacts EdgeFacts.
Local Open Scope string_scope.
Local Open Scope list_scope.

(** The words that group [n] of a pattern can capture, up to case. *)
Definition captured_words (re : RegExp) (n : nat) : option (list string) :=
  match sets n (compile (source re)) with
  | Some g => words g
  | None => None
  end.

Lemma captured_words_sound (re : RegExp) (n : nat) (l : list string) (s : string)
    (m : match_result) :
  captured_words re n = Some l ->
  exec re s = Some m ->
  exists v, In v l /\ agree (ignoreCase re) (group n m) v = true.
Proof.
  unfold captured_words, group. intros Hl He.
  destruct (sets n (compile (source re))) as [g|] eqn:Hg; [|discriminate].
  destruct (exec_group re n g s m Hg He) as (t & -> & Hlang).
  apply (words_sound _ g _ _ Hl Hlang).
Qed.

(** The body of group [n] of a pattern that sets it in every match. *)
Lemma captured_lang (re : RegExp) (n : nat) (g : regex) (s : string) (m : match_result) :
  sets n (compile (source re)) = Some g ->
  exec re s = Some m ->
  lang (ignoreCase re) g (group n m).
Proof.
  unfold group. intros Hg He.
  destruct (exec_group re n g s m Hg He) as (t & -> & Hlang). exact Hlang.
Qed.

(** *** Git operations *)

Definition GIT_OPERATIONS : list string :=
  ["clone"; "pull"; "push"; "commit"; "status"; "log"; "diff"; "branch";
   "checkout"; "merge"; "rebase"; "stash"; "tag"].

Lemma git_words : captured_words GIT_OPERATION 1 = Some GIT_OPERATIONS.
Proof. vm_compute. reflexivity. Qed.

Lemma lower_words (l : list string) (v : string) :
  forallb (all_of is_lower_letter) l = true -> In v l -> all_of is_lower_letter v = true.
Proof. intros H. rewrite forallb_forall in H. apply H. Qed.

Lemma git_operation_of_match (input : string) (m : match_result) :
  exec GIT_OPERATION input = Some m ->
  In (toLowerCase (group 1 m)) GIT_OPERATIONS.
Proof.
  intros He. destruct (captured_words_sound _ _ _ _ _ git_words He) as (v & Hin & Ha).
  assert (Hlow : forallb (all_of is_lower_letter) GIT_OPERATIONS = true)
    by (vm_compute; reflexivity).
  pose proof (lower_words _ v Hlow Hin) as Hv.
  destruct (agree_fold _ _ Hv Ha) as (-> & _). exact Hin.
Qed.

Lemma git_ops_known (input : string) :
  Forall (fun op => In (GitOp.operation op) GIT_OPERATIONS)
    (Entities.gitOps (extractEntities input)).
Proof.
  unfold extractEntities. cbn [Entities.gitOps].
  destruct (exec GIT_OPERATION input) as [m|] eqn:He; constructor; [|constructor].
  cbn [GitOp.operation]. apply (git_operation_of_match input m He).
Qed.

(** X23. At most one git operation is extracted from an input, and its
    name is one of the thirteen operations of the pattern, in lower
    case, however the input wrote it. *)
Theorem git_operation_is_known (input : string) :
  (length (Entities.gitOps (extractEntities input)) <= 1)%nat
  /\ Forall (fun op => In (GitOp.operation op) GIT_OPERATIONS)
       (Entities.gitOps (extractEntities input)).
Proof.
  split; [|apply git_ops_known].
  unfold extractEntities. cbn [Entities.gitOps].
  destruct (exec GIT_OPERATION input); cbn; lia.
Qed.

(** *** The method of a request *)

Definition HTTP_METHODS : list string := ["GET"; "POST"; "PUT"; "PATCH"; "DELETE"].

Lemma verb_words : captured_words HTTP_VERB 1 = Some ["post"; "put"; "patch"; "delete"].
Proof. vm_compute. reflexivity. Qed.

Lemma method_of_match (input : string) (m : match_result) :
  exec HTTP_VERB input = Some m ->
  In (toUpperCase (group 1 m)) HTTP_METHODS.
Proof.
  intros He. destruct (captured_words_sound _ _ _ _ _ verb_words He) as (v & Hin & Ha).
  assert (Hlow : forallb (all_of is_lower_letter) ["post"; "put"; "patch"; "delete"] = true)
    by (vm_compute; reflexivity).
  pose proof (lower_words _ v Hlow Hin) as Hv.
  destruct (agree_fold _ _ Hv Ha) as (_ & ->).
  cbn in Hin. unfold HTTP_METHODS.
  destruct Hin as [<-|[<-|[<-|[<-|[]]]]]; cbn; tauto.
Qed.

(** X24. Every [http_request] step that the planner writes has the four
    arguments [url], [method], [body] and [headers]: the first URL of the
    entities, no body, no headers, and a method that is one of GET, POST,
    PUT, PATCH and DELETE. *)
Theorem http_request_step_shape (classification : Classification.t) (input : string) :
  Forall (fun s =>
            Step.tool s = JStr "http_request" ->
            exists url method,
              first_truthy (Entities.urls (Classification.entities classification))
              = Some url
              /\ In method HTTP_METHODS
              /\ s = step "http_request"
                       [("url", JStr url); ("method", JStr method);
                        ("body", JNull); ("headers", JObj [])])
    (Plan.steps (planFromIntent classification input)).
Proof.
  unfold planFromIntent, plan_of.
  repeat match goal with
         | |- context [String.eqb ?a ?b] =>
             let E := fresh "E" in destruct (String.eqb a b) eqn:E;
             [apply String.eqb_eq in E|clear E]
         | |- context [first_truthy ?l] =>
             let E := fresh "F" in destruct (first_truthy l) eqn:E
         | |- context [match Entities.gitOps ?e with _ => _ end] =>
             destruct (Entities.gitOps e)
         | |- context [nonempty ?l] => destruct (nonempty l)
         | |- context [exec SEARCH_TERM ?i] => destruct (exec SEARCH_TERM i)
         | |- context [test RUN_TESTS ?i] => destruct (test RUN_TESTS i)
         end;
    cbn [Plan.steps];
    repeat (constructor; try (intros Ht; discriminate Ht)).
  intros _. eexists _, _. split; [reflexivity|]. split; [|reflexivity].
  destruct (exec HTTP_VERB input) as [m|] eqn:He.
  - apply (method_of_match input m He).
  - left. reflexivity.
Qed.

(** *** URLs *)

Definition url_pattern : regex := compile (source (with_flag_g URL_PATTERN)).

Lemma starts_with_append (v w : string) : starts_with v (v ++ w) = true.
Proof.
  induction v as [|c v IH]; [reflexivity|]. rewrite append_cons. cbn [starts_with].
  rewrite Ascii.eqb_refl, IH. reflexivity.
Qed.

Lemma url_facts :
  prefixes url_pattern = ["http://"; "https://"]
  /\ consumes_only not_space false url_pattern = true
  /\ least_length url_pattern = 8%nat.
Proof. vm_compute. repeat split. Qed.

(** X25. Every URL that is extracted starts with [http://] or [https://]
    in lower case (the global copy of the pattern drops the [i] flag),
    holds no white space and is at least eight characters long. *)
Theorem urls_are_lowercase_http (input : string) :
  Forall (fun url =>
            (starts_with "http://" url || starts_with "https://" url) = true
            /\ all_of not_space url = true
            /\ (8 <= String.length url)%nat)
    (Entities.urls (extractEntities input)).
Proof.
  unfold extractEntities. cbn [Entities.urls]. apply List.Forall_forall. intros url Hin.
  apply match_all_lang in Hin. change (lang false url_pattern url) in Hin.
  destruct url_facts as (Hp & Hc & Hl).
  split; [|split].
  - destruct (prefixes_sound _ _ _ Hin) as (v & w1 & w2 & Hv & -> & Ha).
    apply agree_exact in Ha. subst w1. rewrite Hp in Hv.
    destruct Hv as [<-|[<-|[]]]; rewrite starts_with_append; [reflexivity | apply orb_true_r].
  - apply (consumes_only_sound _ _ _ Hc _ Hin).
  - rewrite <- Hl. apply (least_length_sound _ _ _ Hin).
Qed.

(** *** Package names *)

(** The characters [\w@/.-]. *)
Definition package_char (c : ascii) : bool :=
  is_word c || existsb (Ascii.eqb c) ["@"; "/"; "."; "-"]%char.

Lemma package_char_not_space (c : ascii) : package_char c = true -> is_space c = false.
Proof.
  intros Hc.
  pose proof (for_all_chars (fun x => implb (package_char x) (negb (is_space x)))
                ltac:(vm_compute; reflexivity) c) as H.
  cbv beta in H. rewrite Hc in H. cbn in H. destruct (is_space c); [discriminate H|reflexivity].
Qed.

Definition plain (p : string) : Prop := p <> EmptyString /\ all_of package_char p = true.

Definition package_list (re : RegExp) : bool :=
  match sets 1 (compile (source re)) with
  | Some g =>
      consumes_only (fun c => package_char c || is_space c) (ignoreCase re) g
      && starts not_space (ignoreCase re) false g
      && ends not_space (ignoreCase re) false g
  | None => false
  end.

Lemma package_list_sound (re : RegExp) (input : string) (m : match_result) :
  package_list re = true ->
  exec re input = Some m ->
  Forall plain (split_spaces (group 1 m)).
Proof.
  unfold package_list. intros Hp He.
  destruct (sets 1 (compile (source re))) as [g|] eqn:Hg; [|discriminate].
  apply andb_prop in Hp. destruct Hp as (Hp & Hends).
  apply andb_prop in Hp. destruct Hp as (Hchars & Hstarts).
  pose proof (captured_lang re 1 g input m Hg He) as Hlang.
  apply (split_spaces_plain package_char).
  - apply (consumes_only_sound _ _ _ Hchars _ Hlang).
  - exact package_char_not_space.
  - destruct (starts_sound _ _ _ _ _ Hstarts Hlang) as [(Hf & _)|H]; [discriminate | exact H].
  - destruct (ends_sound _ _ _ _ _ Hends Hlang) as [(Hf & _)|H]; [discriminate | exact H].
Qed.

Lemma install_patterns : package_list NPM_INSTALL = true /\ package_list PIP_INSTALL = true.
Proof. vm_compute. split; reflexivity. Qed.

Lemma packages_plain (input : string) :
  Forall plain (Entities.packages (extractEntities input)).
Proof.
  unfold extractEntities. cbn [Entities.packages]. destruct install_patterns as (Hn & Hp).
  apply List.Forall_app. split.
  - destruct (exec NPM_INSTALL input) as [m|] eqn:He; [|constructor].
    apply (package_list_sound _ input m Hn He).
  - destruct (exec PIP_INSTALL input) as [m|] eqn:He; [|constructor].
    apply (package_list_sound _ input m Hp He).
Qed.

(** X26. Every package name that is extracted is non-empty and made only
    of word characters and of [@], [/], [.] and [-]. *)
Theorem packages_are_plain (input : string) :
  Forall (fun p => p <> EmptyString /\ all_of package_char p = true)
    (Entities.packages (extractEntities input)).
Proof. exact (packages_plain input). Qed.

(** *** File paths *)

(** The characters [\w./-]. *)
Definition path_char (c : ascii) : bool :=
  is_word c || existsb (Ascii.eqb c) ["."; "/"; "-"]%char.

Lemma path_char_not_space (c : ascii) : path_char c = true -> not_space c = true.
Proof.
  intros Hc.
  pose proof (for_all_chars (fun x => implb (path_char x) (not_space x))
                ltac:(vm_compute; reflexivity) c) as H.
  cbv beta in H. rewrite Hc in H. exact H.
Qed.

(** A pattern that is a capturing group between two parts. *)
Definition framed (r : regex) : option (regex * regex * regex) :=
  match r with
  | Seq a (Seq (Group _ g) c) => Some (a, g, c)
  | _ => None
  end.

Definition path_pattern (re : RegExp) : bool :=
  match framed (compile (source re)) with
  | Some (a, g, c) =>
      consumes_only is_space (ignoreCase re) a
      && consumes_only is_space (ignoreCase re) c
      && consumes_only path_char (ignoreCase re) g
      && Nat.leb 1 (least_length g)
  | None => false
  end.

Lemma path_pattern_sound (re : RegExp) (input text : string) :
  path_pattern re = true ->
  In text (match_all re input) ->
  trim text <> EmptyString /\ all_of path_char (trim text) = true.
Proof.
  unfold path_pattern. intros Hp Hin. apply match_all_lang in Hin.
  destruct (compile (source re)) as [| | | | | | | a b | | |];
    try (cbn [framed] in Hp; discriminate Hp).
  destruct b as [| | | | | | | g' c | | |]; try (cbn [framed] in Hp; discriminate Hp).
  destruct g' as [| | | | | | | | | | n g]; try (cbn [framed] in Hp; discriminate Hp).
  cbn [framed] in Hp.
  apply andb_prop in Hp. destruct Hp as (Hp & Hlen).
  apply andb_prop in Hp. destruct Hp as (Hp & Hg).
  apply andb_prop in Hp. destruct Hp as (Ha & Hc).
  cbn [lang] in Hin. destruct Hin as (w1 & w' & -> & H1 & w2 & w3 & -> & H2 & H3).
  apply (consumes_only_sound _ _ _ Ha) in H1.
  apply (consumes_only_sound _ _ _ Hc) in H3.
  pose proof (least_length_sound _ _ _ H2) as Hl. apply Nat.leb_le in Hlen.
  apply (consumes_only_sound _ _ _ Hg) in H2.
  assert (Hne : w2 <> EmptyString) by (intros ->; cbn in Hl; lia).
  destruct (all_of_edges not_space w2
              (all_of_weaken _ _ _ path_char_not_space H2) Hne) as (Hf & Hlast).
  rewrite (trim_framed w1 w2 w3 H1 H3 Hf Hlast). split; assumption.
Qed.

Lemma path_patterns :
  path_pattern (with_flag_g FILE_PATH_PATTERN) = true
  /\ path_pattern (with_flag_g ABSOLUTE_PATH_PATTERN) = true.
Proof. vm_compute. split; reflexivity. Qed.

(** X27. Every file path that is extracted is non-empty and made only of
    word characters and of [.], [/] and [-]: the white space that the
    pattern matches around it is trimmed away. *)
Theorem file_paths_are_plain (input : string) :
  Forall (fun p => p <> EmptyString /\ all_of path_char p = true)
    (Entities.filePaths (extractEntities input)).
Proof.
  unfold extractEntities. cbn [Entities.filePaths]. destruct path_patterns as (Hr & Ha).
  apply List.Forall_app. split; apply List.Forall_forall; intros p Hin;
    apply in_map_iff in Hin; destruct Hin as (text & <- & Hin).
  - apply (path_pattern_sound _ input text Hr Hin).
  - apply (path_pattern_sound _ input text Ha Hin).
Qed.

(** *** The commands that the planner writes *)




End EntityFacts.

(** ** v3.js: the command line *)

Module V3Facts.
Import V3.
Local Open Scope string_scope.
Local Open Scope list_scope.

(** Whether one of the arguments from index [i] on is one of [names]. *)
Definition seen_from (args : list string) (names : list string) (i : nat) : bool :=
  existsb (fun j => is_arg args j names) (seq i (length args - i)).

Lemma is_arg_at (args : list string) (i : nat) (names : list string) :
  is_arg args i names = true ->
  exists a, nth_error args i = Some a /\ In a names.
Proof.
  unfold is_arg. destruct (nth_error args i) as [a|]; [|discriminate].
  intros H. apply existsb_exists in H. destruct H as (n & Hn & He).
  apply String.eqb_eq in He. subst. exists n. auto.
Qed.

Lemma is_arg_other (args : list string) (i : nat) (names others : list string) :
  is_arg args i names = true ->
  forallb (fun a => negb (existsb (String.eqb a) others)) names = true ->
  is_arg args i others = false.
Proof.
  intros H Hdisj. destruct (is_arg_at _ _ _ H) as (a & Ha & Hin).
  unfold is_arg. rewrite Ha. rewrite forallb_forall in Hdisj.
  apply negb_true_iff, Hdisj, Hin.
Qed.

Lemma value_after_bound (args : list string) (i : nat) (v : string) :
  value_after args i = Some v -> (S i < length args)%nat.
Proof.
  unfold value_after. destruct (nth_error args (S i)) eqn:Hn; [|discriminate].
  intros _. apply nth_error_Some. rewrite Hn. discriminate.
Qed.

Lemma switches_at_spec (args : list string) (k : nat) (g : flags) :
  benchmark (switches_at args k g) = benchmark g || is_arg args k ["--benchmark"]
  /\ verbose (switches_at args k g) = verbose g || is_arg args k ["--verbose"; "-v"].
Proof.
  unfold switches_at.
  destruct (is_arg args k ["--benchmark"]), (is_arg args k ["--verbose"; "-v"]);
    cbn [benchmark verbose]; rewrite ?orb_true_r, ?orb_false_r; auto.
Qed.

(** One turn of the loop: where it stops, and what it does to the two
    switches. The arguments that it steps over are option names. *)
Lemma parse_at_spec (args : list string) (i : nat) (f : flags) (names : list string) :
  forallb (fun a => negb (existsb (String.eqb a) names))
    ["--provider"; "--analyse"; "--analyze"] = true ->
  (i < length args)%nat ->
  let f' := fst (parse_at args i f) in
  let i' := snd (parse_at args i f) in
  (i <= i' < length args)%nat
  /\ benchmark f' = benchmark f || is_arg args i' ["--benchmark"]
  /\ verbose f' = verbose f || is_arg args i' ["--verbose"; "-v"]
  /\ forall j, (i <= j < i')%nat -> is_arg args j names = false.
Proof.
  intros Hnames Hi. cbv zeta. unfold parse_at.
  rewrite forallb_forall in Hnames.
  assert (Hp : forall j, is_arg args j ["--provider"] = true -> is_arg args j names = false).
  { intros j Hj. apply (is_arg_other _ _ _ _ Hj). apply forallb_forall.
    intros a [<-|[]]. apply Hnames. cbn. auto. }
  assert (Ha : forall j, is_arg args j ["--analyse"; "--analyze"] = true ->
                         is_arg args j names = false).
  { intros j Hj. apply (is_arg_other _ _ _ _ Hj). apply forallb_forall.
    intros a [<-|[<-|[]]]; apply Hnames; cbn; auto. }
  assert (Hfinish : forall (g : flags) (k : nat),
            (i <= k < length args)%nat ->
            (forall j, (i <= j < k)%nat -> is_arg args j names = false) ->
            benchmark g = benchmark f -> verbose g = verbose f ->
            (i <= snd (switches_at args k g, k) < length args)%nat
            /\ benchmark (fst (switches_at args k g, k))
               = benchmark f || is_arg args (snd (switches_at args k g, k)) ["--benchmark"]
            /\ verbose (fst (switches_at args k g, k))
               = verbose f || is_arg args (snd (switches_at args k g, k)) ["--verbose"; "-v"]
            /\ forall j, (i <= j < snd (switches_at args k g, k))%nat ->
                         is_arg args j names = false).
  { intros g k Hk Hskip Hb Hv. cbn [fst snd].
    destruct (switches_at_spec args k g) as (-> & ->). rewrite Hb, Hv. auto. }
  destruct (is_arg args i ["--provider"]) eqn:E1;
    [destruct (value_after args i) as [v1|] eqn:V1|]; cbv beta iota zeta.
  - pose proof (value_after_bound _ _ _ V1) as B1.
    destruct (is_arg args (S i) ["--analyse"; "--analyze"]) eqn:E2;
      [destruct (value_after args (S i)) as [v2|] eqn:V2|]; cbv beta iota zeta.
    + pose proof (value_after_bound _ _ _ V2) as B2.
      apply Hfinish; [lia | | reflexivity | reflexivity].
      intros j Hj. assert (Hcase : j = i \/ j = S i) by lia.
      destruct Hcase as [->| ->]; auto.
    + apply Hfinish; [lia | | reflexivity | reflexivity].
      intros j Hj. assert (j = i) by lia. subst. auto.
    + apply Hfinish; [lia | | reflexivity | reflexivity].
      intros j Hj. assert (j = i) by lia. subst. auto.
  - rewrite (is_arg_other _ _ _ ["--analyse"; "--analyze"] E1 eq_refl). cbv beta iota zeta.
    apply Hfinish; [lia | | reflexivity | reflexivity]. intros j Hj. lia.
  - destruct (is_arg args i ["--analyse"; "--analyze"]) eqn:E2;
      [destruct (value_after args i) as [v2|] eqn:V2|]; cbv beta iota zeta.
    + pose proof (value_after_bound _ _ _ V2) as B2.
      apply Hfinish; [lia | | reflexivity | reflexivity].
      intros j Hj. assert (j = i) by lia. subst. auto.
    + apply Hfinish; [lia | | reflexivity | reflexivity]. intros j Hj. lia.
    + apply Hfinish; [lia | | reflexivity | reflexivity]. intros j Hj. lia.
Qed.

Lemma seen_from_split (args names : list string) (i i' : nat) :
  (i <= i' < length args)%nat ->
  (forall j, (i <= j < i')%nat -> is_arg args j names = false) ->
  seen_from args names i = is_arg args i' names || seen_from args names (S i').
Proof.
  intros Hi Hskip. unfold seen_from.
  replace (length args - i)%nat with ((i' - i) + S (length args - S i'))%nat by lia.
  rewrite seq_app, existsb_app. replace (i + (i' - i))%nat with i' by lia.
  cbn [seq existsb].
  replace (existsb (fun j => is_arg args j names) (seq i (i' - i))) with false; [reflexivity|].
  symmetry. apply not_true_is_false. intros H. apply existsb_exists in H.
  destruct H as (j & Hj & Hx). apply in_seq in Hj. rewrite Hskip in Hx by lia. discriminate.
Qed.

Lemma seen_from_end (args names : list string) (i : nat) :
  (length args <= i)%nat -> seen_from args names i = false.
Proof.
  intros H. unfold seen_from. replace (length args - i)%nat with 0%nat by lia. reflexivity.
Qed.

Lemma parse_from_switches (args : list string) :
  forall (fuel i : nat) (f : flags),
    (length args <= fuel + i)%nat ->
    benchmark (parse_from fuel args i f)
    = benchmark f || seen_from args ["--benchmark"] i
    /\ verbose (parse_from fuel args i f)
       = verbose f || seen_from args ["--verbose"; "-v"] i.
Proof.
  induction fuel as [|fuel IH]; intros i f Hfuel; cbn [parse_from].
  - rewrite !seen_from_end by lia. rewrite !orb_false_r. auto.
  - destruct (Nat.ltb_spec i (length args)) as [Hi|Hi].
    + destruct (parse_at_spec args i f ["--benchmark"] eq_refl Hi) as (Hb & Hbench & _ & Hskip).
      destruct (parse_at_spec args i f ["--verbose"; "-v"] eq_refl Hi) as (_ & _ & Hverb & Hskip').
      destruct (parse_at args i f) as (f', i'). cbn [fst snd] in *.
      destruct (IH (S i') f' ltac:(lia)) as (-> & ->).
      rewrite Hbench, Hverb, (seen_from_split _ _ i i' Hb Hskip),
        (seen_from_split _ _ i i' Hb Hskip'), !orb_assoc. auto.
    + rewrite !seen_from_end by lia. rewrite !orb_false_r. auto.
Qed.

Lemma seen_from_start (args names : list string) :
  seen_from args names 0 = true <-> exists a, In a args /\ In a names.
Proof.
  unfold seen_from. rewrite Nat.sub_0_r. split.
  - intros H. apply existsb_exists in H. destruct H as (j & _ & Hj).
    destruct (is_arg_at _ _ _ Hj) as (a & Ha & Hin). exists a.
    split; [eapply nth_error_In; eassumption | exact Hin].
  - intros (a & Ha & Hin). apply In_nth_error in Ha. destruct Ha as (j & Hj).
    apply existsb_exists. exists j. split.
    + apply in_seq. assert (j < length args)%nat; [|lia].
      apply nth_error_Some. rewrite Hj. discriminate.
    + unfold is_arg. rewrite Hj. apply existsb_exists. exists a.
      split; [exact Hin | apply String.eqb_refl].
Qed.

(** X29. The command line of v3.js sees its two switches wherever they
    stand: [benchmark] is set exactly when [--benchmark] is among the
    arguments, and [verbose] exactly when [--verbose] or [-v] is, also
    where the argument was taken as the value of [--provider] or
    [--analyse]. *)
Theorem switches_are_seen_anywhere (args : list string) :
  (benchmark (parse_args args) = true <-> In "--benchmark" args)
  /\ (verbose (parse_args args) = true <-> In "--verbose" args \/ In "-v" args).
Proof.
  unfold parse_args.
  destruct (parse_from_switches args (length args) 0 no_flags ltac:(lia)) as (-> & ->).
  cbn [no_flags benchmark verbose orb]. rewrite !seen_from_start. split; split.
  - intros (a & Ha & [<-|[]]). exact Ha.
  - intros H. exists "--benchmark". split; [exact H | left; reflexivity].
  - intros (a & Ha & [<-|[<-|[]]]); auto.
  - intros [H|H]; [exists "--verbose" | exists "-v"]; (split; [exact H|]); cbn; auto.
Qed.

End V3Facts.

(** ** orchestrator.js: the model-assisted path *)

Module ModelPathFacts.
Import Orchestrator OrchestratorFacts.
Local Open Scope string_scope.
Local Open Scope list_scope.

Section WithCollaborators.
Context {W : Type}.
Variable Number_toString : float -> string.
Variable JSON_stringify_pretty : jsval -> outcome jsval.
Variable JSON_parse : string -> outcome jsval.
Variable JSON_stringify : jsval -> string.
Variable this : @config W.

Local Abbreviation RESPONSE_TEMPLATES :=
  (Tables.RESPONSE_TEMPLATES Number_toString JSON_stringify_pretty).

Ltac frame_simpl :=
  cbn [metrics world invocations trace state fst snd] in *.

Ltac monad_unfold :=
  cbv beta iota zeta delta
    [bind ret throw try_catch lift with_metrics set_state trace_push get_trace
     get_state on_world call_executeTool _trackIntent _snapshot result_of
     run_step run_model_step];
  frame_simpl.





(** What the error template of an intent makes of a model plan that has
    no [steps]. *)
Definition without_steps (intent : string) : outcome string :=
  if existsb (String.eqb intent) ["file_read"; "file_write"; "shell_command"]
  then Thrown "Cannot read properties of undefined (reading '0')"
  else if String.eqb intent "http_request"
  then Returned "HTTP request failed: error — no results"
  else if String.eqb intent "search" then Returned "Search failed: no results"
  else if Js.inherits intent then Thrown "templates.error is not a function"
  else Returned "Task failed: no results".

(** X15. A model plan without [steps] calls no tool. For the intents
    [file_read], [file_write] and [shell_command] the error template then
    throws the TypeError of reading index 0 of undefined out of
    [_executeModelPlan], and for an intent that is a name of
    [Object.prototype] the call of the template is itself a TypeError;
    for the other intents the call returns the failure text of the
    template, with no results, marked as planned by the model. *)
Theorem model_plan_without_steps
    (input : string) (fields : list (string * jsval)) (c : Classification.t) (f : frame) :
  Js.field "steps" fields = JUndefined ->
  exists (o : outcome Result.t) (f' : frame),
    _executeModelPlan Number_toString RESPONSE_TEMPLATES this input (JObj fields) c f
    = (o, f')
    /\ invocations f' = invocations f
    /\ world f' = world f
    /\ match without_steps (Classification.intent c), o with
       | Thrown message, Thrown message' => message' = message
       | Returned text, Returned r =>
           Result.response r = JStr text
           /\ Result.results r = Some []
           /\ Result.deterministic r = false
           /\ Result.modelUsedForPlanning r = true
       | _, _ => False
       end.
Proof using Type.
  intros Hsteps. unfold _executeModelPlan, without_steps. monad_unfold.
  cbn [Js.prop Js.opt_prop]. rewrite Hsteps. cbn [Js.or Js.truthy Js.iterate run_model_steps].
  monad_unfold. cbn [last_result last value_of result_field Js.opt_prop Js.truthy Js.or].
  unfold Tables.RESPONSE_TEMPLATES.
  destruct (String.eqb (Classification.intent c) "file_read") eqn:E1.
  { cbn [existsb orb]. rewrite E1. cbn [orb].
    cbn [error Tables.file_read Tables.first_arg Js.prop Js.opt_prop]. rewrite Hsteps.
    cbn. eexists _, _. split; [reflexivity|]. repeat split. }
  destruct (String.eqb (Classification.intent c) "file_write") eqn:E2.
  { cbn [existsb orb]. rewrite E1, E2. cbn [orb].
    cbn [error Tables.file_write Tables.first_arg Js.prop Js.opt_prop]. rewrite Hsteps.
    cbn. eexists _, _. split; [reflexivity|]. repeat split. }
  destruct (String.eqb (Classification.intent c) "shell_command") eqn:E3.
  { cbn [existsb orb]. rewrite E1, E2, E3. cbn [orb].
    cbn [error Tables.shell_command Tables.first_arg Js.prop Js.opt_prop]. rewrite Hsteps.
    cbn. eexists _, _. split; [reflexivity|]. repeat split. }
  cbn [existsb orb]. rewrite E1, E2, E3. cbn [orb].
  destruct (String.eqb (Classification.intent c) "http_request") eqn:E4.
  { cbn. eexists _, _. split; [reflexivity|]. repeat split. }
  destruct (String.eqb (Classification.intent c) "search") eqn:E5.
  { cbn. eexists _, _. split; [reflexivity|]. repeat split. }
  destruct (Js.inherits (Classification.intent c)) eqn:E6.
  { cbn. eexists _, _. split; [reflexivity|]. repeat split. }
  cbn. eexists _, _. split; [reflexivity|]. repeat split.
Qed.

End WithCollaborators.
End ModelPathFacts.

(* ===================================================================== *)
(** ** Examples of the further properties

    Two more orchestrators: [offline], whose tool executor throws on every
    call, and [workstation], the orchestrator of v3.js over the executors
    of tools.js in sandbox mode, on a machine where every command fails
    with status 128 and every HTTP exchange ends with status 404. *)
(* ===================================================================== *)

Module Examples.
Import Orchestrator OrchestratorFacts.
Local Open Scope string_scope.
Local Open Scope list_scope.

Definition refusing (tool args : jsval) (w : nat) : outcome jsval * nat :=
  (Thrown "EACCES: permission denied", S w).

Definition offline : @config nat :=
  fst (constructor refusing None None None Demo.warn).

Definition sandbox : Tools.config :=
  {| Tools.workingDirectory := "/work";
     Tools.sandboxMode := true;
     Tools.blockedCommands := None |}.

Definition path_resolve (base : string) (p : jsval) : outcome string :=
  Returned (base ++ "/" ++ Js.ToString Demo.Number_toString p)%string.

Definition not_a_repository : Tools.exec_error :=
  {| Tools.e_stdout := Some "";
     Tools.e_stderr := Some "fatal: not a git repository";
     Tools.e_status := Some 128%float;
     Tools.e_message := Some "Command failed: git status" |}.

Definition execSync (command : jsval) (cwd : option string) (timeout : jsval) (w : nat)
  : (string + Tools.exec_error) * nat :=
  (inr not_a_repository, S w).

Definition exchange (input : jsval) (w : nat) : outcome Tools.http_event * nat :=
  (Returned (Tools.Ended (JNum 404) (JObj []) "Not Found"), S w).

Definition unused : @Tools.executor nat :=
  fun _ _ w => (Returned (JObj [("success", JBool true)]), w).

Definition no_prototype (name : string) : option (@Tools.executor nat) := None.

Local Abbreviation workstation :=
  (IntegrationFacts.this Demo.Number_toString path_resolve execSync exchange
     unused unused unused unused unused unused unused no_prototype
     sandbox None Demo.warn).

Local Abbreviation VALIDATORS :=
  (Tables.VALIDATORS Demo.Number_toString Demo.String_toNumber Demo.inherited_validator).
Local Abbreviation RESPONSE_TEMPLATES :=
  (Tables.RESPONSE_TEMPLATES Demo.Number_toString Demo.JSON_stringify_pretty).
Local Abbreviation intent_of this input :=
  (Classification.intent (Classifier.classify input (confidenceThreshold this))).
Local Abbreviation plan_of this input :=
  (Classifier.planFromIntent (Classifier.classify input (confidenceThreshold this)) input).
Local Abbreviation run this input :=
  (process Demo.Number_toString VALIDATORS RESPONSE_TEMPLATES Demo.JSON_parse
     Demo.JSON_stringify this input Demo.fresh).

(** Replaces the text of the response in [H] by its value. *)
Ltac evaluate_response H :=
  match type of H with
  | _ = JStr ?t =>
      let v := eval vm_compute in t in
      let E := fresh "E" in
      assert (E : t = v) by (vm_compute; reflexivity);
      rewrite E in H; clear E
  end.

(** What the entity extraction finds in some inputs. *)
Lemma entities_examples :
  Entities.gitOps (Classifier.extractEntities "Git Commit -m reformat")
  = [ {| GitOp.operation := "commit"; GitOp.args := "-m reformat" |} ]
  /\ Entities.urls (Classifier.extractEntities "fetch https://api.example.com/data now")
     = ["https://api.example.com/data"]
  /\ Entities.urls (Classifier.extractEntities "fetch HTTPS://API.EXAMPLE.COM/data") = []
  /\ Entities.packages (Classifier.extractEntities "npm install express  lodash@4")
     = ["express"; "lodash@4"]
  /\ Entities.filePaths (Classifier.extractEntities "read file src/agent.js")
     = ["src/agent.js"].
Proof. vm_compute. repeat split. Qed.

(** What the command line of v3.js makes of an option name in the place
    of a value. *)
Lemma parse_args_example :
  V3.parse_args ["--provider"; "--benchmark"]
  = {| V3.provider := Some "--benchmark"; V3.analyse := None;
       V3.benchmark := true; V3.verbose := false |}.
Proof. reflexivity. Qed.




Lemma shell_failure_reported_as_success_witness :
  intent_of offline "git status" = "shell_command"
  /\ Plan.requiresModelForPlanning (plan_of offline "git status") = false
  /\ (forall args, executeTool offline (JStr "run_command") args (i_world Demo.fresh)
                   = (Thrown "EACCES: permission denied", 1%nat))
  /\ TablesFacts.failure "EACCES: permission denied" (Thrown "EACCES: permission denied")
  /\ exists r i',
       run offline "git status" = (Returned r, i')
       /\ Result.response r = JStr "`git status` completed successfully."
       /\ Result.deterministic r = true
       /\ Result.error r = None.
Proof.
  assert (H1 : intent_of offline "git status" = "shell_command")
    by (vm_compute; reflexivity).
  assert (H2 : Plan.requiresModelForPlanning (plan_of offline "git status") = false)
    by (vm_compute; reflexivity).
  assert (H3 : forall args, executeTool offline (JStr "run_command") args (i_world Demo.fresh)
                            = (Thrown "EACCES: permission denied", 1%nat))
    by (intros args; reflexivity).
  assert (H4 : TablesFacts.failure "EACCES: permission denied"
                 (Thrown "EACCES: permission denied")) by (left; reflexivity).
  split; [exact H1|]. split; [exact H2|]. split; [exact H3|]. split; [exact H4|].
  destruct (TablesFacts.shell_failure_reported_as_success Demo.Number_toString
              Demo.String_toNumber Demo.JSON_stringify_pretty Demo.inherited_validator
              Demo.JSON_parse
              Demo.JSON_stringify offline "git status" _ Demo.fresh _ _ H1 H2 H3 H4)
    as (cmd & r & i' & Hsteps & Hrun & Hresp & Hd & He & _).
  assert (Hp : Plan.steps (plan_of offline "git status")
               = [Classifier.step "run_command" [("command", JStr "git status")]])
    by (vm_compute; reflexivity).
  rewrite Hp in Hsteps. injection Hsteps as <-. evaluate_response Hresp.
  exists r, i'. repeat split; assumption.
Defined.

Lemma file_read_failure_is_reported_witness :
  intent_of offline "read file src/agent.js" = "file_read"
  /\ Plan.requiresModelForPlanning (plan_of offline "read file src/agent.js") = false
  /\ (forall args, executeTool offline (JStr "read_file") args (i_world Demo.fresh)
                   = (Thrown "EACCES: permission denied", 1%nat))
  /\ TablesFacts.failure "EACCES: permission denied" (Thrown "EACCES: permission denied")
  /\ exists r i',
       run offline "read file src/agent.js" = (Returned r, i')
       /\ Result.response r
          = JStr "Failed to read `src/agent.js`: EACCES: permission denied"
       /\ Result.deterministic r = true
       /\ Result.error r = None.
Proof.
  assert (H1 : intent_of offline "read file src/agent.js" = "file_read")
    by (vm_compute; reflexivity).
  assert (H2 : Plan.requiresModelForPlanning (plan_of offline "read file src/agent.js")
               = false) by (vm_compute; reflexivity).
  assert (H3 : forall args, executeTool offline (JStr "read_file") args (i_world Demo.fresh)
                            = (Thrown "EACCES: permission denied", 1%nat))
    by (intros args; reflexivity).
  assert (H4 : TablesFacts.failure "EACCES: permission denied"
                 (Thrown "EACCES: permission denied")) by (left; reflexivity).
  split; [exact H1|]. split; [exact H2|]. split; [exact H3|]. split; [exact H4|].
  destruct (TablesFacts.file_read_failure_is_reported Demo.Number_toString
              Demo.String_toNumber Demo.JSON_stringify_pretty Demo.inherited_validator
              Demo.JSON_parse
              Demo.JSON_stringify offline "read file src/agent.js" _ Demo.fresh _ _
              H1 H2 H3 H4)
    as (path & r & i' & Hsteps & Hrun & Hresp & Hd & He & _).
  assert (Hp : Plan.steps (plan_of offline "read file src/agent.js")
               = [Classifier.step "read_file" [("path", JStr "src/agent.js")]])
    by (vm_compute; reflexivity).
  rewrite Hp in Hsteps. injection Hsteps as <-. evaluate_response Hresp.
  exists r, i'. repeat split; assumption.
Defined.

Lemma http_failure_reported_as_200_witness :
  intent_of offline "curl https://api.example.com/data" = "http_request"
  /\ Plan.requiresModelForPlanning (plan_of offline "curl https://api.example.com/data")
     = false
  /\ (forall args, executeTool offline (JStr "http_request") args (i_world Demo.fresh)
                   = (Thrown "EACCES: permission denied", 1%nat))
  /\ TablesFacts.failure "EACCES: permission denied" (Thrown "EACCES: permission denied")
  /\ Demo.JSON_stringify_pretty JUndefined = Returned JUndefined
  /\ exists r i',
       run offline "curl https://api.example.com/data" = (Returned r, i')
       /\ Result.response r = JStr "HTTP 200 OK:

undefined"
       /\ Result.deterministic r = true
       /\ Result.error r = None.
Proof.
  assert (H0 : Demo.JSON_stringify_pretty JUndefined = Returned JUndefined) by reflexivity.
  assert (H1 : intent_of offline "curl https://api.example.com/data" = "http_request")
    by (vm_compute; reflexivity).
  assert (H2 : Plan.requiresModelForPlanning
                 (plan_of offline "curl https://api.example.com/data") = false)
    by (vm_compute; reflexivity).
  assert (H3 : forall args, executeTool offline (JStr "http_request") args
                              (i_world Demo.fresh)
                            = (Thrown "EACCES: permission denied", 1%nat))
    by (intros args; reflexivity).
  assert (H4 : TablesFacts.failure "EACCES: permission denied"
                 (Thrown "EACCES: permission denied")) by (left; reflexivity).
  split; [exact H1|]. split; [exact H2|]. split; [exact H3|]. split; [exact H4|].
  split; [exact H0|].
  destruct (TablesFacts.http_failure_reported_as_200 Demo.Number_toString
              Demo.String_toNumber Demo.JSON_stringify_pretty Demo.inherited_validator
              Demo.JSON_parse
              Demo.JSON_stringify offline "curl https://api.example.com/data" _
              Demo.fresh _ _ H0 H1 H2 H3 H4)
    as (r & i' & Hrun & Hresp & Hd & He).
  evaluate_response Hresp. exists r, i'. repeat split; assumption.
Defined.


(** A classification as [file_read], and one whose intent is a name of
    [Object.prototype]. *)
Definition as_intent (intent : string) : Classification.t :=
  {| Classification.intent := intent;
     Classification.confidence := 0.5;
     Classification.needsModel := false;
     Classification.reason := "deterministic_match";
     Classification.tools := ["read_file"];
     Classification.entities := Classifier.extractEntities "";
     Classification.allScores := [] |}.

Lemma model_plan_without_steps_witness :
  Js.field "steps" [("plan", JStr "read the file")] = JUndefined
  /\ (exists f',
        _executeModelPlan Demo.Number_toString RESPONSE_TEMPLATES Demo.without_model
          "show me the file" (JObj [("plan", JStr "read the file")])
          (as_intent "file_read") (start Demo.fresh)
        = (Thrown "Cannot read properties of undefined (reading '0')", f'))
  /\ (exists f',
        _executeModelPlan Demo.Number_toString RESPONSE_TEMPLATES Demo.without_model
          "show me the file" (JObj [("plan", JStr "read the file")])
          (as_intent "constructor") (start Demo.fresh)
        = (Thrown "templates.error is not a function", f')).
Proof.
  assert (H1 : Js.field "steps" [("plan", JStr "read the file")] = JUndefined)
    by reflexivity.
  split; [exact H1|]. split.
  - destruct (ModelPathFacts.model_plan_without_steps Demo.Number_toString
                Demo.JSON_stringify_pretty Demo.without_model "show me the file"
                [("plan", JStr "read the file")] (as_intent "file_read")
                (start Demo.fresh) H1)
      as (o & f' & Hrun & _ & _ & Hout).
    exists f'. cbn [Classification.intent as_intent] in Hout.
    change (ModelPathFacts.without_steps "file_read")
      with (@Thrown string "Cannot read properties of undefined (reading '0')") in Hout.
    destruct o as [r|message]; [contradiction|]. rewrite Hout in Hrun. exact Hrun.
  - destruct (ModelPathFacts.model_plan_without_steps Demo.Number_toString
                Demo.JSON_stringify_pretty Demo.without_model "show me the file"
                [("plan", JStr "read the file")] (as_intent "constructor")
                (start Demo.fresh) H1)
      as (o & f' & Hrun & _ & _ & Hout).
    exists f'. cbn [Classification.intent as_intent] in Hout.
    change (ModelPathFacts.without_steps "constructor")
      with (@Thrown string "templates.error is not a function") in Hout.
    destruct o as [r|message]; [contradiction|]. rewrite Hout in Hrun. exact Hrun.
Defined.

Lemma metrics_after_calls_witness :
  i_metrics Demo.fresh = Metrics.zero
  /\ (Z.of_nat (length ["read file src/agent.js"; "npm test"; "hello"]) <= 2 ^ 53)%Z
  /\ (let m := i_metrics
                 (snd (MetricsFacts.process_all Demo.Number_toString VALIDATORS
                         RESPONSE_TEMPLATES Demo.JSON_parse Demo.JSON_stringify
                         Demo.with_silent_model
                         ["read file src/agent.js"; "npm test"; "hello"] Demo.fresh)) in
      Metrics.totalTasks m = 3
      /\ Metrics.count "shell_command" m = 1
      /\ Metrics.deterministicTasks m + Metrics.errors m <= 3
      /\ Metrics.modelCallsForResponse m <= Metrics.modelFallbacks m)%Z.
Proof.
  assert (H1 : i_metrics Demo.fresh = Metrics.zero) by reflexivity.
  assert (H2 : (Z.of_nat (length ["read file src/agent.js"; "npm test"; "hello"])
                <= 2 ^ 53)%Z) by (vm_compute; discriminate).
  split; [exact H1|]. split; [exact H2|].
  pose proof (MetricsFacts.metrics_after_calls Demo.Number_toString VALIDATORS
                RESPONSE_TEMPLATES Demo.JSON_parse Demo.JSON_stringify
                Demo.with_silent_model
                ["read file src/agent.js"; "npm test"; "hello"] Demo.fresh H1 H2) as H.
  cbv zeta in H. destruct H as (Ht & Hk & _ & Hde & Hrf & _).
  cbv zeta. rewrite Ht in Hde. split; [exact Ht|]. split; [|split; [exact Hde | exact Hrf]].
  rewrite Hk. vm_compute. reflexivity.
Defined.

Lemma refused_command_stays_refused_witness :
  ToolsFacts.refused "rm -rf build" sandbox = true
  /\ ToolsFacts.refused ("cd /tmp && " ++ "rm -rf build" ++ "; ls")%string sandbox = true.
Proof.
  assert (H1 : ToolsFacts.refused "rm -rf build" sandbox = true) by reflexivity.
  split; [exact H1|].
  exact (ToolsFacts.refused_command_stays_refused "cd /tmp && " "rm -rf build" "; ls"
           sandbox H1).
Defined.

Lemma refused_command_reported_as_success_witness :
  intent_of workstation "git commit -m reformat" = "shell_command"
  /\ Plan.steps (plan_of workstation "git commit -m reformat")
     = [Classifier.step "run_command" [("command", JStr "git commit -m reformat")]]
  /\ Plan.requiresModelForPlanning (plan_of workstation "git commit -m reformat") = false
  /\ ToolsFacts.refused "git commit -m reformat" sandbox = true
  /\ exists r i',
       run workstation "git commit -m reformat" = (Returned r, i')
       /\ Result.response r = JStr "`git commit -m reformat` completed successfully."
       /\ Result.deterministic r = true
       /\ i_world i' = 0%nat.
Proof.
  assert (H1 : intent_of workstation "git commit -m reformat" = "shell_command")
    by (vm_compute; reflexivity).
  assert (H2 : Plan.steps (plan_of workstation "git commit -m reformat")
               = [Classifier.step "run_command"
                    [("command", JStr "git commit -m reformat")]])
    by (vm_compute; reflexivity).
  assert (H3 : Plan.requiresModelForPlanning
                 (plan_of workstation "git commit -m reformat") = false)
    by (vm_compute; reflexivity).
  assert (H4 : ToolsFacts.refused "git commit -m reformat" sandbox = true)
    by (vm_compute; reflexivity).
  split; [exact H1|]. split; [exact H2|]. split; [exact H3|]. split; [exact H4|].
  destruct (IntegrationFacts.refused_command_reported_as_success Demo.Number_toString
              Demo.String_toNumber Demo.JSON_stringify_pretty Demo.inherited_validator
              Demo.JSON_parse
              Demo.JSON_stringify path_resolve execSync exchange
              unused unused unused unused unused unused unused no_prototype
              sandbox None Demo.warn "git commit -m reformat" "git commit -m reformat"
              Demo.fresh H1 H2 H3 H4)
    as (r & i' & message & Hrun & _ & _ & Hresp & Hd & Hw).
  evaluate_response Hresp. exists r, i'. repeat split; assumption.
Defined.

Lemma shell_command_end_to_end_witness :
  intent_of workstation "git status" = "shell_command"
  /\ Plan.steps (plan_of workstation "git status")
     = [Classifier.step "run_command" [("command", JStr "git status")]]
  /\ Plan.requiresModelForPlanning (plan_of workstation "git status") = false
  /\ ToolsFacts.refused "git status" sandbox = false
  /\ exists r i',
       run workstation "git status" = (Returned r, i')
       /\ Result.response r
          = JStr "`git status` failed (exit undefined):
fatal: not a git repository"
       /\ Result.deterministic r = true
       /\ i_world i' = 1%nat.
Proof.
  assert (H1 : intent_of workstation "git status" = "shell_command")
    by (vm_compute; reflexivity).
  assert (H2 : Plan.steps (plan_of workstation "git status")
               = [Classifier.step "run_command" [("command", JStr "git status")]])
    by (vm_compute; reflexivity).
  assert (H3 : Plan.requiresModelForPlanning (plan_of workstation "git status") = false)
    by (vm_compute; reflexivity).
  assert (H4 : ToolsFacts.refused "git status" sandbox = false)
    by (vm_compute; reflexivity).
  split; [exact H1|]. split; [exact H2|]. split; [exact H3|]. split; [exact H4|].
  destruct (IntegrationFacts.shell_command_end_to_end Demo.Number_toString
              Demo.String_toNumber Demo.JSON_stringify_pretty Demo.inherited_validator
              Demo.JSON_parse
              Demo.JSON_stringify path_resolve execSync exchange
              unused unused unused unused unused unused unused no_prototype
              sandbox None Demo.warn "git status" "git status" Demo.fresh H1 H2 H3 H4)
    as (r & i' & Hrun & Hresp & Hd & Hw).
  evaluate_response Hresp.
  assert (Ew : snd (execSync (JStr "git status") (Some (Tools.workingDirectory sandbox))
                      (JNum 60000) (i_world Demo.fresh)) = 1%nat) by reflexivity.
  rewrite Ew in Hw. exists r, i'. repeat split; assumption.
Defined.



Lemma search_answer_is_constant_witness :
  intent_of workstation "search for TODO in src" = "search"
  /\ Plan.requiresModelForPlanning (plan_of workstation "search for TODO in src") = false
  /\ exists r i',
       run workstation "search for TODO in src" = (Returned r, i')
       /\ Result.response r = JStr "Search complete: 0 results found."
       /\ Result.deterministic r = true.
Proof.
  assert (H1 : intent_of workstation "search for TODO in src" = "search")
    by (vm_compute; reflexivity).
  assert (H2 : Plan.requiresModelForPlanning
                 (plan_of workstation "search for TODO in src") = false)
    by (vm_compute; reflexivity).
  split; [exact H1|]. split; [exact H2|].
  destruct (IntegrationFacts.search_answer_is_constant Demo.Number_toString
              Demo.String_toNumber Demo.JSON_stringify_pretty Demo.inherited_validator
              Demo.JSON_parse
              Demo.JSON_stringify path_resolve execSync exchange
              unused unused unused unused unused unused unused no_prototype
              sandbox None Demo.warn "search for TODO in src" Demo.fresh H1 H2)
    as (r & i' & Hrun & Hresp & Hd).
  evaluate_response Hresp. exists r, i'. repeat split; assumption.
Defined.

Lemma http_answer_is_constant_witness :
  intent_of workstation "curl https://api.example.com/data" = "http_request"
  /\ Plan.requiresModelForPlanning
       (plan_of workstation "curl https://api.example.com/data") = false
  /\ Demo.JSON_stringify_pretty JUndefined = Returned JUndefined
  /\ exists r i',
       run workstation "curl https://api.example.com/data" = (Returned r, i')
       /\ Result.response r = JStr "HTTP 200 OK:

undefined"
       /\ Result.deterministic r = true.
Proof.
  assert (H0 : Demo.JSON_stringify_pretty JUndefined = Returned JUndefined) by reflexivity.
  assert (H1 : intent_of workstation "curl https://api.example.com/data"
               = "http_request") by (vm_compute; reflexivity).
  assert (H2 : Plan.requiresModelForPlanning
                 (plan_of workstation "curl https://api.example.com/data") = false)
    by (vm_compute; reflexivity).
  split; [exact H1|]. split; [exact H2|]. split; [exact H0|].
  destruct (IntegrationFacts.http_answer_is_constant Demo.Number_toString
              Demo.String_toNumber Demo.JSON_stringify_pretty Demo.inherited_validator
              Demo.JSON_parse
              Demo.JSON_stringify path_resolve execSync exchange
              unused unused unused unused unused unused unused no_prototype
              sandbox None Demo.warn "curl https://api.example.com/data" Demo.fresh
              H0 H1 H2)
    as (r & i' & Hrun & Hresp & Hd).
  evaluate_response Hresp. exists r, i'. repeat split; assumption.
Defined.

End Examples.
